(** * Price tracker: a shallow embedding of [src/main.py]

    The development follows the [PriceTracker] class: the price parser
    ([parse_price_text]), the two extractors ([extract_price_from_soup],
    [get_price_with_playwright]), the orchestrator ([get_price]), the store
    operations on the two SQLite tables ([add_product], [delete_product],
    [check_all_prices], [clear_history], [reset_database]) and the
    scheduler ([start_tracking], [stop_tracking], [tracking_loop]).

    Conventions of the model.
    - A Python [str] is a [string] whose characters are code points
      below 256; on these [\d] is exactly [0-9].
    - A Python [float] that was read from a decimal literal is the
      rational it denotes ([Q]); binary rounding is outside the model.
    - Everything the program asks of the outside (HTTP, the browser, the
      clock, the regex engine, the Tk variables) is an explicit argument.
    - What the program does to the outside (dialogs, console lines,
      sleeps, requests) is recorded as a list of [event]s. *)

From Stdlib Require Import String Ascii List ZArith NArith QArith Lia Bool.
From Stdlib Require Import DecimalString Qround.
Import ListNotations.
Open Scope string_scope.
Open Scope Z_scope.
Open Scope list_scope.

(** ** Python strings *)

Module PyStr.

Definition code (c : ascii) : N := N_of_ascii c.

(** [\d] on code points below 256. *)
Definition is_digit (c : ascii) : bool :=
  ((48 <=? code c) && (code c <=? 57))%N.

(** [str.isspace] on code points below 256: TAB..CR, FS..US, space,
    NEL and NBSP. *)
Definition is_space (c : ascii) : bool :=
  (((9 <=? code c) && (code c <=? 13)) || ((28 <=? code c) && (code c <=? 32))
   || (code c =? 133) || (code c =? 160))%N.

Definition is_period (c : ascii) : bool := Ascii.eqb c ".".
Definition is_comma (c : ascii) : bool := Ascii.eqb c ",".

Fixpoint lstrip (s : string) : string :=
  match s with
  | String c s' => if is_space c then lstrip s' else s
  | EmptyString => EmptyString
  end.

Fixpoint rstrip (s : string) : string :=
  match s with
  | String c s' =>
      match rstrip s' with
      | EmptyString => if is_space c then EmptyString else String c EmptyString
      | r => String c r
      end
  | EmptyString => EmptyString
  end.

(** [s.strip()] *)
Definition strip (s : string) : string := rstrip (lstrip s).

(** [re.sub(r'[...]', '', s)] for a one-character class: the characters
    matching the class are deleted, so those satisfying [keep] stay. *)
Fixpoint keep_chars (keep : ascii -> bool) (s : string) : string :=
  match s with
  | String c s' =>
      if keep c then String c (keep_chars keep s') else keep_chars keep s'
  | EmptyString => EmptyString
  end.

Fixpoint all_chars (p : ascii -> bool) (s : string) : bool :=
  match s with
  | String c s' => p c && all_chars p s'
  | EmptyString => true
  end.

(** Truth value of a string: [if s]. *)
Definition nonempty (s : string) : bool :=
  match s with EmptyString => false | _ => true end.

Definition digit_value (c : ascii) : Z := Z.of_N (code c) - 48.

(** Value of a run of decimal digits, most significant first. *)
Fixpoint digits_value (acc : Z) (s : string) : Z :=
  match s with
  | String c s' => digits_value (10 * acc + digit_value c) s'
  | EmptyString => acc
  end.

(** Longest prefix of digits, and what follows it. *)
Fixpoint span_digits (s : string) : string * string :=
  match s with
  | String c s' =>
      if is_digit c
      then let '(d, r) := span_digits s' in (String c d, r)
      else (EmptyString, s)
  | EmptyString => (EmptyString, EmptyString)
  end.

Fixpoint pow10 (n : nat) : positive :=
  match n with
  | O => 1
  | S n' => 10 * pow10 n'
  end.

(** [float(s)] for the strings [parse_price_text] hands to it, which
    hold digits and periods only ([clean_digits_periods] below).  On
    these [float] accepts exactly: digits, digits with one period
    before, inside or after them; at least one digit.  [None] is the
    [ValueError].  The value is the decimal read exactly:
    the digits as an integer over [10 ^ (number of fraction digits)]. *)
Definition float_of_decimal (s : string) : option Q :=
  let '(ip, rest) := span_digits s in
  match rest with
  | EmptyString =>
      if nonempty ip then Some (digits_value 0 ip # 1) else None
  | String c fp =>
      if is_period c && all_chars is_digit fp
         && (nonempty ip || nonempty fp)
      then Some (digits_value 0 (ip ++ fp)%string # pow10 (String.length fp))
      else None
  end.

(** [int(s)] on plain decimal literals: blanks around, an optional sign,
    digits.  On these it is the integer Python computes; it stands for
    [int] in the worked runs. *)
Definition int_of_decimal (s : string) : option Z :=
  let unsigned (d : string) : option Z :=
    if nonempty d && all_chars is_digit d then Some (digits_value 0 d)
    else None in
  match strip s with
  | String "-" d => option_map Z.opp (unsigned d)
  | String "+" d => unsigned d
  | d => unsigned d
  end.

End PyStr.

(** ** Prices *)

(** Truth value of a float: [if price]. *)
Definition truthy (p : Q) : bool := negb (Qeq_bool p 0).

(** Truth value of an optional float: [None] and [0.0] are false. *)
Definition truthy_opt (p : option Q) : bool :=
  match p with
  | Some q => truthy q
  | None => false
  end.

Definition Qlt_bool (x y : Q) : bool := negb (Qle_bool y x).

(** ** Price parser *)

(** The class [[^\d.,]] complemented: what the first [re.sub] keeps. *)
Definition price_char (c : ascii) : bool :=
  PyStr.is_digit c || PyStr.is_period c || PyStr.is_comma c.

Definition not_comma (c : ascii) : bool := negb (PyStr.is_comma c).

(** The two [re.sub] calls of [parse_price_text]. *)
Definition clean_price_text (text : string) : string :=
  PyStr.keep_chars not_comma (PyStr.keep_chars price_char (PyStr.strip text)).

(** [parse_price_text]: both arms of [if '.' in text] call [float(text)];
    the bare [except] turns its [ValueError] into [None]. *)
Definition parse_price_text (text : string) : option Q :=
  if negb (PyStr.nonempty text) then None
  else PyStr.float_of_decimal (clean_price_text text).

(** ** The parser as the specification words it

    "Strip every character that is not a digit, a period, or a comma;
    then strip all commas; parse the remaining string as a decimal.
    Returns absent on empty input or parse failure."  The definitions
    below follow these words and use nothing of the parser above: the
    characters are named one by one, a digit is worth its place among the
    ten digits, a numeral is worth the sum of its digits times the powers
    of ten, and a decimal is a whole part, then possibly a period and a
    fraction part, with at least one digit. *)

Definition spec_one_of (chars : string) (c : ascii) : bool :=
  existsb (Ascii.eqb c) (list_ascii_of_string chars).

(** Strip every character that is not one of [chars]. *)
Definition spec_strip_all_but (chars : string) (t : string) : string :=
  string_of_list_ascii (filter (spec_one_of chars) (list_ascii_of_string t)).

(** Strip every character that is one of [chars]. *)
Definition spec_strip (chars : string) (t : string) : string :=
  string_of_list_ascii
    (filter (fun c => negb (spec_one_of chars c)) (list_ascii_of_string t)).

(** The place of a character in a string, from 0. *)
Fixpoint spec_place (c : ascii) (chars : string) : option Z :=
  match chars with
  | String d rest =>
      if Ascii.eqb c d then Some 0
      else option_map Z.succ (spec_place c rest)
  | EmptyString => None
  end.

Definition spec_digit (c : ascii) : option Z := spec_place c "0123456789".

(** The number a run of digits writes; [None] when a character is not a
    digit. *)
Fixpoint spec_number (s : string) : option Z :=
  match s with
  | String c rest =>
      match spec_digit c, spec_number rest with
      | Some d, Some n => Some (d * 10 ^ Z.of_nat (String.length rest) + n)
      | _, _ => None
      end
  | EmptyString => Some 0
  end.

(** The text before the first period, and the text after it if there is
    a period. *)
Fixpoint spec_before_period (s : string) : string :=
  match s with
  | String c rest =>
      if Ascii.eqb c "." then EmptyString
      else String c (spec_before_period rest)
  | EmptyString => EmptyString
  end.

Fixpoint spec_after_period (s : string) : option string :=
  match s with
  | String c rest => if Ascii.eqb c "." then Some rest else spec_after_period rest
  | EmptyString => None
  end.

(** The decimal a text writes, absent when it writes none. *)
Definition spec_decimal (s : string) : option Q :=
  let whole := spec_before_period s in
  match spec_after_period s with
  | None =>
      match whole with
      | EmptyString => None
      | _ => option_map inject_Z (spec_number whole)
      end
  | Some fraction =>
      match spec_number whole, spec_number fraction with
      | Some a, Some b =>
          match (whole ++ fraction)%string with
          | EmptyString => None
          | _ => Some (inject_Z a
                       + inject_Z b
                         / inject_Z (10 ^ Z.of_nat (String.length fraction)))%Q
          end
      | _, _ => None
      end
  end.

Definition parsePrice_spec (t : string) : option Q :=
  match t with
  | EmptyString => None
  | _ => spec_decimal (spec_strip "," (spec_strip_all_but "0123456789.," t))
  end.

(** Two results agree: both absent, or both present and equal as numbers. *)
Definition same_price (a b : option Q) : Prop :=
  match a, b with
  | Some x, Some y => (x == y)%Q
  | None, None => True
  | _, _ => False
  end.

(** ** Exceptions and observable effects *)

(** The exception classes the program meets; each carries [str(e)]. *)
Inductive exn : Type :=
| RequestException (text : string)   (* requests: connection, timeout, HTTPError of raise_for_status *)
| SelectorError (text : string)      (* soup.select on a malformed selector *)
| PlaywrightError (text : string)
| IntegrityError (text : string)     (* sqlite3 *)
| ValueError (text : string)
| OtherException (text : string).

Definition exn_text (e : exn) : string :=
  match e with
  | RequestException t | SelectorError t | PlaywrightError t
  | IntegrityError t | ValueError t | OtherException t => t
  end.

(** A call that returns or raises. *)
Inductive Exc (A : Type) : Type :=
| Return (a : A)
| Raise (e : exn).
Arguments Return {A} a.
Arguments Raise {A} e.

Definition bind {A B : Type} (m : Exc A) (k : A -> Exc B) : Exc B :=
  match m with
  | Return a => k a
  | Raise e => Raise e
  end.

(** [try: m  except Exception as e: h e] *)
Definition try_except {A : Type} (m : Exc A) (h : exn -> A) : A :=
  match m with
  | Return a => a
  | Raise e => h e
  end.

Declare Scope exc_scope.
Delimit Scope exc_scope with exc.
Notation "x <- m ;; k" := (bind m (fun x => k))
  (at level 61, m at next level, right associativity) : exc_scope.

(** The payload of [show_notification]: which alert, for which product
    name, at which new price (the message text renders these). *)
Inductive alert : Type :=
| PriceDrop (name : string) (new_price : Q)
| TargetReached (name : string) (new_price : Q).

Inductive event : Type :=
| EvHttpGet (url user_agent : string)      (* requests.get issued *)
| EvPlaywright (url user_agent : string)   (* browser session of the rendered extractor *)
| EvPrint (prefix : string) (e : exn)      (* print(f"prefix{e}") *)
| EvShowError (title message : string)     (* messagebox.showerror *)
| EvShowWarning (title message : string)
| EvShowInfo (title message : string)
| EvStatus (message : string)              (* status_var.set *)
| EvClearEntries
| EvLoadProducts                           (* load_products: refresh of the tree view *)
| EvNotify (a : alert)                     (* show_notification *)
| EvThreadStart                            (* tracking thread started *)
| EvSleep (seconds : nat).                 (* time.sleep outside the wait loop *)

(** ** The outside world *)

(** A parsed page as the static extractor uses it: for a CSS selector,
    the [get_text()] of the elements [soup.select] finds, in document
    order (or the exception it raises); and the text of the whole page. *)
Record Soup : Type := {
  soup_select : string -> Exc (list string);
  soup_get_text : string
}.

(** What [page.query_selector(sel)] followed by [element.inner_text()]
    gives on a rendered page: the text of the first match, no match, or
    an exception from either call. *)
Inductive probe : Type :=
| ProbeText (text : string)
| ProbeNone
| ProbeRaise (e : exn).

Record World : Type := {
  (** [requests.get(url, headers, timeout=10)], [raise_for_status()] and
      the parse of the body, by URL and User-Agent. *)
  requests_get : string -> string -> Exc Soup;
  (** Browser launch, [new_page], headers and [page.goto(url)], by URL
      and User-Agent: the rendered page, or the exception raised. *)
  playwright_goto : string -> string -> Exc (string -> probe)
}.

(** The Tk variables of the settings tab. *)
Record Settings : Type := {
  interval_var : string;
  user_agent_var : string;
  notify_price_drop : bool;
  notify_target_reached : bool
}.

(** Truth value of an optional selector: [None] and [''] are false. *)
Definition selector_given (selector : option string) : option string :=
  match selector with
  | Some s => if PyStr.nonempty s then Some s else None
  | None => None
  end.

(** ** Static extractor *)

Definition price_patterns : list string :=
  [ "\$[\d,]+\.?\d*";
    "USD\s*[\d,]+\.?\d*";
    "[\d,]+\.?\d*\s*USD";
    "Price:\s*\$?[\d,]+\.?\d*";
    "[\d,]+\.?\d*" ].

Definition common_selectors : list string :=
  [ ".price"; "#price"; ".product-price"; ".current-price";
    "[data-price]"; ".price-current"; ".price-now";
    ".offer-price"; ".sale-price"; ".final-price" ].

(** [for element in elements: price = parse_price_text(...);
     if price: return price] *)
Fixpoint first_price (texts : list string) : option Q :=
  match texts with
  | [] => None
  | t :: rest =>
      match parse_price_text t with
      | Some p => if truthy p then Some p else first_price rest
      | None => first_price rest
      end
  end.

(** [for match in matches: ...; if price and price > 0: return price] *)
Fixpoint first_positive_price (matches : list string) : option Q :=
  match matches with
  | [] => None
  | m :: rest =>
      match parse_price_text m with
      | Some p =>
          if truthy p && Qlt_bool 0 p then Some p
          else first_positive_price rest
      | None => first_positive_price rest
      end
  end.

Fixpoint try_selectors (soup : Soup) (sels : list string) : Exc (option Q) :=
  match sels with
  | [] => Return None
  | sel :: rest =>
      (texts <- soup_select soup sel ;;
       match first_price texts with
       | Some p => Return (Some p)
       | None => try_selectors soup rest
       end)%exc
  end.

Section Extraction.

(** [re.findall(pattern, text)]: the matches in order of occurrence
    (the patterns have no groups, so each match is the matched text). *)
Variable re_findall : string -> string -> list string.

Fixpoint try_patterns (text : string) (patterns : list string) : option Q :=
  match patterns with
  | [] => None
  | pat :: rest =>
      match first_positive_price (re_findall pat text) with
      | Some p => Some p
      | None => try_patterns text rest
      end
  end.

Definition extract_price_from_soup (soup : Soup) (selector : option string)
  : Exc (option Q) :=
  (custom <- match selector_given selector with
             | Some s => texts <- soup_select soup s ;; Return (first_price texts)
             | None => Return None
             end ;;
   match custom with
   | Some p => Return (Some p)
   | None =>
       common <- try_selectors soup common_selectors ;;
       match common with
       | Some p => Return (Some p)
       | None => Return (try_patterns (soup_get_text soup) price_patterns)
       end
   end)%exc.

Variable W : World.
Variable cfg : Settings.

(** ** Rendered extractor *)

Definition playwright_selectors : list string :=
  [ ".price"; "#price"; ".product-price"; ".current-price";
    "[data-price]"; ".price-current"; ".price-now" ].

(** One guarded probe: [try: element = page.query_selector(sel); if
    element: ...; if price: return price  except: pass]. *)
Definition probe_price (page : string -> probe) (sel : string) : option Q :=
  match page sel with
  | ProbeText text =>
      match parse_price_text text with
      | Some p => if truthy p then Some p else None
      | None => None
      end
  | ProbeNone => None
  | ProbeRaise _ => None
  end.

Fixpoint probe_selectors (page : string -> probe) (sels : list string)
  : option Q :=
  match sels with
  | [] => None
  | sel :: rest =>
      match probe_price page sel with
      | Some p => Some p
      | None => probe_selectors page rest
      end
  end.

Definition get_price_with_playwright (url : string) (selector : option string)
  : option Q * list event :=
  let ua := user_agent_var cfg in
  match playwright_goto W url ua with
  | Raise e => (None, [EvPlaywright url ua; EvPrint "Playwright error: " e])
  | Return page =>
      let custom := match selector_given selector with
                    | Some s => probe_price page s
                    | None => None
                    end in
      match custom with
      | Some p => (Some p, [EvPlaywright url ua])
      | None => (probe_selectors page playwright_selectors, [EvPlaywright url ua])
      end
  end.

(** ** Detection orchestrator *)

(** Method 1 of [get_price]: the request and the static extraction, up
    to the value bound to [price]. *)
Definition static_extract (url : string) (selector : option string)
  : Exc (option Q) :=
  (soup <- requests_get W url (user_agent_var cfg) ;;
   extract_price_from_soup soup selector)%exc.

Definition get_price (url : string) (selector : option string)
  : option Q * list event :=
  let ua := user_agent_var cfg in
  match static_extract url selector with
  | Return price =>
      if truthy_opt price then (price, [EvHttpGet url ua])
      else
        let '(r, evs) := get_price_with_playwright url selector in
        (r, EvHttpGet url ua :: evs)
  | Raise e => (None, [EvHttpGet url ua; EvPrint "Error getting price: " e])
  end.

End Extraction.

(** ** The store: the two tables of [init_database] *)

(** A row of [products]. *)
Record product : Type := {
  p_id : Z;                        (* INTEGER PRIMARY KEY AUTOINCREMENT *)
  p_name : string;                 (* TEXT NOT NULL *)
  p_url : string;                  (* TEXT NOT NULL UNIQUE *)
  p_target_price : option Q;       (* REAL *)
  p_current_price : option Q;      (* REAL *)
  p_last_checked : option string;  (* TIMESTAMP *)
  p_created_at : string;           (* TIMESTAMP DEFAULT CURRENT_TIMESTAMP *)
  p_selector : option string;      (* TEXT *)
  p_active : Z                     (* INTEGER DEFAULT 1 *)
}.

(** A row of [price_history]. *)
Record observation : Type := {
  h_id : Z;
  h_product_id : Z;
  h_price : Q;
  h_timestamp : string             (* TIMESTAMP DEFAULT CURRENT_TIMESTAMP *)
}.

(** Rows are kept in rowid order; the [_seq] fields are the AUTOINCREMENT
    counters (the largest rowid ever handed out). *)
Record database : Type := {
  products : list product;
  products_seq : Z;
  price_history : list observation;
  price_history_seq : Z
}.

(** The tables as [init_database] creates them in a fresh file. *)
Definition empty_db : database :=
  {| products := []; products_seq := 0;
     price_history := []; price_history_seq := 0 |}.

(** [CREATE TABLE IF NOT EXISTS]: an existing file is left as it is. *)
Definition init_database (file : option database) : database :=
  match file with
  | Some db => db
  | None => empty_db
  end.

(** [INSERT INTO products (name, url, target_price, selector)]: the
    column constraint [url TEXT NOT NULL UNIQUE] is checked against every
    row of the table. *)
Definition insert_product (db : database) (name url : string)
  (target_price : option Q) (selector : string) (now : string) : Exc database :=
  if existsb (fun p => String.eqb (p_url p) url) (products db)
  then Raise (IntegrityError "UNIQUE constraint failed: products.url")
  else
    let id := products_seq db + 1 in
    Return {| products := products db ++
                [ {| p_id := id; p_name := name; p_url := url;
                     p_target_price := target_price; p_current_price := None;
                     p_last_checked := None; p_created_at := now;
                     p_selector := Some selector; p_active := 1 |} ];
              products_seq := id;
              price_history := price_history db;
              price_history_seq := price_history_seq db |}.

(** The row [p] after [SET current_price = ?, last_checked = ?]. *)
Definition with_price (price : Q) (now : string) (p : product) : product :=
  {| p_id := p_id p; p_name := p_name p; p_url := p_url p;
     p_target_price := p_target_price p;
     p_current_price := Some price;
     p_last_checked := Some now;
     p_created_at := p_created_at p;
     p_selector := p_selector p; p_active := p_active p |}.

(** The row [p] after [SET active = 0]. *)
Definition deactivated (p : product) : product :=
  {| p_id := p_id p; p_name := p_name p; p_url := p_url p;
     p_target_price := p_target_price p;
     p_current_price := p_current_price p;
     p_last_checked := p_last_checked p;
     p_created_at := p_created_at p;
     p_selector := p_selector p; p_active := 0 |}.

(** [UPDATE products SET current_price = ?, last_checked = ? WHERE id = ?] *)
Definition update_price (db : database) (id : Z) (price : Q) (now : string)
  : database :=
  {| products :=
       map (fun p => if p_id p =? id then with_price price now p else p)
         (products db);
     products_seq := products_seq db;
     price_history := price_history db;
     price_history_seq := price_history_seq db |}.

(** [INSERT INTO price_history (product_id, price)] *)
Definition insert_history (db : database) (product_id : Z) (price : Q)
  (now : string) : database :=
  let id := price_history_seq db + 1 in
  {| products := products db;
     products_seq := products_seq db;
     price_history := price_history db ++
       [ {| h_id := id; h_product_id := product_id; h_price := price;
            h_timestamp := now |} ];
     price_history_seq := id |}.

(** [UPDATE products SET active = 0 WHERE name = ?] *)
Definition deactivate_by_name (db : database) (product_name : string)
  : database :=
  {| products :=
       map (fun p => if String.eqb (p_name p) product_name then deactivated p
                     else p) (products db);
     products_seq := products_seq db;
     price_history := price_history db;
     price_history_seq := price_history_seq db |}.

(** [SELECT ... FROM products WHERE active = 1] *)
Definition active_products (db : database) : list product :=
  filter (fun p => p_active p =? 1) (products db).

(** The row with a given id (the primary key). *)
Definition product_by_id (db : database) (id : Z) : option product :=
  find (fun p => p_id p =? id) (products db).

(** The observations of a product, oldest first. *)
Definition observations_of (db : database) (id : Z) : list observation :=
  filter (fun h => h_product_id h =? id) (price_history db).

(** ** Product management *)

Section Products.

(** [float(s)] on the text of the target-price entry: [None] is the
    [ValueError]. *)
Variable py_float : string -> option Q.

(** [add_product]: the four entries as typed, and the store's clock. *)
Definition add_product (name_entry url_entry target_price_entry
  selector_entry : string) (now : string) (db : database)
  : database * list event :=
  let name := PyStr.strip name_entry in
  let url := PyStr.strip url_entry in
  let target_price := PyStr.strip target_price_entry in
  let selector := PyStr.strip selector_entry in
  if negb (PyStr.nonempty name) || negb (PyStr.nonempty url)
  then (db, [EvShowError "Error" "Please provide both product name and URL"])
  else
    let parsed : Exc (option Q) :=
      if PyStr.nonempty target_price
      then match py_float target_price with
           | Some t => Return (Some t)
           | None => Raise (ValueError "could not convert string to float")
           end
      else Return None in
    match parsed with
    | Raise _ => (db, [EvShowError "Error" "Invalid target price"])
    | Return target =>
        match insert_product db name url target selector now with
        | Return db' =>
            (db', [EvClearEntries; EvLoadProducts;
                   EvShowInfo "Success" "Product added successfully!"])
        | Raise (IntegrityError _) =>
            (db, [EvShowError "Error" "This URL is already being tracked"])
        | Raise e =>
            (db, [EvShowError "Error" ("Failed to add product: " ++ exn_text e)%string])
        end
    end.

End Products.

(** A cell of the tree view as [Treeview.item] hands it back: ttk passes
    every cell through [_convert_stringval], which gives [int(str(value))]
    when that succeeds and the text otherwise. *)
Inductive tk_value : Type :=
| TkInt (z : Z)
| TkStr (s : string).

(** [_convert_stringval] on the text of a cell; [py_int] is [int] on a
    [str], [None] its [ValueError]. *)
Definition convert_stringval (py_int : string -> option Z) (cell : string)
  : tk_value :=
  match py_int cell with
  | Some z => TkInt z
  | None => TkStr cell
  end.

(** The text that [name = ?] compares the column with. A [str] is bound
    as TEXT and compared as it is. An [int] is bound as INTEGER, which
    sqlite3 refuses outside 64 bits with an [OverflowError]; against the
    TEXT column SQLite compares the integer's decimal text. *)
Definition bind_name_param (v : tk_value) : Exc string :=
  match v with
  | TkStr s => Return s
  | TkInt z =>
      if (- 2 ^ 63 <=? z) && (z <? 2 ^ 63)
      then Return (NilZero.string_of_int (Z.to_int z))
      else Raise (OtherException
                    "Python int too large to convert to SQLite INTEGER")
  end.

(** [delete_product]: [selection] holds, for each selected row of the
    tree view, [item['values'][0]] as ttk hands it back; [confirm] is the
    answer to the dialog. The [execute] is not guarded: what it raises
    leaves the callback, Tk reports it, and nothing is written. *)
Definition delete_product (selection : list tk_value) (confirm : bool)
  (db : database) : database * list event :=
  match selection with
  | [] => (db, [EvShowWarning "Warning" "Please select a product to delete"])
  | product_name :: _ =>
      if confirm
      then match bind_name_param product_name with
           | Return text =>
               (deactivate_by_name db text,
                [EvLoadProducts;
                 EvShowInfo "Success" "Product deleted successfully"])
           | Raise e => (db, [EvPrint "Exception in Tkinter callback: " e])
           end
      else (db, [])
  end.

(** [clear_history]: [DELETE FROM price_history]. *)
Definition clear_history (confirm : bool) (db : database)
  : database * list event :=
  if confirm
  then ({| products := products db; products_seq := products_seq db;
           price_history := []; price_history_seq := price_history_seq db |},
        [EvShowInfo "Success" "Price history cleared"])
  else (db, []).

(** [reset_database]: both tables dropped, then [init_database]. *)
Definition reset_database (confirm : bool) (db : database)
  : database * list event :=
  if confirm
  then (init_database None,
        [EvLoadProducts; EvShowInfo "Success" "Database reset successfully"])
  else (db, []).

(** ** One check cycle *)

(** A detection call as [check_all_prices] sees it: the value returned or
    the exception raised, and what the call did on the way. *)
Definition detector : Type :=
  string -> option string -> Exc (option Q) * list event.

Section Cycle.

Variable cfg : Settings.
(** [self.get_price]. *)
Variable detect : detector.
(** [datetime.now().isoformat()] read while the product with the given id
    is handled, and SQLite's [CURRENT_TIMESTAMP] for the row inserted
    then. *)
Variable datetime_now : Z -> string.
Variable current_timestamp : Z -> string.

(** [old_price and new_price < old_price and self.notify_price_drop.get()] *)
Definition price_drop_fires (old_price : option Q) (new_price : Q) : bool :=
  match old_price with
  | Some old => truthy old && Qlt_bool new_price old && notify_price_drop cfg
  | None => false
  end.

(** [target_price and new_price <= target_price and
     self.notify_target_reached.get()] *)
Definition target_reached_fires (target_price : option Q) (new_price : Q)
  : bool :=
  match target_price with
  | Some target =>
      truthy target && Qle_bool new_price target && notify_target_reached cfg
  | None => false
  end.

Definition notifications (p : product) (new_price : Q) : list event :=
  (if price_drop_fires (p_current_price p) new_price
   then [EvNotify (PriceDrop (p_name p) new_price)] else [])
  ++ (if target_reached_fires (p_target_price p) new_price
      then [EvNotify (TargetReached (p_name p) new_price)] else []).

(** The body of [if new_price:] for the fetched row [p]. *)
Definition record_price (db : database) (p : product) (new_price : Q)
  : database * list event :=
  let db1 := update_price db (p_id p) new_price (datetime_now (p_id p)) in
  let db2 := insert_history db1 (p_id p) new_price (current_timestamp (p_id p)) in
  (db2, notifications p new_price).

(** The [try] block of the loop for the fetched row [p]. *)
Definition check_product (db : database) (p : product)
  : Exc (database * list event) * list event :=
  let '(r, evs) := detect (p_url p) (p_selector p) in
  ((new_price <- r ;;
    match new_price with
    | Some np => if truthy np then Return (record_price db p np)
                 else Return (db, [])
    | None => Return (db, [])
    end)%exc, evs).

(** One turn of the loop: the [try] block and its [except Exception]. *)
Definition check_step (db : database) (p : product) : database * list event :=
  let '(body, evs) := check_product db p in
  let '(db', evs') :=
    try_except body
      (fun e => (db, [EvPrint ("Error checking price for " ++ p_name p ++ ": ")%string e])) in
  (db', evs ++ evs').

Fixpoint check_loop (fetched : list product) (db : database)
  : database * list event :=
  match fetched with
  | [] => (db, [])
  | p :: rest =>
      let '(db1, ev1) := check_step db p in
      let '(db2, ev2) := check_loop rest db1 in
      (db2, ev1 ++ ev2)
  end.

(** The price a check of [p] stores, if any: what [detect] returned, when
    it returned a true value. *)
Definition stored_price (p : product) : option Q :=
  match fst (detect (p_url p) (p_selector p)) with
  | Return (Some np) => if truthy np then Some np else None
  | Return None => None
  | Raise _ => None
  end.

(** What the check of [p] writes to the log. *)
Definition step_log (p : product) : list event :=
  snd (detect (p_url p) (p_selector p))
  ++ match fst (detect (p_url p) (p_selector p)) with
     | Return (Some np) => if truthy np then notifications p np else []
     | Return None => []
     | Raise e =>
         [EvPrint ("Error checking price for " ++ p_name p ++ ": ")%string e]
     end.

(** [check_all_prices]: the active rows are fetched once, then handled in
    order. *)
Definition check_all_prices (db : database) : database * list event :=
  check_loop (active_products db) db.

End Cycle.

(** ** The cycle with its control flow *)

(** [try: m  except Exception as e: h e] inside a function that can
    itself raise: what the handler raises leaves the function. *)
Definition catch {A : Type} (m : Exc A) (h : exn -> Exc A) : Exc A :=
  match m with
  | Return a => Return a
  | Raise e => h e
  end.

Section CycleRun.

Variable cfg : Settings.
Variable detect : detector.
Variable datetime_now : Z -> string.
Variable current_timestamp : Z -> string.

(** The [for] loop of [check_all_prices] as the interpreter runs it: an
    exception that leaves a turn ends the loop and the function. Each turn
    is the [try] block of [check_product] under its [except Exception],
    whose handler prints and goes on. *)
Fixpoint check_loop_run (fetched : list product) (db : database)
  : Exc (database * list event) :=
  match fetched with
  | [] => Return (db, [])
  | p :: rest =>
      let '(body, evs) :=
        check_product cfg detect datetime_now current_timestamp db p in
      (turn <- catch body
                 (fun e => Return
                    (db, [EvPrint ("Error checking price for "
                                   ++ p_name p ++ ": ")%string e])) ;;
       later <- check_loop_run rest (fst turn) ;;
       Return (fst later, (evs ++ snd turn) ++ snd later))%exc
  end.

(** The same loop without the [try]: the block alone in the loop body. *)
Fixpoint check_loop_unguarded (fetched : list product) (db : database)
  : Exc (database * list event) :=
  match fetched with
  | [] => Return (db, [])
  | p :: rest =>
      let '(body, evs) :=
        check_product cfg detect datetime_now current_timestamp db p in
      (turn <- body ;;
       later <- check_loop_unguarded rest (fst turn) ;;
       Return (fst later, (evs ++ snd turn) ++ snd later))%exc
  end.

(** [check_all_prices] with its exceptions: the store is taken to be
    reachable, so that [connect], [execute], [commit] and [close] return. *)
Definition check_all_prices_run (db : database) : Exc (database * list event) :=
  check_loop_run (active_products db) db.

End CycleRun.

(** The detector of the program: [get_price], which returns. *)
Definition get_price_detector (re_findall : string -> string -> list string)
  (W : World) (cfg : Settings) : detector :=
  fun url selector =>
    let '(r, evs) := get_price re_findall W cfg url selector in (Return r, evs).

(** ** Scheduler *)

(** [start_tracking] on the flag [self.tracking_active]. *)
Definition start_tracking (tracking_active : bool) : bool * list event :=
  if tracking_active
  then (tracking_active, [EvShowInfo "Info" "Tracking is already active"])
  else (true, [EvThreadStart; EvStatus "Auto tracking started";
               EvShowInfo "Success" "Automatic price tracking started"]).

(** [stop_tracking] *)
Definition stop_tracking (tracking_active : bool) : bool * list event :=
  (false, [EvStatus "Auto tracking stopped";
           EvShowInfo "Success" "Automatic price tracking stopped"]).

Inductive loop_status : Type :=
| Exited          (* the [while] test read False: the thread ends *)
| StillRunning.   (* the turns allotted are used up, the loop goes on *)

Record loop_state : Type := {
  ls_status : loop_status;
  ls_time : nat;             (* seconds slept by the thread so far *)
  ls_db : database;
  ls_log : list event
}.

Section Scheduler.

Variable cfg : Settings.
(** [int(s)] on the text of the interval entry: [None] is the [ValueError]. *)
Variable py_int : string -> option Z.
(** [self.tracking_active] as the tracking thread reads it, by the
    thread's own clock: the seconds it has slept since it started.  The
    other thread's [start_tracking] and [stop_tracking] decide its values. *)
Variable flag : nat -> bool.
(** [self.check_all_prices()] run at a given time of that clock: the
    cycle's result, or an exception of the store. *)
Variable cycle : nat -> database -> Exc (database * list event).

(** [for _ in range(n): if not self.tracking_active: break; time.sleep(1)]
    entered at time [t]; the result is the time at which it is left. *)
Fixpoint wait_loop (t : nat) (n : nat) : nat :=
  match n with
  | O => t
  | S n' => if flag t then wait_loop (S t) n' else t
  end.

(** The body of [while self.tracking_active], entered at time [t]: the
    time at which it ends, the store and the log. *)
Definition loop_body (t : nat) (db : database) : nat * database * list event :=
  match cycle t db with
  | Return (db1, evs) =>
      let v := interval_var cfg in
      match py_int v with
      | Some interval_minutes =>
          (wait_loop t (Z.to_nat (interval_minutes * 60)), db1,
           evs ++ [EvLoadProducts])
      | None =>
          (t + 60, db1,
           evs ++ [EvLoadProducts;
                   EvPrint "Tracking error: "
                     (ValueError ("invalid literal for int() with base 10: " ++ v)%string);
                   EvSleep 60])%nat
      end
  | Raise e => (t + 60, db, [EvPrint "Tracking error: " e; EvSleep 60])%nat
  end.

(** [tracking_loop], for at most [turns] turns of the [while]. *)
Fixpoint tracking_loop (turns : nat) (t : nat) (db : database) : loop_state :=
  match turns with
  | O => {| ls_status := StillRunning; ls_time := t; ls_db := db; ls_log := [] |}
  | S turns' =>
      if flag t
      then
        let '(t1, db1, evs) := loop_body t db in
        let s := tracking_loop turns' t1 db1 in
        {| ls_status := ls_status s; ls_time := ls_time s; ls_db := ls_db s;
           ls_log := evs ++ ls_log s |}
      else {| ls_status := Exited; ls_time := t; ls_db := db; ls_log := [] |}
  end.

End Scheduler.

(** Whether a log shows a browser session, that is, whether
    [get_price_with_playwright] was entered. *)
Definition is_playwright (ev : event) : bool :=
  match ev with
  | EvPlaywright _ _ => true
  | _ => false
  end.

Definition rendered_invoked (log : list event) : bool :=
  existsb is_playwright log.

(** ** States of the store the program can reach *)

Definition is_show_error (ev : event) : bool :=
  match ev with
  | EvShowError _ _ => true
  | _ => false
  end.

(** Whether a log shows an error dialog. *)
Definition error_shown (log : list event) : bool := existsb is_show_error log.

(** From the fresh file, by the operations that write to the store; the
    check cycle runs with [get_price] in any world and at any clock. *)
Inductive reachable (py_float : string -> option Q) : database -> Prop :=
| reach_init : reachable py_float (init_database None)
| reach_add db name_entry url_entry target_entry selector_entry now :
    reachable py_float db ->
    reachable py_float
      (fst (add_product py_float name_entry url_entry target_entry
              selector_entry now db))
| reach_delete db selection confirm :
    reachable py_float db ->
    reachable py_float (fst (delete_product selection confirm db))
| reach_check db re_findall W cfg datetime_now current_timestamp :
    reachable py_float db ->
    reachable py_float
      (fst (check_all_prices cfg (get_price_detector re_findall W cfg)
              datetime_now current_timestamp db))
| reach_clear db confirm :
    reachable py_float db ->
    reachable py_float (fst (clear_history confirm db))
| reach_reset db confirm :
    reachable py_float db ->
    reachable py_float (fst (reset_database confirm db)).

(** Every observation, and every current price, is above zero. *)
Definition prices_positive (db : database) : Prop :=
  Forall (fun h => (0 < h_price h)%Q) (price_history db)
  /\ Forall (fun p => forall c, p_current_price p = Some c -> (0 < c)%Q)
       (products db).

(** The keys of the table: the primary key is not repeated and was handed
    out by the counter, and no URL is repeated. *)
Definition keys_wf (db : database) : Prop :=
  NoDup (map p_id (products db))
  /\ Forall (fun p => p_id p <= products_seq db) (products db)
  /\ NoDup (map p_url (products db)).

(** ** Sample data for the worked runs *)

Module Sample.

Definition cfg : Settings :=
  {| interval_var := "60"; user_agent_var := "Mozilla/5.0";
     notify_price_drop := true; notify_target_reached := true |}.

(** A page whose [.price] elements carry the given texts and which has
    no other text. *)
Definition soup (texts : list string) : Soup :=
  {| soup_select := fun sel => if String.eqb sel ".price" then Return texts
                               else Return [];
     soup_get_text := String.concat "" texts |}.

(** [re.findall] tabulated on the texts of these pages: the empty text,
    where no pattern matches, and ["$8.00"], where the first pattern
    matches the whole text and the last one the number. *)
Definition findall (pattern text : string) : list string :=
  if String.eqb text "$8.00"
  then if String.eqb pattern "\$[\d,]+\.?\d*" then ["$8.00"]
       else if String.eqb pattern "[\d,]+\.?\d*" then ["8.00"]
       else []
  else [].

Definition page (text : string) : string -> probe :=
  fun sel => if String.eqb sel ".price" then ProbeText text else ProbeNone.

(** Four shops: one with the price in the static page, one that renders
    it by script, one whose server answers 503 though a browser would
    show the price, one that is unreachable. *)
Definition world : World :=
  {| requests_get := fun url _ =>
       if String.eqb url "https://shop.example/static"
       then Return (soup ["$8.00"])
       else if String.eqb url "https://shop.example/js"
       then Return (soup [])
       else if String.eqb url "https://shop.example/503"
       then Raise (RequestException "503 Server Error")
       else Raise (RequestException "Connection refused");
     playwright_goto := fun url _ =>
       if String.eqb url "https://shop.example/js"
       then Return (page "$12.50")
       else if String.eqb url "https://shop.example/503"
       then Return (page "$5.00")
       else Raise (PlaywrightError "net::ERR_CONNECTION_REFUSED") |}.

Definition datetime_now (id : Z) : string := "2024-05-02T08:00:00".
Definition current_timestamp (id : Z) : string := "2024-05-02 06:00:00".

(** What the tree view hands back for a row of the given name. *)
Definition pick (name : string) : tk_value :=
  convert_stringval PyStr.int_of_decimal name.

(** Two products whose names read as the same integer. *)
Definition db_007 : database :=
  fst (add_product PyStr.float_of_decimal "7" "https://shop.example/js" "" ""
         "2024-05-01 10:01:00"
         (fst (add_product PyStr.float_of_decimal "007"
                 "https://shop.example/static" "" "" "2024-05-01 10:00:00"
                 (init_database None)))).

(** Three products added through the form: two share the name Widget. *)
Definition db1 : database :=
  fst (add_product PyStr.float_of_decimal
         "Widget" "https://shop.example/static" "9.00" ""
         "2024-05-01 10:00:00" (init_database None)).
Definition db2 : database :=
  fst (add_product PyStr.float_of_decimal
         "Widget" " https://shop.example/js " "" ".price"
         "2024-05-01 10:01:00" db1).
Definition db3 : database :=
  fst (add_product PyStr.float_of_decimal
         "Gadget" "https://shop.example/503" "" ""
         "2024-05-01 10:02:00" db2).

(** A row last seen at 10.00 with target 9.00; its page now shows 8.00. *)
Definition widget : product :=
  {| p_id := 1; p_name := "Widget"; p_url := "https://shop.example/static";
     p_target_price := Some 9.00%Q; p_current_price := Some 10.00%Q;
     p_last_checked := Some "2024-05-01T08:00:00";
     p_created_at := "2024-05-01 10:00:00";
     p_selector := Some ""; p_active := 1 |}.

(** A detector that raises for the shop answering 503 and is [get_price]
    elsewhere. *)
Definition flaky : detector :=
  fun url selector =>
    if String.eqb url "https://shop.example/503"
    then (Raise (OtherException "boom"), [])
    else get_price_detector findall world cfg url selector.

(** Two products: A, at the shop for which [flaky] raises, then B. *)
Definition row_a : product :=
  {| p_id := 1; p_name := "A"; p_url := "https://shop.example/503";
     p_target_price := None; p_current_price := None; p_last_checked := None;
     p_created_at := "2024-05-01 10:00:00"; p_selector := Some "";
     p_active := 1 |}.
Definition row_b : product :=
  {| p_id := 2; p_name := "B"; p_url := "https://shop.example/static";
     p_target_price := None; p_current_price := None; p_last_checked := None;
     p_created_at := "2024-05-01 10:01:00"; p_selector := Some "";
     p_active := 1 |}.
Definition db_ab : database :=
  fst (add_product PyStr.float_of_decimal "B" "https://shop.example/static"
         "" "" "2024-05-01 10:01:00"
         (fst (add_product PyStr.float_of_decimal "A" "https://shop.example/503"
                 "" "" "2024-05-01 10:00:00" (init_database None)))).

(** The store after one cycle over the three products of [db3]. *)
Definition db4 : database :=
  fst (check_all_prices cfg (get_price_detector findall world cfg)
         datetime_now current_timestamp db3).

(** The flag of a session stopped 90 seconds after the thread started. *)
Definition stopped_at_90 (t : nat) : bool := Nat.ltb t 90.

(** The settings with a check interval that is not a number. *)
Definition cfg_abc : Settings :=
  {| interval_var := "abc"; user_agent_var := "Mozilla/5.0";
     notify_price_drop := true; notify_target_reached := true |}.

(** The cycle of the program over the sample world. *)
Definition cycle (c : Settings) (t : nat) (db : database)
  : Exc (database * list event) :=
  Return (check_all_prices c (get_price_detector findall world c)
            datetime_now current_timestamp db).

End Sample.

(** ** Views and export *)

(** A row of the tree view: name, current price, target price, last
    check, status. *)
Record tree_row : Type := {
  tr_name : string;
  tr_current : string;
  tr_target : string;
  tr_last_checked : string;
  tr_status : string
}.

Section Views.

(** [f"{x:.2f}"] *)
Variable format_price : Q -> string.
(** [datetime.fromisoformat(s).strftime("%Y-%m-%d %H:%M")] on the
    timestamps the program stores. *)
Variable format_time : string -> string.

(** The status column of [load_products] for a fetched row. *)
Definition product_status (p : product) : string :=
  let status := if p_active p =? 0 then "Inactive" else "Active" in
  match p_current_price p, p_target_price p with
  | Some current, Some target =>
      if truthy current && truthy target && Qle_bool current target
      then "Target Reached!" else status
  | _, _ => status
  end.

Definition product_row (p : product) : tree_row :=
  {| tr_name := p_name p;
     tr_current := match p_current_price p with
                   | Some c => if truthy c then ("$" ++ format_price c)%string
                               else "N/A"
                   | None => "N/A"
                   end;
     tr_target := match p_target_price p with
                  | Some t => if truthy t then ("$" ++ format_price t)%string
                              else "N/A"
                  | None => "N/A"
                  end;
     tr_last_checked := match p_last_checked p with
                        | Some ts => if PyStr.nonempty ts then format_time ts
                                     else "Never"
                        | None => "Never"
                        end;
     tr_status := product_status p |}.

(** [load_products]: the rows shown after the refresh. *)
Definition load_products (db : database) : list tree_row :=
  map product_row (active_products db).

(** [test_price_detection] on the URL and selector entries: what the
    user sees and what the call does. *)
Definition test_price_detection (re_findall : string -> string -> list string)
  (W : World) (cfg : Settings) (url_entry selector_entry : string)
  : list event :=
  let url := PyStr.strip url_entry in
  let selector := PyStr.strip selector_entry in
  if negb (PyStr.nonempty url)
  then [EvShowError "Error" "Please enter a URL"]
  else
    let '(price, evs) := get_price re_findall W cfg url (Some selector) in
    EvStatus "Testing price detection..." :: evs
    ++ [ match price with
         | Some p => if truthy p
                     then EvShowInfo "Success"
                            ("Price detected: $" ++ format_price p)%string
                     else EvShowWarning "Warning" "Could not detect price"
         | None => EvShowWarning "Warning" "Could not detect price"
         end;
         EvStatus "Ready" ].

End Views.

(** The two queries of [export_data]: the active rows, and the
    observations joined with the active row of their product, each with
    that row's name. *)
Definition export_products (db : database) : list product :=
  active_products db.

Definition export_history (db : database) : list (observation * string) :=
  flat_map
    (fun h =>
       map (fun p => (h, p_name p))
         (filter (fun p => (p_id p =? h_product_id h) && (p_active p =? 1))
            (products db)))
    (price_history db).

(** ** Runs of the store *)

(** One write to the store other than a reset. *)
Inductive store_step (py_float : string -> option Q)
  : database -> database -> Prop :=
| step_add db name_entry url_entry target_entry selector_entry now :
    store_step py_float db
      (fst (add_product py_float name_entry url_entry target_entry
              selector_entry now db))
| step_delete db selection confirm :
    store_step py_float db (fst (delete_product selection confirm db))
| step_check db cfg detect datetime_now current_timestamp :
    store_step py_float db
      (fst (check_all_prices cfg detect datetime_now current_timestamp db))
| step_clear db confirm :
    store_step py_float db (fst (clear_history confirm db)).

(** Any number of such writes. *)
Inductive store_run (py_float : string -> option Q)
  : database -> database -> Prop :=
| run_done db : store_run py_float db db
| run_step db db1 db2 :
    store_run py_float db db1 -> store_step py_float db1 db2 ->
    store_run py_float db db2.

(** The columns a check never writes. *)
Definition same_identity (p p' : product) : Prop :=
  p_id p' = p_id p /\ p_name p' = p_name p /\ p_url p' = p_url p
  /\ p_target_price p' = p_target_price p
  /\ p_created_at p' = p_created_at p
  /\ p_selector p' = p_selector p /\ p_active p' = p_active p.

(** The observation ids are distinct and were handed out by the counter;
    every observation belongs to a row of [products]. *)
Definition history_wf (db : database) : Prop :=
  NoDup (map h_id (price_history db))
  /\ Forall (fun h => 0 < h_id h <= price_history_seq db) (price_history db)
  /\ 0 <= price_history_seq db
  /\ Forall (fun h => In (h_product_id h) (map p_id (products db)))
       (price_history db).

(** The rows the form can have produced: name and URL are not empty and
    carry no blanks around. *)
Definition entries_wf (db : database) : Prop :=
  Forall (fun p => PyStr.nonempty (p_name p) = true
                   /\ PyStr.nonempty (p_url p) = true
                   /\ PyStr.strip (p_name p) = p_name p
                   /\ PyStr.strip (p_url p) = p_url p)
    (products db).

(** What [clean_price_text] leaves of a text. *)
Definition digit_or_period (c : ascii) : bool :=
  PyStr.is_digit c || PyStr.is_period c.

(** How many characters of a text satisfy a test. *)
Fixpoint count_chars (p : ascii -> bool) (s : string) : nat :=
  match s with
  | String c s' => ((if p c then 1 else 0) + count_chars p s')%nat
  | EmptyString => O
  end.

(** The rendered page with every raising probe replaced by a miss. *)
Definition without_raises (page : string -> probe) : string -> probe :=
  fun sel => match page sel with
             | ProbeRaise _ => ProbeNone
             | r => r
             end.

(** The observations one cycle appends when the counter stands at [seq]:
    one for each fetched row whose check stores a price, in order. *)
Fixpoint new_observations (detect : detector) (current_timestamp : Z -> string)
  (seq : Z) (fetched : list product) : list observation :=
  match fetched with
  | [] => []
  | p :: rest =>
      match stored_price detect p with
      | Some np =>
          {| h_id := seq + 1; h_product_id := p_id p; h_price := np;
             h_timestamp := current_timestamp (p_id p) |}
          :: new_observations detect current_timestamp (seq + 1) rest
      | None => new_observations detect current_timestamp seq rest
      end
  end.

(** Every row of [db] is still in [db'], at its place, under the same
    id, name and URL, and active only if it was. *)
Definition rows_persist (db db' : database) : Prop :=
  forall i p, nth_error (products db) i = Some p ->
    exists p', nth_error (products db') i = Some p'
               /\ p_id p' = p_id p /\ p_name p' = p_name p
               /\ p_url p' = p_url p
               /\ (p_active p' = p_active p \/ p_active p' = 0).

(** More sample data. *)
Module Sample2.

(** Two decimals, for amounts that are whole cents. *)
Definition format_price (q : Q) : string :=
  let cents := Z.to_N (Qfloor (q * 100 + (1 # 2))) in
  let two (n : N) : string :=
    ((if (n <? 10)%N then "0" else "") ++ NilZero.string_of_uint (N.to_uint n))%string in
  (NilZero.string_of_uint (N.to_uint (cents / 100)) ++ "." ++ two (cents mod 100)%N)%string.

(** The minute of an ISO timestamp: [T] becomes a blank, seconds go. *)
Definition format_time (s : string) : string :=
  (String.substring 0 10 s ++ " " ++ String.substring 11 5 s)%string.

(** A world like [Sample.world] whose rendered pages raise on [.price]
    and show the price under [#price]. *)
Definition raising_page : string -> probe :=
  fun sel => if String.eqb sel ".price"
             then ProbeRaise (PlaywrightError "Timeout 30000ms exceeded")
             else if String.eqb sel "#price" then ProbeText "$12.50"
             else ProbeNone.

(** A page holding its price under [.sale-price] only. *)
Definition sale_page : string -> probe :=
  fun sel => if String.eqb sel ".sale-price" then ProbeText "$3.00"
             else ProbeNone.

Definition world_of (page : string -> probe) : World :=
  {| requests_get := fun _ _ => Return (Sample.soup []);
     playwright_goto := fun _ _ => Return page |}.

(** A page on which the selector [div[] is rejected. *)
Definition strict_soup : Soup :=
  {| soup_select := fun sel =>
       if String.eqb sel "div[" then Raise (SelectorError "Malformed attribute selector")
       else if String.eqb sel ".price" then Return ["$8.00"]
       else Return [];
     soup_get_text := "$8.00" |}.

Definition strict_world : World :=
  {| requests_get := fun _ _ => Return strict_soup;
     playwright_goto := fun _ _ => Return (Sample.page "$8.00") |}.

(** [Sample.db3] with its two Widgets deleted. *)
Definition db_deleted : database :=
  fst (delete_product [Sample.pick "Widget"] true Sample.db3).

(** The flag of a session stopped 30 seconds after the thread started. *)
Definition stopped_at_30 (t : nat) : bool := Nat.ltb t 30.

Definition cfg_zero : Settings :=
  {| interval_var := "0"; user_agent_var := "Mozilla/5.0";
     notify_price_drop := true; notify_target_reached := true |}.

End Sample2.

(** * Properties *)

(** ** The price parser *)

Lemma space_not_price_char (c : ascii) :
  PyStr.is_space c = true -> price_char c = false.
Proof.
  destruct c as [[] [] [] [] [] [] [] []]; vm_compute; congruence.
Qed.

Lemma keep_chars_lstrip (keep : ascii -> bool) (s : string) :
  (forall c, PyStr.is_space c = true -> keep c = false) ->
  PyStr.keep_chars keep (PyStr.lstrip s) = PyStr.keep_chars keep s.
Proof.
  intros Hk. induction s as [|c s IH]; simpl; [reflexivity|].
  destruct (PyStr.is_space c) eqn:Hc.
  - rewrite (Hk c Hc). exact IH.
  - reflexivity.
Qed.

Lemma keep_chars_rstrip (keep : ascii -> bool) (s : string) :
  (forall c, PyStr.is_space c = true -> keep c = false) ->
  PyStr.keep_chars keep (PyStr.rstrip s) = PyStr.keep_chars keep s.
Proof.
  intros Hk. induction s as [|c s IH]; simpl; [reflexivity|].
  destruct (PyStr.rstrip s) as [|c' r] eqn:Hr.
  - simpl in IH. destruct (PyStr.is_space c) eqn:Hc.
    + rewrite (Hk c Hc). exact IH.
    + simpl. rewrite <- IH. reflexivity.
  - change (PyStr.keep_chars keep (String c (String c' r)))
      with (if keep c then String c (PyStr.keep_chars keep (String c' r))
            else PyStr.keep_chars keep (String c' r)).
    rewrite IH. reflexivity.
Qed.

Lemma keep_chars_strip (keep : ascii -> bool) (s : string) :
  (forall c, PyStr.is_space c = true -> keep c = false) ->
  PyStr.keep_chars keep (PyStr.strip s) = PyStr.keep_chars keep s.
Proof.
  intros Hk. unfold PyStr.strip.
  rewrite keep_chars_rstrip by exact Hk. apply keep_chars_lstrip, Hk.
Qed.

Lemma all_chars_keep_chars (p keep : ascii -> bool) (s : string) :
  PyStr.all_chars p s = true -> PyStr.all_chars p (PyStr.keep_chars keep s) = true.
Proof.
  induction s as [|c s IH]; simpl; [reflexivity|].
  intros H. apply andb_true_iff in H as [Hc Hs].
  destruct (keep c); simpl; [rewrite Hc|]; auto.
Qed.

Lemma all_chars_kept (keep : ascii -> bool) (s : string) :
  PyStr.all_chars keep (PyStr.keep_chars keep s) = true.
Proof.
  induction s as [|c s IH]; simpl; [reflexivity|].
  destruct (keep c) eqn:Hc; simpl; [rewrite Hc|]; auto.
Qed.

Lemma all_chars_and (p q : ascii -> bool) (s : string) :
  PyStr.all_chars p s = true -> PyStr.all_chars q s = true ->
  PyStr.all_chars (fun c => p c && q c) s = true.
Proof.
  induction s as [|c s IH]; simpl; [reflexivity|].
  intros Hp Hq. apply andb_true_iff in Hp as [-> Hp].
  apply andb_true_iff in Hq as [-> Hq]. simpl. auto.
Qed.

Lemma all_chars_weaken (p q : ascii -> bool) (s : string) :
  (forall c, p c = true -> q c = true) ->
  PyStr.all_chars p s = true -> PyStr.all_chars q s = true.
Proof.
  intros Hpq. induction s as [|c s IH]; simpl; [reflexivity|].
  intros H. apply andb_true_iff in H as [Hc Hs].
  rewrite (Hpq c Hc). simpl. auto.
Qed.

(** What [float] is handed holds digits and periods only. *)
Lemma clean_digits_periods (text : string) :
  PyStr.all_chars (fun c => PyStr.is_digit c || PyStr.is_period c)
    (clean_price_text text) = true.
Proof.
  unfold clean_price_text.
  apply all_chars_weaken with (p := fun c => price_char c && not_comma c).
  - intros c H. apply andb_true_iff in H as [H1 H2].
    unfold price_char, not_comma in *.
    destruct (PyStr.is_comma c); [discriminate|].
    now rewrite orb_false_r in H1.
  - apply all_chars_and.
    + apply all_chars_keep_chars, all_chars_kept.
    + apply all_chars_kept.
Qed.

Lemma digit_value_nonneg (c : ascii) :
  PyStr.is_digit c = true -> 0 <= PyStr.digit_value c.
Proof.
  unfold PyStr.is_digit, PyStr.digit_value. intros H.
  apply andb_true_iff in H as [H _]. apply N.leb_le in H.
  apply N2Z.inj_le in H. change (Z.of_N 48) with 48 in H. lia.
Qed.

Lemma digits_value_nonneg (s : string) : forall acc,
  PyStr.all_chars PyStr.is_digit s = true -> 0 <= acc ->
  0 <= PyStr.digits_value acc s.
Proof.
  induction s as [|c s IH]; cbn [PyStr.digits_value PyStr.all_chars];
    intros acc H Hacc; [exact Hacc|].
  apply andb_true_iff in H as [Hc Hs]. apply IH; [exact Hs|].
  pose proof (digit_value_nonneg c Hc). lia.
Qed.

Lemma span_digits_fst (s : string) :
  PyStr.all_chars PyStr.is_digit (fst (PyStr.span_digits s)) = true.
Proof.
  induction s as [|c s IH]; simpl; [reflexivity|].
  destruct (PyStr.is_digit c) eqn:Hc; [|reflexivity].
  destruct (PyStr.span_digits s) as [d r]. simpl in *. now rewrite Hc.
Qed.

Lemma all_chars_app (p : ascii -> bool) (s1 s2 : string) :
  PyStr.all_chars p s1 = true -> PyStr.all_chars p s2 = true ->
  PyStr.all_chars p (s1 ++ s2)%string = true.
Proof.
  induction s1 as [|c s1 IH]; simpl; [auto|].
  intros H1 H2. apply andb_true_iff in H1 as [-> H1]. simpl. auto.
Qed.

Lemma float_of_decimal_nonneg (s : string) (q : Q) :
  PyStr.float_of_decimal s = Some q -> (0 <= q)%Q.
Proof.
  unfold PyStr.float_of_decimal.
  pose proof (span_digits_fst s) as Hip.
  destruct (PyStr.span_digits s) as [ip rest]. simpl in Hip.
  destruct rest as [|c fp].
  - destruct (PyStr.nonempty ip); [|discriminate].
    intros [= <-]. unfold Qle; simpl.
    pose proof (digits_value_nonneg ip 0 Hip). lia.
  - destruct (PyStr.is_period c && PyStr.all_chars PyStr.is_digit fp
              && (PyStr.nonempty ip || PyStr.nonempty fp)) eqn:Hg; [|discriminate].
    apply andb_true_iff in Hg as [Hg _]. apply andb_true_iff in Hg as [_ Hfp].
    intros [= <-]. unfold Qle; simpl.
    pose proof (digits_value_nonneg _ 0 (all_chars_app _ _ _ Hip Hfp)). lia.
Qed.

(** The parser never yields a negative value. *)
Lemma parse_price_text_nonneg (text : string) (q : Q) :
  parse_price_text text = Some q -> (0 <= q)%Q.
Proof.
  unfold parse_price_text. destruct (negb (PyStr.nonempty text)); [discriminate|].
  apply float_of_decimal_nonneg.
Qed.

Lemma truthy_nonneg_pos (q : Q) : truthy q = true -> (0 <= q)%Q -> (0 < q)%Q.
Proof.
  unfold truthy. intros Ht Hq. apply negb_true_iff in Ht.
  apply Qeq_bool_neq in Ht. apply Qle_lteq in Hq as [H|H]; [exact H|].
  exfalso. apply Ht. symmetry. exact H.
Qed.

Lemma pos_truthy (q : Q) : (0 < q)%Q -> truthy q = true.
Proof.
  intros H. unfold truthy. apply negb_true_iff.
  destruct (Qeq_bool q 0) eqn:E; [|reflexivity].
  apply Qeq_bool_eq in E. rewrite E in H. now apply Qlt_irrefl in H.
Qed.

(** *** The parser against the specification's parser *)

Lemma keep_chars_ext (f g : ascii -> bool) (s : string) :
  (forall c, f c = g c) -> PyStr.keep_chars f s = PyStr.keep_chars g s.
Proof.
  intros H. induction s as [|c s IH]; cbn [PyStr.keep_chars]; [reflexivity|].
  now rewrite H, IH.
Qed.

Lemma span_digits_spec (s : string) :
  let '(ip, rest) := PyStr.span_digits s in
  s = (ip ++ rest)%string
  /\ PyStr.all_chars PyStr.is_digit ip = true
  /\ match rest with
     | EmptyString => True
     | String c _ => PyStr.is_digit c = false
     end.
Proof.
  induction s as [|c s IH]; cbn [PyStr.span_digits]; [auto|].
  destruct (PyStr.is_digit c) eqn:Hc.
  - destruct (PyStr.span_digits s) as [ip rest]. destruct IH as [I1 [I2 I3]].
    cbn [String.append PyStr.all_chars]. rewrite Hc, I2, <- I1. auto.
  - cbn [String.append PyStr.all_chars]. auto.
Qed.

Lemma keep_chars_as_filter (keep : ascii -> bool) (s : string) :
  PyStr.keep_chars keep s
  = string_of_list_ascii (filter keep (list_ascii_of_string s)).
Proof.
  induction s as [|c s IH]; cbn [PyStr.keep_chars list_ascii_of_string filter];
    [reflexivity|].
  destruct (keep c); cbn [string_of_list_ascii]; now rewrite IH.
Qed.

Lemma price_char_spec (c : ascii) :
  price_char c = spec_one_of "0123456789.," c.
Proof. destruct c as [[] [] [] [] [] [] [] []]; vm_compute; reflexivity. Qed.

Lemma not_comma_spec (c : ascii) : not_comma c = negb (spec_one_of "," c).
Proof. destruct c as [[] [] [] [] [] [] [] []]; vm_compute; reflexivity. Qed.

Lemma spec_digit_of_digit (c : ascii) :
  spec_digit c = if PyStr.is_digit c then Some (PyStr.digit_value c) else None.
Proof. destruct c as [[] [] [] [] [] [] [] []]; vm_compute; reflexivity. Qed.

Lemma digit_not_period (c : ascii) :
  PyStr.is_digit c = true -> Ascii.eqb c "." = false.
Proof. destruct c as [[] [] [] [] [] [] [] []]; vm_compute; congruence. Qed.

Lemma period_is_period (c : ascii) : PyStr.is_period c = Ascii.eqb c ".".
Proof. reflexivity. Qed.

(** The accumulated value of a run of digits is the number it writes. *)
Lemma digits_value_number (s : string) :
  PyStr.all_chars PyStr.is_digit s = true ->
  exists n, spec_number s = Some n
            /\ forall acc, PyStr.digits_value acc s
                           = acc * 10 ^ Z.of_nat (String.length s) + n.
Proof.
  induction s as [|c s IH]; cbn [PyStr.all_chars spec_number PyStr.digits_value
                                 String.length]; intros H.
  - exists 0. split; [reflexivity|]. intros acc. cbn. lia.
  - apply andb_true_iff in H as [Hc Hs]. destruct (IH Hs) as [n [Hn Hv]].
    rewrite spec_digit_of_digit, Hc, Hn.
    eexists. split; [reflexivity|]. intros acc. rewrite Hv.
    rewrite Nat2Z.inj_succ, Z.pow_succ_r by lia. ring.
Qed.

Lemma spec_number_not_digits (s : string) :
  PyStr.all_chars PyStr.is_digit s = false -> spec_number s = None.
Proof.
  induction s as [|c s IH]; cbn [PyStr.all_chars spec_number]; [discriminate|].
  intros H. rewrite spec_digit_of_digit.
  destruct (PyStr.is_digit c); [|reflexivity].
  cbn [andb] in H. now rewrite (IH H).
Qed.

Lemma digits_value_app (s1 s2 : string) : forall acc,
  PyStr.digits_value acc (s1 ++ s2)%string
  = PyStr.digits_value (PyStr.digits_value acc s1) s2.
Proof.
  induction s1 as [|c s1 IH]; intros acc; cbn [String.append PyStr.digits_value];
    [reflexivity|apply IH].
Qed.

Lemma spec_period_split_digits (ip rest : string) :
  PyStr.all_chars PyStr.is_digit ip = true ->
  spec_before_period (ip ++ rest)%string = (ip ++ spec_before_period rest)%string
  /\ spec_after_period (ip ++ rest)%string = spec_after_period rest.
Proof.
  induction ip as [|c ip IH]; cbn [PyStr.all_chars String.append
                                   spec_before_period spec_after_period];
    [auto|].
  intros H. apply andb_true_iff in H as [Hc Hs].
  rewrite (digit_not_period c Hc). destruct (IH Hs) as [-> ->]. auto.
Qed.

Lemma append_empty (s : string) : (s ++ "")%string = s.
Proof. induction s as [|c s IH]; cbn [String.append]; [reflexivity|now rewrite IH]. Qed.

Lemma spec_number_app_bad (ip : string) (c : ascii) (rest : string) :
  PyStr.is_digit c = false ->
  spec_number (ip ++ String c rest)%string = None.
Proof.
  intros Hc. induction ip as [|x ip IH]; cbn [String.append spec_number].
  - rewrite spec_digit_of_digit, Hc. reflexivity.
  - rewrite IH. destruct (spec_digit x); reflexivity.
Qed.

Lemma pow10_pow (n : nat) : Z.pos (PyStr.pow10 n) = 10 ^ Z.of_nat n.
Proof.
  induction n as [|n IH]; [reflexivity|].
  cbn [PyStr.pow10]. rewrite Pos2Z.inj_mul, IH, Nat2Z.inj_succ, Z.pow_succ_r by lia.
  reflexivity.
Qed.

Lemma decimal_value_eq (a b : Z) (n : nat) :
  (a * 10 ^ Z.of_nat n + b # PyStr.pow10 n
   == inject_Z a + inject_Z b / inject_Z (10 ^ Z.of_nat n))%Q.
Proof.
  rewrite <- pow10_pow. generalize (PyStr.pow10 n) as d. intros d.
  unfold Qeq, Qdiv, Qplus, Qmult, Qinv, inject_Z. cbn [Qnum Qden].
  rewrite !Pos.mul_1_l, !Z.mul_1_r. ring.
Qed.

(** [float] on any text agrees with the decimal of the specification. *)
Lemma float_of_decimal_spec (s : string) :
  same_price (PyStr.float_of_decimal s) (spec_decimal s).
Proof.
  unfold PyStr.float_of_decimal, spec_decimal.
  pose proof (span_digits_spec s) as Hspan.
  destruct (PyStr.span_digits s) as [ip rest]. destruct Hspan as [-> [Hip Hrest]].
  destruct (spec_period_split_digits ip rest Hip) as [Hb Ha]. rewrite Hb, Ha.
  destruct (digits_value_number ip Hip) as [a [Hna Hva]].
  destruct rest as [|c fp].
  - cbn [spec_before_period spec_after_period]. rewrite append_empty.
    destruct ip as [|x ip]; [exact I|]. cbn [PyStr.nonempty].
    rewrite Hna. cbn [option_map same_price]. rewrite Hva.
    unfold inject_Z, Qeq. cbn [Qnum Qden]. lia.
  - cbn [spec_before_period spec_after_period]. rewrite period_is_period.
    destruct (Ascii.eqb c ".") eqn:Hc; cbn [andb].
    + rewrite append_empty, Hna.
      destruct (PyStr.all_chars PyStr.is_digit fp) eqn:Hfp; cbn [andb].
      * destruct (digits_value_number fp Hfp) as [b [Hnb Hvb]]. rewrite Hnb.
        destruct (ip ++ fp)%string eqn:Hipfp.
        -- destruct ip; [|discriminate]. cbn [String.append] in Hipfp. subst fp.
           exact I.
        -- replace (PyStr.nonempty ip || PyStr.nonempty fp) with true.
           ++ cbn [same_price]. rewrite <- Hipfp, digits_value_app, Hvb, Hva.
              rewrite <- decimal_value_eq.
              replace (0 * 10 ^ Z.of_nat (String.length ip) + a) with a by lia.
              reflexivity.
           ++ destruct ip; [|reflexivity]. cbn [String.append] in Hipfp.
              subst fp. reflexivity.
      * rewrite (spec_number_not_digits fp Hfp). exact I.
    + assert (Hbad : spec_number (ip ++ String c (spec_before_period fp))%string
                     = None) by now apply spec_number_app_bad.
      rewrite Hbad.
      destruct (spec_after_period fp).
      * exact I.
      * destruct (ip ++ String c (spec_before_period fp))%string; exact I.
Qed.

(** C4. For every text, [parse_price_text] gives what the parser of the
    specification gives: the characters other than the ten digits, the
    period and the comma deleted, then the commas deleted, then the rest
    read as a decimal, absent when the text is empty or writes no decimal;
    ["1,234.56"] reads as 1234.56, ["19.99"] as 19.99, and the empty
    text, ["abc"] and ["$"] are absent. *)
Theorem parse_price_text_refines_spec :
  (forall t, same_price (parse_price_text t) (parsePrice_spec t))
  /\ parse_price_text "1,234.56" = Some 1234.56%Q
  /\ parse_price_text "19.99" = Some 19.99%Q
  /\ parse_price_text "" = None
  /\ parse_price_text "abc" = None
  /\ parse_price_text "$" = None.
Proof.
  split; [|repeat split].
  intros t. unfold parse_price_text, parsePrice_spec, clean_price_text.
  destruct t as [|c t]; [exact I|].
  cbn [PyStr.nonempty negb].
  rewrite (keep_chars_strip price_char) by exact space_not_price_char.
  rewrite (keep_chars_ext not_comma (fun c => negb (spec_one_of "," c)))
    by exact not_comma_spec.
  rewrite (keep_chars_ext price_char (spec_one_of "0123456789.,"))
    by exact price_char_spec.
  rewrite !keep_chars_as_filter.
  apply float_of_decimal_spec.
Qed.

Example parsePrice_spec_samples :
  parsePrice_spec "USD 1,234.56" = Some (inject_Z 1234 + inject_Z 56 / inject_Z 100)%Q
  /\ parsePrice_spec "-5" = Some (inject_Z 5)
  /\ parsePrice_spec "1.2.3" = None.
Proof. repeat split. Qed.

Example parse_price_text_currency :
  parse_price_text " $ 19.99 USD" = Some 19.99%Q.
Proof. reflexivity. Qed.

Example parse_price_text_two_periods : parse_price_text "1.2.3" = None.
Proof. reflexivity. Qed.

Example parse_price_text_edge_periods :
  parse_price_text "5." = Some (5 # 1)
  /\ parse_price_text ".5" = Some (5 # 10)
  /\ parse_price_text "." = None
  /\ parse_price_text "   " = None.
Proof. repeat split. Qed.

(** The minus sign is deleted with the other characters, so a negative
    number reads as its absolute value; zero reads as zero. *)
Example parse_price_text_sign_and_zero :
  parse_price_text "-5.00" = Some 5.00%Q
  /\ parse_price_text "0.00" = Some 0.00%Q
  /\ truthy 0.00%Q = false.
Proof. repeat split. Qed.

(** A page without price elements: the text scan finds the price. *)
Example extract_price_from_soup_text_scan :
  extract_price_from_soup Sample.findall
    {| soup_select := fun _ => Return []; soup_get_text := "$8.00" |} None
  = Return (Some 8.00%Q).
Proof. reflexivity. Qed.

(** ** Detected prices are positive *)

Lemma first_price_pos (texts : list string) (p : Q) :
  first_price texts = Some p -> (0 < p)%Q.
Proof.
  induction texts as [|t rest IH]; simpl; [discriminate|].
  destruct (parse_price_text t) as [q|] eqn:Hq; [|exact IH].
  destruct (truthy q) eqn:Ht; [|exact IH].
  intros [= <-]. apply truthy_nonneg_pos; [exact Ht|].
  eapply parse_price_text_nonneg; eassumption.
Qed.

Lemma first_positive_price_pos (matches : list string) (p : Q) :
  first_positive_price matches = Some p -> (0 < p)%Q.
Proof.
  induction matches as [|t rest IH]; simpl; [discriminate|].
  destruct (parse_price_text t) as [q|] eqn:Hq; [|exact IH].
  destruct (truthy q && Qlt_bool 0 q) eqn:Ht; [|exact IH].
  intros [= <-]. apply andb_true_iff in Ht as [Ht _].
  apply truthy_nonneg_pos; [exact Ht|].
  eapply parse_price_text_nonneg; eassumption.
Qed.

Lemma try_selectors_pos (soup : Soup) (sels : list string) (p : Q) :
  try_selectors soup sels = Return (Some p) -> (0 < p)%Q.
Proof.
  induction sels as [|sel rest IH]; simpl; [discriminate|].
  destruct (soup_select soup sel) as [texts|e]; simpl; [|discriminate].
  destruct (first_price texts) as [q|] eqn:Hq; [|exact IH].
  intros [= <-]. eapply first_price_pos; eassumption.
Qed.

Lemma try_patterns_pos re_findall (text : string) (pats : list string) (p : Q) :
  try_patterns re_findall text pats = Some p -> (0 < p)%Q.
Proof.
  induction pats as [|pat rest IH]; simpl; [discriminate|].
  destruct (first_positive_price (re_findall pat text)) as [q|] eqn:Hq; [|exact IH].
  intros [= <-]. eapply first_positive_price_pos; eassumption.
Qed.

(** The static extractor returns no price or a positive one. *)
Lemma extract_price_from_soup_pos re_findall (soup : Soup)
  (selector : option string) (p : Q) :
  extract_price_from_soup re_findall soup selector = Return (Some p) ->
  (0 < p)%Q.
Proof.
  unfold extract_price_from_soup.
  assert (Hrest :
    (common <- try_selectors soup common_selectors ;;
     match common with
     | Some p0 => Return (Some p0)
     | None => Return (try_patterns re_findall (soup_get_text soup) price_patterns)
     end)%exc = Return (Some p) -> (0 < p)%Q).
  { destruct (try_selectors soup common_selectors) as [[q|]|e] eqn:Hc;
      cbn [bind]; try discriminate.
    - intros [= <-]. eapply try_selectors_pos; eassumption.
    - intros H. injection H as H.
      exact (try_patterns_pos re_findall (soup_get_text soup) price_patterns p H). }
  destruct (selector_given selector) as [s|].
  - destruct (soup_select soup s) as [texts|e]; cbn [bind]; [|discriminate].
    destruct (first_price texts) as [q|] eqn:Hq.
    + intros [= <-]. eapply first_price_pos; eassumption.
    + exact Hrest.
  - cbn [bind]. exact Hrest.
Qed.

Lemma static_extract_pos re_findall W cfg url selector (p : Q) :
  static_extract re_findall W cfg url selector = Return (Some p) -> (0 < p)%Q.
Proof.
  unfold static_extract.
  destruct (requests_get W url (user_agent_var cfg)) as [soup|e]; simpl;
    [|discriminate].
  apply extract_price_from_soup_pos.
Qed.

Lemma probe_price_pos page sel (p : Q) :
  probe_price page sel = Some p -> (0 < p)%Q.
Proof.
  unfold probe_price. destruct (page sel) as [text| |e]; try discriminate.
  destruct (parse_price_text text) as [q|] eqn:Hq; [|discriminate].
  destruct (truthy q) eqn:Ht; [|discriminate].
  intros [= <-]. apply truthy_nonneg_pos; [exact Ht|].
  eapply parse_price_text_nonneg; eassumption.
Qed.

Lemma probe_selectors_pos page sels (p : Q) :
  probe_selectors page sels = Some p -> (0 < p)%Q.
Proof.
  induction sels as [|sel rest IH]; simpl; [discriminate|].
  destruct (probe_price page sel) as [q|] eqn:Hq; [|exact IH].
  intros [= <-]. eapply probe_price_pos; eassumption.
Qed.

(** The rendered extractor returns no price or a positive one, and its
    log always opens with the browser session. *)
Lemma get_price_with_playwright_pos W cfg url selector (p : Q) :
  fst (get_price_with_playwright W cfg url selector) = Some p -> (0 < p)%Q.
Proof.
  unfold get_price_with_playwright.
  destruct (playwright_goto W url (user_agent_var cfg)) as [page|e]; cbn [fst];
    [|discriminate].
  destruct (selector_given selector) as [s|].
  - destruct (probe_price page s) as [q|] eqn:Hq; cbn [fst].
    + intros [= <-]. eapply probe_price_pos; eassumption.
    + apply probe_selectors_pos.
  - cbn [fst]. apply probe_selectors_pos.
Qed.

Lemma get_price_with_playwright_log W cfg url selector :
  exists rest,
    snd (get_price_with_playwright W cfg url selector)
    = EvPlaywright url (user_agent_var cfg) :: rest.
Proof.
  unfold get_price_with_playwright.
  destruct (playwright_goto W url (user_agent_var cfg)) as [page|e]; cbn [snd];
    [|eauto].
  destruct (match selector_given selector with
            | Some s => probe_price page s | None => None end); cbn [snd]; eauto.
Qed.

(** [get_price] by the outcome of its first method. *)
Lemma get_price_cases re_findall W cfg url selector :
  let ua := user_agent_var cfg in
  match static_extract re_findall W cfg url selector with
  | Return (Some p) =>
      get_price re_findall W cfg url selector = (Some p, [EvHttpGet url ua])
  | Return None =>
      get_price re_findall W cfg url selector
      = (fst (get_price_with_playwright W cfg url selector),
         EvHttpGet url ua :: snd (get_price_with_playwright W cfg url selector))
  | Raise e =>
      get_price re_findall W cfg url selector
      = (None, [EvHttpGet url ua; EvPrint "Error getting price: " e])
  end.
Proof.
  intros ua. unfold get_price. fold ua.
  destruct (static_extract re_findall W cfg url selector) as [[p|]|e] eqn:Hs.
  - apply static_extract_pos in Hs. cbn [truthy_opt].
    rewrite (pos_truthy p Hs). reflexivity.
  - cbn [truthy_opt].
    destruct (get_price_with_playwright W cfg url selector); reflexivity.
  - reflexivity.
Qed.

(** Every price [get_price] returns is positive. *)
Lemma get_price_pos re_findall W cfg url selector (p : Q) :
  fst (get_price re_findall W cfg url selector) = Some p -> (0 < p)%Q.
Proof.
  pose proof (get_price_cases re_findall W cfg url selector) as H. cbv zeta in H.
  destruct (static_extract re_findall W cfg url selector) as [[q|]|e] eqn:Hs;
    rewrite H; simpl.
  - intros [= <-]. eapply static_extract_pos; eassumption.
  - apply get_price_with_playwright_pos.
  - discriminate.
Qed.

(** [get_price] itself never raises: its [except Exception] covers both
    methods. *)
Lemma get_price_detector_returns re_findall W cfg url selector :
  fst (get_price_detector re_findall W cfg url selector)
  = Return (fst (get_price re_findall W cfg url selector)).
Proof.
  unfold get_price_detector.
  destruct (get_price re_findall W cfg url selector); reflexivity.
Qed.

(** ** The orchestrator *)

Lemma static_extract_fetch_error re_findall W cfg url selector e :
  requests_get W url (user_agent_var cfg) = Raise e ->
  static_extract re_findall W cfg url selector = Raise e.
Proof. unfold static_extract. intros ->. reflexivity. Qed.

(** C1, as the code has it. When the request of the static path fails
    (network failure, timeout or a status outside 2xx), [get_price] logs
    the error and returns absent at once: the error is not propagated and
    the rendered extractor is not invoked. *)
Theorem get_price_fetch_error_absent re_findall W cfg url selector e :
  requests_get W url (user_agent_var cfg) = Raise e ->
  get_price re_findall W cfg url selector
  = (None, [EvHttpGet url (user_agent_var cfg);
            EvPrint "Error getting price: " e])
  /\ rendered_invoked (snd (get_price re_findall W cfg url selector)) = false.
Proof.
  intros Hreq.
  pose proof (get_price_cases re_findall W cfg url selector) as H. cbv zeta in H.
  rewrite (static_extract_fetch_error re_findall W cfg url selector e Hreq) in H.
  rewrite H. split; reflexivity.
Qed.

Lemma get_price_fetch_error_absent_witness :
  requests_get Sample.world "https://shop.example/503" (user_agent_var Sample.cfg)
  = Raise (RequestException "503 Server Error")
  /\ get_price Sample.findall Sample.world Sample.cfg "https://shop.example/503" None
  = (None, [EvHttpGet "https://shop.example/503" "Mozilla/5.0";
            EvPrint "Error getting price: " (RequestException "503 Server Error")])
  /\ rendered_invoked
       (snd (get_price Sample.findall Sample.world Sample.cfg
               "https://shop.example/503" None)) = false.
Proof.
  split; [reflexivity|].
  apply (get_price_fetch_error_absent Sample.findall Sample.world Sample.cfg
           "https://shop.example/503" None (RequestException "503 Server Error")).
  reflexivity.
Defined.

(** C1 as stated fails: the shop that answers 503 makes the static path
    fail with a fetch error, a browser would show the price 5.00, and
    [get_price] does not invoke the rendered extractor. *)
Lemma get_price_fetch_error_no_fallback :
  ~ (forall e,
       requests_get Sample.world "https://shop.example/503"
         (user_agent_var Sample.cfg) = Raise e ->
       rendered_invoked
         (snd (get_price Sample.findall Sample.world Sample.cfg
                 "https://shop.example/503" None)) = true)
  /\ fst (get_price_with_playwright Sample.world Sample.cfg
            "https://shop.example/503" None) = Some 5.00%Q
  /\ fst (get_price Sample.findall Sample.world Sample.cfg
            "https://shop.example/503" None) = None.
Proof.
  split; [|split; reflexivity].
  intros H. specialize (H (RequestException "503 Server Error") eq_refl).
  vm_compute in H. discriminate.
Qed.

(** C5. If the static extractor returns a price, [get_price] returns that
    price and the rendered extractor is not invoked; if it returns absent,
    [get_price] returns what the rendered extractor returns; and when
    neither yields a price the result is absent. *)
Theorem get_price_static_then_rendered re_findall W cfg url selector :
  let static := static_extract re_findall W cfg url selector in
  let rendered := get_price_with_playwright W cfg url selector in
  let result := get_price re_findall W cfg url selector in
  (forall p, static = Return (Some p) ->
     fst result = Some p /\ rendered_invoked (snd result) = false)
  /\ (static = Return None ->
      fst result = fst rendered /\ rendered_invoked (snd result) = true)
  /\ ((forall p, static <> Return (Some p)) -> fst rendered = None ->
      fst result = None).
Proof.
  intros static rendered result.
  pose proof (get_price_cases re_findall W cfg url selector) as H. cbv zeta in H.
  fold static in H. fold result in H. fold rendered in H.
  split; [|split].
  - intros p Hs. rewrite Hs in H. rewrite H. split; reflexivity.
  - intros Hs. rewrite Hs in H. rewrite H. split; [reflexivity|].
    destruct (get_price_with_playwright_log W cfg url selector) as [rest Hl].
    fold rendered in Hl. cbn [snd]. rewrite Hl. reflexivity.
  - intros Hno Hr. destruct static as [[p|]|e].
    + exfalso. apply (Hno p). reflexivity.
    + rewrite H. exact Hr.
    + rewrite H. reflexivity.
Qed.

Lemma get_price_static_then_rendered_witness :
  (fst (get_price Sample.findall Sample.world Sample.cfg
          "https://shop.example/static" None) = Some 8.00%Q
   /\ rendered_invoked
        (snd (get_price Sample.findall Sample.world Sample.cfg
                "https://shop.example/static" None)) = false)
  /\ (fst (get_price Sample.findall Sample.world Sample.cfg
             "https://shop.example/js" None)
      = fst (get_price_with_playwright Sample.world Sample.cfg
               "https://shop.example/js" None)
      /\ rendered_invoked
           (snd (get_price Sample.findall Sample.world Sample.cfg
                   "https://shop.example/js" None)) = true)
  /\ fst (get_price Sample.findall Sample.world Sample.cfg
            "https://shop.example/down" None) = None.
Proof.
  split; [|split].
  - apply (proj1 (get_price_static_then_rendered Sample.findall Sample.world
                    Sample.cfg "https://shop.example/static" None)).
    reflexivity.
  - apply (proj1 (proj2 (get_price_static_then_rendered Sample.findall
                           Sample.world Sample.cfg "https://shop.example/js" None))).
    reflexivity.
  - apply (proj2 (proj2 (get_price_static_then_rendered Sample.findall
                           Sample.world Sample.cfg "https://shop.example/down" None))).
    + intros p. vm_compute. discriminate.
    + reflexivity.
Defined.

(** ** Soft delete *)

Lemma nth_error_map_some {A B : Type} (f : A -> B) (l : list A) (i : nat) (a : A) :
  nth_error l i = Some a -> nth_error (map f l) i = Some (f a).
Proof.
  revert i. induction l as [|x l IH]; intros [|i]; simpl; try discriminate.
  - now intros [= ->].
  - apply IH.
Qed.

(** X27. A confirmed delete, by the text SQLite compares the names with
    (the selected name itself, or its integer reading written out when
    ttk read the name as an integer): the rows of that name get
    [active = 0] and keep every other column, the other rows are as they
    were, no row is added, removed or moved, the history and the counters
    stay. *)
Lemma delete_product_by_value (value : tk_value) (others : list tk_value)
  (text : string) (db : database) :
  bind_name_param value = Return text ->
  let db' := fst (delete_product (value :: others) true db) in
  length (products db') = length (products db)
  /\ (forall i p, nth_error (products db) i = Some p ->
        exists p',
          nth_error (products db') i = Some p'
          /\ p_id p' = p_id p /\ p_name p' = p_name p /\ p_url p' = p_url p
          /\ p_target_price p' = p_target_price p
          /\ p_current_price p' = p_current_price p
          /\ p_last_checked p' = p_last_checked p
          /\ p_created_at p' = p_created_at p
          /\ p_selector p' = p_selector p
          /\ p_active p' = (if String.eqb (p_name p) text then 0 else p_active p))
  /\ (forall p, In p (active_products db') -> p_name p <> text)
  /\ (forall p, In p (active_products db) -> p_name p <> text ->
        In p (active_products db'))
  /\ price_history db' = price_history db
  /\ products_seq db' = products_seq db
  /\ price_history_seq db' = price_history_seq db.
Proof.
  intros Hbind. cbn [delete_product]. rewrite Hbind.
  cbn [fst deactivate_by_name products price_history products_seq
       price_history_seq].
  split; [apply length_map|].
  split.
  { intros i p H.
    exists (if String.eqb (p_name p) text then deactivated p else p).
    split; [now apply nth_error_map_some with (f := fun p =>
              if String.eqb (p_name p) text then deactivated p else p)|].
    destruct (String.eqb (p_name p) text); repeat split. }
  split; [|split; [|repeat split]].
  - intros p Hin. unfold active_products in Hin. cbn [products] in Hin.
    apply filter_In in Hin as [Hin Hact]. apply in_map_iff in Hin as [q [Hq _]].
    destruct (String.eqb_spec (p_name q) text) as [E|E]; subst p.
    + discriminate.
    + exact E.
  - intros p Hin Hne. unfold active_products in *. cbn [products].
    apply filter_In in Hin as [Hin Hact]. apply filter_In. split; [|exact Hact].
    apply in_map_iff. exists p. split; [|exact Hin].
    destruct (String.eqb_spec (p_name p) text) as [E|E];
      [contradiction|reflexivity].
Qed.

(** Deleting the row named Widget of a store with two products of that
    name and one named Gadget: both Widget rows are deactivated, row for
    row, and Gadget is as it was. *)
Lemma delete_product_by_value_witness :
  map (fun p => (p_id p, p_name p, p_active p)) (products Sample.db4)
  = [(1, "Widget", 1); (2, "Widget", 1); (3, "Gadget", 1)]
  /\ bind_name_param (Sample.pick "Widget") = Return "Widget"
  /\ map (fun p => (p_id p, p_name p, p_active p))
       (products (fst (delete_product [Sample.pick "Widget"] true Sample.db4)))
     = [(1, "Widget", 0); (2, "Widget", 0); (3, "Gadget", 1)]
  /\ (forall i p, nth_error (products Sample.db4) i = Some p ->
        exists p',
          nth_error
            (products (fst (delete_product [Sample.pick "Widget"] true
                              Sample.db4))) i = Some p'
          /\ p_id p' = p_id p /\ p_name p' = p_name p /\ p_url p' = p_url p
          /\ p_target_price p' = p_target_price p
          /\ p_current_price p' = p_current_price p
          /\ p_last_checked p' = p_last_checked p
          /\ p_created_at p' = p_created_at p
          /\ p_selector p' = p_selector p
          /\ p_active p'
             = (if String.eqb (p_name p) "Widget" then 0 else p_active p)).
Proof.
  split; [reflexivity|]. split; [reflexivity|]. split; [reflexivity|].
  exact (proj1 (proj2 (delete_product_by_value (Sample.pick "Widget") []
                         "Widget" Sample.db4 eq_refl))).
Defined.

(** C10, where the code departs from it. Two active products are named
    007 and 7. The row 007 is selected and the delete confirmed: ttk
    hands the name back as the integer 7, the UPDATE compares the names
    with the text 7, so the product 007 stays active, the product 7 is
    deactivated, every other column of both rows is as it was, and the
    success dialog is shown. *)
Theorem delete_product_by_name :
  products Sample.db_007
  = [ {| p_id := 1; p_name := "007"; p_url := "https://shop.example/static";
         p_target_price := None; p_current_price := None;
         p_last_checked := None; p_created_at := "2024-05-01 10:00:00";
         p_selector := Some ""; p_active := 1 |};
      {| p_id := 2; p_name := "7"; p_url := "https://shop.example/js";
         p_target_price := None; p_current_price := None;
         p_last_checked := None; p_created_at := "2024-05-01 10:01:00";
         p_selector := Some ""; p_active := 1 |} ]
  /\ convert_stringval PyStr.int_of_decimal "007" = TkInt 7
  /\ bind_name_param (TkInt 7) = Return "7"
  /\ products (fst (delete_product
                      [convert_stringval PyStr.int_of_decimal "007"] true
                      Sample.db_007))
     = [ {| p_id := 1; p_name := "007"; p_url := "https://shop.example/static";
            p_target_price := None; p_current_price := None;
            p_last_checked := None; p_created_at := "2024-05-01 10:00:00";
            p_selector := Some ""; p_active := 1 |};
         {| p_id := 2; p_name := "7"; p_url := "https://shop.example/js";
            p_target_price := None; p_current_price := None;
            p_last_checked := None; p_created_at := "2024-05-01 10:01:00";
            p_selector := Some ""; p_active := 0 |} ]
  /\ snd (delete_product [convert_stringval PyStr.int_of_decimal "007"] true
            Sample.db_007)
     = [EvLoadProducts; EvShowInfo "Success" "Product deleted successfully"].
Proof. repeat split. Qed.

(** ** Adding a product *)

Lemma url_taken_iff (db : database) (url : string) :
  existsb (fun p => String.eqb (p_url p) url) (products db) = true
  <-> exists p, In p (products db) /\ p_url p = url.
Proof.
  rewrite existsb_exists. split; intros [p [Hin H]]; exists p; split; auto.
  - now apply String.eqb_eq.
  - now apply String.eqb_eq.
Qed.

(** [add_product] once the form is filled in well. *)
Lemma add_product_valid_form py_float name_entry url_entry target_entry
  selector_entry now db :
  PyStr.nonempty (PyStr.strip name_entry) = true ->
  PyStr.nonempty (PyStr.strip url_entry) = true ->
  (PyStr.nonempty (PyStr.strip target_entry) = true ->
   py_float (PyStr.strip target_entry) <> None) ->
  exists target,
    add_product py_float name_entry url_entry target_entry selector_entry now db
    = match insert_product db (PyStr.strip name_entry) (PyStr.strip url_entry)
              target (PyStr.strip selector_entry) now with
      | Return db' =>
          (db', [EvClearEntries; EvLoadProducts;
                 EvShowInfo "Success" "Product added successfully!"])
      | Raise _ =>
          (db, [EvShowError "Error" "This URL is already being tracked"])
      end.
Proof.
  intros Hn Hu Ht. unfold add_product. rewrite Hn, Hu. cbn [negb orb].
  destruct (PyStr.nonempty (PyStr.strip target_entry)).
  - destruct (py_float (PyStr.strip target_entry)) as [t|] eqn:E.
    + exists (Some t). unfold insert_product.
      destruct (existsb _ (products db)); reflexivity.
    + exfalso. now apply Ht.
  - exists None. unfold insert_product.
    destruct (existsb _ (products db)); reflexivity.
Qed.

(** With the form filled in well, adding a product whose URL equals the
    URL of any row of the table, active or deactivated, fails with the
    duplicate-URL error shown to the user and leaves the store as it was;
    adding a URL that no row holds succeeds and appends an active row. *)
Theorem add_product_url_unique_over_all_rows py_float name_entry url_entry
  target_entry selector_entry now db :
  PyStr.nonempty (PyStr.strip name_entry) = true ->
  PyStr.nonempty (PyStr.strip url_entry) = true ->
  (PyStr.nonempty (PyStr.strip target_entry) = true ->
   py_float (PyStr.strip target_entry) <> None) ->
  let r := add_product py_float name_entry url_entry target_entry
             selector_entry now db in
  ((exists p, In p (products db) /\ p_url p = PyStr.strip url_entry) ->
   r = (db, [EvShowError "Error" "This URL is already being tracked"]))
  /\ ((forall p, In p (products db) -> p_url p <> PyStr.strip url_entry) ->
      exists row,
        products (fst r) = products db ++ [row]
        /\ p_name row = PyStr.strip name_entry
        /\ p_url row = PyStr.strip url_entry
        /\ p_active row = 1
        /\ price_history (fst r) = price_history db
        /\ snd r = [EvClearEntries; EvLoadProducts;
                    EvShowInfo "Success" "Product added successfully!"]).
Proof.
  intros Hn Hu Ht r.
  destruct (add_product_valid_form py_float name_entry url_entry target_entry
              selector_entry now db Hn Hu Ht) as [target Hr].
  fold r in Hr. unfold insert_product in Hr. split.
  - intros Hex. apply url_taken_iff in Hex. rewrite Hex in Hr. exact Hr.
  - intros Hfree.
    destruct (existsb (fun p => String.eqb (p_url p) (PyStr.strip url_entry))
                (products db)) eqn:E.
    + apply url_taken_iff in E as [p [Hin Hp]]. exfalso. exact (Hfree p Hin Hp).
    + rewrite Hr. cbn [fst snd products price_history].
      eexists. repeat split.
Qed.

Lemma add_product_url_unique_over_all_rows_witness :
  add_product PyStr.float_of_decimal "Widget" "https://shop.example/static"
    "7.50" "" "2024-05-03 09:00:00" Sample.db3
  = (Sample.db3, [EvShowError "Error" "This URL is already being tracked"]).
Proof.
  apply (proj1 (add_product_url_unique_over_all_rows PyStr.float_of_decimal
                  "Widget" "https://shop.example/static" "7.50" ""
                  "2024-05-03 09:00:00" Sample.db3
                  eq_refl eq_refl ltac:(vm_compute; discriminate))).
  eexists. split; [left; reflexivity|reflexivity].
Defined.

(** C2, where the code departs from it. The only product with the URL
    has been deleted: its row is still in the table with [active = 0], no
    active product holds the URL, the product list and the export show
    nothing, and adding the URL again is refused with the dialog
    "This URL is already being tracked", the store left as it was. *)
Theorem add_product_reuse_after_delete_refused :
  let db := fst (delete_product [Sample.pick "Widget"] true Sample.db1) in
  map (fun p => (p_name p, p_url p, p_active p)) (products db)
  = [("Widget", "https://shop.example/static", 0)]
  /\ active_products db = []
  /\ load_products Sample2.format_price Sample2.format_time db = []
  /\ export_products db = []
  /\ add_product PyStr.float_of_decimal "Widget" "https://shop.example/static"
       "" "" "2024-05-03 09:00:00" db
     = (db, [EvShowError "Error" "This URL is already being tracked"]).
Proof. repeat split. Qed.

(** ** The check cycle *)

Section CycleFacts.

Variable cfg : Settings.
Variable detect : detector.
Variable datetime_now : Z -> string.
Variable current_timestamp : Z -> string.

Lemma check_step_db (db : database) (p : product) :
  fst (check_step cfg detect datetime_now current_timestamp db p)
  = match stored_price detect p with
    | Some np =>
        insert_history
          (update_price db (p_id p) np (datetime_now (p_id p)))
          (p_id p) np (current_timestamp (p_id p))
    | None => db
    end.
Proof.
  unfold check_step, check_product, stored_price.
  destruct (detect (p_url p) (p_selector p)) as [[[np|]|e] evs]; cbn [fst bind try_except];
    try reflexivity.
  destruct (truthy np); reflexivity.
Qed.

Lemma check_step_log (db : database) (p : product) :
  snd (check_step cfg detect datetime_now current_timestamp db p)
  = step_log cfg detect p.
Proof.
  unfold check_step, check_product, step_log.
  destruct (detect (p_url p) (p_selector p)) as [[[np|]|e] evs];
    cbn [fst snd bind try_except]; try reflexivity.
  destruct (truthy np); reflexivity.
Qed.

Lemma product_by_id_update_price (db : database) (id id' : Z) (np : Q)
  (now : string) :
  product_by_id (update_price db id np now) id'
  = if id' =? id then option_map (with_price np now) (product_by_id db id')
    else product_by_id db id'.
Proof.
  unfold product_by_id, update_price. cbn [products].
  induction (products db) as [|q l IH]; cbn [map find].
  - destruct (id' =? id); reflexivity.
  - destruct (p_id q =? id) eqn:Eq.
    + apply Z.eqb_eq in Eq. cbn [with_price p_id].
      destruct (p_id q =? id') eqn:Eq'.
      * apply Z.eqb_eq in Eq'. replace (id' =? id) with true
          by (symmetry; apply Z.eqb_eq; lia). reflexivity.
      * exact IH.
    + destruct (p_id q =? id') eqn:Eq'.
      * apply Z.eqb_eq in Eq'. apply Z.eqb_neq in Eq.
        replace (id' =? id) with false by (symmetry; apply Z.eqb_neq; lia).
        reflexivity.
      * exact IH.
Qed.

Lemma observations_of_insert_history (db : database) (id id' : Z) (np : Q)
  (now : string) :
  observations_of (insert_history db id np now) id'
  = observations_of db id'
    ++ (if id =? id'
        then [ {| h_id := price_history_seq db + 1; h_product_id := id;
                  h_price := np; h_timestamp := now |} ]
        else []).
Proof.
  unfold observations_of, insert_history. cbn [price_history].
  rewrite filter_app. cbn [filter h_product_id]. reflexivity.
Qed.

(** What one turn of the loop does to the row and the observations of
    any id. *)
Lemma check_step_effect (db : database) (p : product) (id : Z) :
  let db' := fst (check_step cfg detect datetime_now current_timestamp db p) in
  match stored_price detect p with
  | Some np =>
      product_by_id db' id
      = (if id =? p_id p
         then option_map (with_price np (datetime_now (p_id p))) (product_by_id db id)
         else product_by_id db id)
      /\ observations_of db' id
         = observations_of db id
           ++ (if p_id p =? id
               then [ {| h_id := price_history_seq db + 1; h_product_id := p_id p;
                         h_price := np;
                         h_timestamp := current_timestamp (p_id p) |} ]
               else [])
  | None => db' = db
  end.
Proof.
  cbv zeta. rewrite check_step_db. destruct (stored_price detect p) as [np|]; [|reflexivity].
  split.
  - change (product_by_id (insert_history ?d _ _ _) id) with (product_by_id d id).
    apply product_by_id_update_price.
  - rewrite observations_of_insert_history. reflexivity.
Qed.

(** The rows and observations of ids the loop does not handle stay. *)
Lemma check_loop_other_ids (fetched : list product) : forall (db : database) (id : Z),
  ~ In id (map p_id fetched) ->
  let db' := fst (check_loop cfg detect datetime_now current_timestamp fetched db) in
  product_by_id db' id = product_by_id db id
  /\ observations_of db' id = observations_of db id.
Proof.
  induction fetched as [|q rest IH]; intros db id Hnot; cbn [check_loop].
  - split; reflexivity.
  - cbn [map In] in Hnot.
    destruct (check_step cfg detect datetime_now current_timestamp db q)
      as [db1 ev1] eqn:Hstep.
    destruct (check_loop cfg detect datetime_now current_timestamp rest db1)
      as [db2 ev2] eqn:Hloop.
    cbv zeta. cbn [fst].
    assert (Hrest : ~ In id (map p_id rest)) by tauto.
    specialize (IH db1 id Hrest). cbv zeta in IH. rewrite Hloop in IH. cbn [fst] in IH.
    destruct IH as [IH1 IH2]. rewrite IH1, IH2.
    pose proof (check_step_effect db q id) as He. cbv zeta in He.
    rewrite Hstep in He. cbn [fst] in He.
    assert (Hne : p_id q <> id) by tauto.
    destruct (stored_price detect q) as [np|].
    + destruct He as [He1 He2]. rewrite He1, He2.
      replace (id =? p_id q) with false by (symmetry; apply Z.eqb_neq; lia).
      replace (p_id q =? id) with false by (symmetry; apply Z.eqb_neq; lia).
      rewrite app_nil_r. split; reflexivity.
    + subst db1. split; reflexivity.
Qed.

(** What the loop does for a row it handles, ids being distinct. *)
Lemma check_loop_handled (fetched : list product) : forall (db : database) (p : product),
  NoDup (map p_id fetched) -> In p fetched ->
  let db' := fst (check_loop cfg detect datetime_now current_timestamp fetched db) in
  match stored_price detect p with
  | Some np =>
      product_by_id db' (p_id p)
      = option_map (with_price np (datetime_now (p_id p))) (product_by_id db (p_id p))
      /\ exists hid,
           observations_of db' (p_id p)
           = observations_of db (p_id p)
             ++ [ {| h_id := hid; h_product_id := p_id p; h_price := np;
                     h_timestamp := current_timestamp (p_id p) |} ]
  | None =>
      product_by_id db' (p_id p) = product_by_id db (p_id p)
      /\ observations_of db' (p_id p) = observations_of db (p_id p)
  end.
Proof.
  induction fetched as [|q rest IH]; intros db p Hnd Hin; [destruct Hin|].
  cbn [map] in Hnd. apply NoDup_cons_iff in Hnd as [Hq Hnd].
  cbn [check_loop].
  destruct (check_step cfg detect datetime_now current_timestamp db q)
    as [db1 ev1] eqn:Hstep.
  destruct (check_loop cfg detect datetime_now current_timestamp rest db1)
    as [db2 ev2] eqn:Hloop.
  cbv zeta. cbn [fst].
  pose proof (check_step_effect db q (p_id p)) as He. cbv zeta in He.
  rewrite Hstep in He. cbn [fst] in He.
  destruct Hin as [-> | Hin].
  - pose proof (check_loop_other_ids rest db1 (p_id p) Hq) as Ho.
    cbv zeta in Ho. rewrite Hloop in Ho. cbn [fst] in Ho. destruct Ho as [Ho1 Ho2].
    rewrite Ho1, Ho2. rewrite Z.eqb_refl in He.
    destruct (stored_price detect p) as [np|].
    + destruct He as [He1 He2]. rewrite He1, He2. split; [reflexivity|eauto].
    + subst db1. split; reflexivity.
  - specialize (IH db1 p Hnd Hin). cbv zeta in IH. rewrite Hloop in IH.
    cbn [fst] in IH.
    assert (Hne : p_id q <> p_id p).
    { intros E. apply Hq. rewrite E. now apply in_map. }
    assert (H1 : product_by_id db1 (p_id p) = product_by_id db (p_id p)
                 /\ observations_of db1 (p_id p) = observations_of db (p_id p)).
    { destruct (stored_price detect q) as [nq|].
      - destruct He as [He1 He2]. rewrite He1, He2.
        replace (p_id p =? p_id q) with false by (symmetry; apply Z.eqb_neq; lia).
        replace (p_id q =? p_id p) with false by (symmetry; apply Z.eqb_neq; lia).
        rewrite app_nil_r. split; reflexivity.
      - subst db1. split; reflexivity. }
    destruct H1 as [H1 H2]. rewrite H1, H2 in IH. exact IH.
Qed.

Lemma product_by_id_in (db : database) (p : product) :
  NoDup (map p_id (products db)) -> In p (products db) ->
  product_by_id db (p_id p) = Some p.
Proof.
  unfold product_by_id. induction (products db) as [|q l IH]; intros Hnd Hin;
    [destruct Hin|].
  cbn [map] in Hnd. apply NoDup_cons_iff in Hnd as [Hq Hnd]. cbn [find].
  destruct Hin as [-> | Hin].
  - now rewrite Z.eqb_refl.
  - destruct (p_id q =? p_id p) eqn:E.
    + apply Z.eqb_eq in E. exfalso. apply Hq. rewrite E. now apply in_map.
    + now apply IH.
Qed.

Lemma NoDup_map_filter {A B : Type} (f : A -> B) (g : A -> bool) (l : list A) :
  NoDup (map f l) -> NoDup (map f (filter g l)).
Proof.
  induction l as [|a l IH]; cbn [map filter]; intros H; [constructor|].
  apply NoDup_cons_iff in H as [Ha H]. destruct (g a); cbn [map]; [|auto].
  constructor; [|auto]. intros Hin. apply Ha.
  apply in_map_iff in Hin as [x [Hx Hin]]. apply filter_In in Hin as [Hin _].
  rewrite <- Hx. now apply in_map.
Qed.

End CycleFacts.

Lemma check_loop_log cfg detect datetime_now current_timestamp
  (fetched : list product) : forall db,
  snd (check_loop cfg detect datetime_now current_timestamp fetched db)
  = flat_map (step_log cfg detect) fetched.
Proof.
  induction fetched as [|q rest IH]; intros db; cbn [check_loop flat_map];
    [reflexivity|].
  pose proof (check_step_log cfg detect datetime_now current_timestamp db q) as Hq.
  destruct (check_step cfg detect datetime_now current_timestamp db q)
    as [db1 ev1].
  specialize (IH db1).
  destruct (check_loop cfg detect datetime_now current_timestamp rest db1)
    as [db2 ev2].
  cbn [snd] in *. now rewrite Hq, IH.
Qed.

Lemma check_loop_run_returns cfg detect datetime_now current_timestamp
  (fetched : list product) : forall db,
  check_loop_run cfg detect datetime_now current_timestamp fetched db
  = Return (check_loop cfg detect datetime_now current_timestamp fetched db).
Proof.
  induction fetched as [|q rest IH]; intros db; cbn [check_loop_run check_loop];
    [reflexivity|].
  unfold check_step.
  destruct (check_product cfg detect datetime_now current_timestamp db q)
    as [[[db1 ev1]|e] evs]; cbn [catch try_except bind fst snd];
    rewrite IH; cbn [bind];
    match goal with
    | |- context [check_loop _ _ _ _ rest ?d] =>
        destruct (check_loop cfg detect datetime_now current_timestamp rest d)
    end; reflexivity.
Qed.

(** Without the [try], a fetched product whose detection raises ends the
    loop with an exception. *)
Lemma check_loop_unguarded_raises cfg detect datetime_now current_timestamp
  (fetched : list product) (p : product) (e : exn) : forall db,
  In p fetched ->
  fst (detect (p_url p) (p_selector p)) = Raise e ->
  exists e', check_loop_unguarded cfg detect datetime_now current_timestamp
               fetched db = Raise e'.
Proof.
  induction fetched as [|q rest IH]; intros db Hin Hd; [destruct Hin|].
  cbn [check_loop_unguarded]. unfold check_product.
  destruct (detect (p_url q) (p_selector q)) as [r evs] eqn:Hq.
  destruct Hin as [->|Hin].
  - rewrite Hq in Hd. cbn [fst] in Hd. subst r. cbn [bind]. eauto.
  - destruct r as [[np|]|e0]; cbn [bind]; [| |eauto].
    + destruct (truthy np); cbn [bind fst];
        match goal with
        | |- context [check_loop_unguarded _ _ _ _ rest ?d] =>
            destruct (IH d Hin Hd) as [e' ->]
        end; cbn [bind]; eauto.
    + cbn [fst]. destruct (IH db Hin Hd) as [e' ->]. cbn [bind]. eauto.
Qed.

(** C6. One run of the cycle handles every active product, whatever the
    detection of the others does, and returns: the loop that would end
    with an exception without its [try] returns with it. For a product
    whose detection raises, the exception is logged, its row (current
    price and last-checked included) is as before and no observation is
    added for it; for a product whose detection returns a price, the row
    has the new current price and the timestamp of the check in
    last-checked, its other columns as before, and one observation with
    that price is added. *)
Theorem check_all_prices_isolates_failures cfg detect datetime_now
  current_timestamp (db : database) (p : product) :
  NoDup (map p_id (products db)) ->
  In p (active_products db) ->
  exists db' log,
    check_all_prices_run cfg detect datetime_now current_timestamp db
    = Return (db', log)
    /\ check_all_prices cfg detect datetime_now current_timestamp db = (db', log)
    /\ log = flat_map (step_log cfg detect) (active_products db)
    /\ match fst (detect (p_url p) (p_selector p)) with
       | Raise e =>
           (exists e',
              check_loop_unguarded cfg detect datetime_now current_timestamp
                (active_products db) db = Raise e')
           /\ product_by_id db' (p_id p) = Some p
           /\ observations_of db' (p_id p) = observations_of db (p_id p)
           /\ In (EvPrint ("Error checking price for " ++ p_name p ++ ": ")%string e)
                log
       | Return (Some np) =>
           if truthy np
           then product_by_id db' (p_id p)
                = Some {| p_id := p_id p; p_name := p_name p; p_url := p_url p;
                          p_target_price := p_target_price p;
                          p_current_price := Some np;
                          p_last_checked := Some (datetime_now (p_id p));
                          p_created_at := p_created_at p;
                          p_selector := p_selector p;
                          p_active := p_active p |}
                /\ exists hid,
                     observations_of db' (p_id p)
                     = observations_of db (p_id p)
                       ++ [ {| h_id := hid; h_product_id := p_id p; h_price := np;
                               h_timestamp := current_timestamp (p_id p) |} ]
           else product_by_id db' (p_id p) = Some p
                /\ observations_of db' (p_id p) = observations_of db (p_id p)
       | Return None =>
           product_by_id db' (p_id p) = Some p
           /\ observations_of db' (p_id p) = observations_of db (p_id p)
       end.
Proof.
  intros Hnd Hin.
  destruct (check_all_prices cfg detect datetime_now current_timestamp db)
    as [db' log] eqn:Hrun.
  exists db', log.
  split; [unfold check_all_prices_run; rewrite check_loop_run_returns;
          unfold check_all_prices in Hrun; now rewrite Hrun|].
  split; [reflexivity|].
  assert (Hlog : log = flat_map (step_log cfg detect) (active_products db)).
  { replace log with (snd (check_all_prices cfg detect datetime_now
                             current_timestamp db)) by now rewrite Hrun.
    apply check_loop_log. }
  split; [exact Hlog|].
  assert (Hrow : product_by_id db (p_id p) = Some p).
  { apply product_by_id_in; [exact Hnd|].
    unfold active_products in Hin. now apply filter_In in Hin as [Hin _]. }
  pose proof (check_loop_handled cfg detect datetime_now current_timestamp
                (active_products db) db p
                (NoDup_map_filter p_id _ _ Hnd) Hin) as H.
  cbv zeta in H. fold (check_all_prices cfg detect datetime_now current_timestamp db) in H.
  rewrite Hrun in H. cbn [fst] in H. unfold stored_price in H. rewrite Hrow in H.
  destruct (fst (detect (p_url p) (p_selector p))) as [[np|]|e] eqn:Hd.
  - destruct (truthy np); exact H.
  - exact H.
  - destruct H as [H1 H2].
    split; [now apply check_loop_unguarded_raises with (p := p) (e := e)|].
    split; [exact H1|]. split; [exact H2|].
    rewrite Hlog. apply in_flat_map. exists p. split; [exact Hin|].
    unfold step_log. rewrite Hd. apply in_or_app. right. left. reflexivity.
Qed.

Lemma check_all_prices_isolates_failures_witness :
  let run := check_all_prices Sample.cfg Sample.flaky Sample.datetime_now
               Sample.current_timestamp Sample.db_ab in
  products Sample.db_ab = [Sample.row_a; Sample.row_b]
  /\ check_all_prices_run Sample.cfg Sample.flaky Sample.datetime_now
       Sample.current_timestamp Sample.db_ab = Return run
  /\ ((exists e',
         check_loop_unguarded Sample.cfg Sample.flaky Sample.datetime_now
           Sample.current_timestamp (active_products Sample.db_ab) Sample.db_ab
         = Raise e')
      /\ product_by_id (fst run) 1 = Some Sample.row_a
      /\ observations_of (fst run) 1 = observations_of Sample.db_ab 1
      /\ In (EvPrint "Error checking price for A: " (OtherException "boom"))
           (snd run))
  /\ (product_by_id (fst run) 2
      = Some {| p_id := 2; p_name := "B"; p_url := "https://shop.example/static";
                p_target_price := None; p_current_price := Some 8.00%Q;
                p_last_checked := Some "2024-05-02T08:00:00";
                p_created_at := "2024-05-01 10:01:00"; p_selector := Some "";
                p_active := 1 |}
      /\ exists hid,
           observations_of (fst run) 2
           = observations_of Sample.db_ab 2
             ++ [ {| h_id := hid; h_product_id := 2; h_price := 8.00%Q;
                     h_timestamp := "2024-05-02 06:00:00" |} ]).
Proof.
  cbv zeta.
  assert (Hnd : NoDup (map p_id (products Sample.db_ab))).
  { change (NoDup [1; 2]). constructor.
    - intros [H|[]]. discriminate.
    - constructor; [intros []|constructor]. }
  destruct (check_all_prices_isolates_failures Sample.cfg Sample.flaky
              Sample.datetime_now Sample.current_timestamp Sample.db_ab
              Sample.row_a Hnd (or_introl eq_refl))
    as [db' [log [Hrun [Heq [_ Ha]]]]].
  destruct (check_all_prices_isolates_failures Sample.cfg Sample.flaky
              Sample.datetime_now Sample.current_timestamp Sample.db_ab
              Sample.row_b Hnd (or_intror (or_introl eq_refl)))
    as [db2 [log2 [_ [Heq2 [_ Hb]]]]].
  rewrite Heq in Heq2. injection Heq2 as <- <-.
  rewrite Heq. cbn [fst snd].
  split; [reflexivity|]. split; [exact Hrun|]. split; [exact Ha|exact Hb].
Defined.

(** ** Notifications *)

Lemma Qlt_bool_iff (x y : Q) : Qlt_bool x y = true <-> (x < y)%Q.
Proof.
  unfold Qlt_bool. rewrite negb_true_iff. split.
  - intros H. apply Qnot_le_lt. intros Hle.
    apply Qle_bool_iff in Hle. congruence.
  - intros H. destruct (Qle_bool y x) eqn:E; [|reflexivity].
    apply Qle_bool_iff in E. exfalso. exact (Qlt_not_le _ _ H E).
Qed.

(** For a positive new price the test on the old price is the plain
    comparison. *)
Lemma price_drop_fires_iff cfg (old_price : option Q) (new_price : Q) :
  (0 < new_price)%Q ->
  price_drop_fires cfg old_price new_price = true
  <-> exists old, old_price = Some old /\ (new_price < old)%Q
                  /\ notify_price_drop cfg = true.
Proof.
  intros Hpos. unfold price_drop_fires. destruct old_price as [old|].
  - rewrite !andb_true_iff, Qlt_bool_iff. split.
    + intros [[_ Hlt] Hn]. exists old. auto.
    + intros [o [[= <-] [Hlt Hn]]]. repeat split; auto.
      apply pos_truthy. eapply Qlt_trans; eassumption.
  - split; [discriminate|]. intros [o [H _]]. discriminate.
Qed.

Lemma target_reached_fires_iff cfg (target_price : option Q) (new_price : Q) :
  (0 < new_price)%Q ->
  target_reached_fires cfg target_price new_price = true
  <-> exists target, target_price = Some target /\ (new_price <= target)%Q
                     /\ notify_target_reached cfg = true.
Proof.
  intros Hpos. unfold target_reached_fires. destruct target_price as [target|].
  - rewrite !andb_true_iff, Qle_bool_iff. split.
    + intros [[_ Hle] Hn]. exists target. auto.
    + intros [t [[= <-] [Hle Hn]]]. repeat split; auto.
      apply pos_truthy. eapply Qlt_le_trans; eassumption.
  - split; [discriminate|]. intros [t [H _]]. discriminate.
Qed.

Lemma in_if_singleton {A : Type} (b : bool) (x y : A) :
  In x (if b then [y] else []) <-> b = true /\ y = x.
Proof.
  destruct b; cbn [In]; split.
  - intros [H|[]]. auto.
  - intros [_ H]. auto.
  - intros [].
  - intros [H _]. discriminate.
Qed.

Lemma notifications_drop cfg (p : product) (np : Q) (name : string) (q : Q) :
  In (EvNotify (PriceDrop name q)) (notifications cfg p np)
  <-> price_drop_fires cfg (p_current_price p) np = true
      /\ name = p_name p /\ q = np.
Proof.
  unfold notifications. rewrite in_app_iff, !in_if_singleton. split.
  - intros [[H E]|[_ E]]; [|discriminate]. injection E as <- <-. auto.
  - intros [H [-> ->]]. left. auto.
Qed.

Lemma notifications_target cfg (p : product) (np : Q) (name : string) (q : Q) :
  In (EvNotify (TargetReached name q)) (notifications cfg p np)
  <-> target_reached_fires cfg (p_target_price p) np = true
      /\ name = p_name p /\ q = np.
Proof.
  unfold notifications. rewrite in_app_iff, !in_if_singleton. split.
  - intros [[_ E]|[H E]]; [discriminate|]. injection E as <- <-. auto.
  - intros [H [-> ->]]. right. auto.
Qed.

Lemma get_price_with_playwright_no_notify W cfg url selector (a : alert) :
  ~ In (EvNotify a) (snd (get_price_with_playwright W cfg url selector)).
Proof.
  unfold get_price_with_playwright.
  destruct (playwright_goto W url (user_agent_var cfg)) as [page|e]; cbn [snd].
  - destruct (match selector_given selector with
              | Some s => probe_price page s | None => None end); cbn [snd];
      intros [H|[]]; discriminate.
  - intros [H|[H|[]]]; discriminate.
Qed.

Lemma get_price_no_notify re_findall W cfg url selector (a : alert) :
  ~ In (EvNotify a) (snd (get_price re_findall W cfg url selector)).
Proof.
  pose proof (get_price_cases re_findall W cfg url selector) as H. cbv zeta in H.
  destruct (static_extract re_findall W cfg url selector) as [[q|]|e];
    rewrite H; cbn [snd].
  - intros [E|[]]. discriminate.
  - intros [E|E]; [discriminate|].
    exact (get_price_with_playwright_no_notify W cfg url selector a E).
  - intros [E|[E|[]]]; discriminate.
Qed.

Lemma step_log_get_price re_findall W cfg (p : product) (np : Q) :
  fst (get_price re_findall W cfg (p_url p) (p_selector p)) = Some np ->
  step_log cfg (get_price_detector re_findall W cfg) p
  = snd (get_price re_findall W cfg (p_url p) (p_selector p))
    ++ notifications cfg p np.
Proof.
  intros Hg. unfold step_log, get_price_detector.
  pose proof (get_price_pos re_findall W cfg (p_url p) (p_selector p) np Hg) as Hpos.
  destruct (get_price re_findall W cfg (p_url p) (p_selector p)) as [r evs].
  cbn [fst snd] in *. subst r. now rewrite (pos_truthy np Hpos).
Qed.

(** C3. In the check of a product for which a new price was detected:
    the price-drop alert fires iff the old price is present, the new
    price is below it and the price-drop setting is on; the target alert
    fires iff the target is present, the new price is at most the target
    and the target setting is on. The two are decided separately (both
    may fire), and no other alert fires. *)
Theorem notification_policy re_findall W cfg datetime_now current_timestamp
  (db : database) (p : product) (p_new : Q) :
  fst (get_price re_findall W cfg (p_url p) (p_selector p)) = Some p_new ->
  let log := snd (check_step cfg (get_price_detector re_findall W cfg)
                    datetime_now current_timestamp db p) in
  (In (EvNotify (PriceDrop (p_name p) p_new)) log
   <-> exists p_old, p_current_price p = Some p_old /\ (p_new < p_old)%Q
                     /\ notify_price_drop cfg = true)
  /\ (In (EvNotify (TargetReached (p_name p) p_new)) log
      <-> exists t, p_target_price p = Some t /\ (p_new <= t)%Q
                    /\ notify_target_reached cfg = true)
  /\ (forall a, In (EvNotify a) log ->
        a = PriceDrop (p_name p) p_new \/ a = TargetReached (p_name p) p_new).
Proof.
  intros Hg log.
  pose proof (get_price_pos re_findall W cfg (p_url p) (p_selector p) p_new Hg)
    as Hpos.
  assert (Hlog : forall a, In (EvNotify a) log
                           <-> In (EvNotify a) (notifications cfg p p_new)).
  { intros a. unfold log. rewrite check_step_log, (step_log_get_price _ _ _ _ _ Hg).
    rewrite in_app_iff. split; [|auto].
    intros [H|H]; [|exact H].
    exfalso. exact (get_price_no_notify _ _ _ _ _ a H). }
  split; [|split].
  - rewrite Hlog, notifications_drop, <- (price_drop_fires_iff cfg _ _ Hpos). tauto.
  - rewrite Hlog, notifications_target, <- (target_reached_fires_iff cfg _ _ Hpos).
    tauto.
  - intros a Ha. apply Hlog in Ha. destruct a as [name q|name q].
    + apply notifications_drop in Ha as [_ [-> ->]]. now left.
    + apply notifications_target in Ha as [_ [-> ->]]. now right.
Qed.

Lemma notification_policy_witness :
  let log := snd (check_step Sample.cfg
                    (get_price_detector Sample.findall Sample.world Sample.cfg)
                    Sample.datetime_now Sample.current_timestamp Sample.db1
                    Sample.widget) in
  fst (get_price Sample.findall Sample.world Sample.cfg
         (p_url Sample.widget) (p_selector Sample.widget)) = Some 8.00%Q
  /\ In (EvNotify (PriceDrop "Widget" 8.00%Q)) log
  /\ In (EvNotify (TargetReached "Widget" 8.00%Q)) log.
Proof.
  pose proof (notification_policy Sample.findall Sample.world Sample.cfg
                Sample.datetime_now Sample.current_timestamp Sample.db1
                Sample.widget 8.00%Q eq_refl) as [Hdrop [Htarget _]].
  split; [reflexivity|]. split.
  - apply Hdrop. exists 10.00%Q. repeat split.
  - apply Htarget. exists 9.00%Q. repeat split. discriminate.
Defined.

(** ** Stored prices are positive *)

Lemma stored_price_get_price re_findall W cfg (p : product) :
  stored_price (get_price_detector re_findall W cfg) p
  = fst (get_price re_findall W cfg (p_url p) (p_selector p)).
Proof.
  unfold stored_price, get_price_detector.
  pose proof (get_price_pos re_findall W cfg (p_url p) (p_selector p)) as Hpos.
  destruct (get_price re_findall W cfg (p_url p) (p_selector p)) as [[np|] evs];
    cbn [fst] in *; [|reflexivity].
  now rewrite (pos_truthy np (Hpos np eq_refl)).
Qed.

Lemma prices_positive_step cfg detect datetime_now current_timestamp
  (db : database) (p : product) :
  (forall np, stored_price detect p = Some np -> (0 < np)%Q) ->
  prices_positive db ->
  prices_positive (fst (check_step cfg detect datetime_now current_timestamp db p)).
Proof.
  intros Hdet [Hh Hp]. rewrite check_step_db.
  destruct (stored_price detect p) as [np|]; [|split; assumption].
  specialize (Hdet np eq_refl). split.
  - cbn [insert_history update_price price_history]. apply Forall_app. split; [exact Hh|].
    constructor; [exact Hdet|constructor].
  - cbn [insert_history update_price products]. apply Forall_map.
    eapply Forall_impl; [|exact Hp]. intros q Hq c.
    destruct (p_id q =? p_id p); [|apply Hq].
    cbn [with_price p_current_price]. now intros [= <-].
Qed.

Lemma prices_positive_loop cfg detect datetime_now current_timestamp
  (fetched : list product) : forall db,
  (forall p np, stored_price detect p = Some np -> (0 < np)%Q) ->
  prices_positive db ->
  prices_positive (fst (check_loop cfg detect datetime_now current_timestamp fetched db)).
Proof.
  induction fetched as [|q rest IH]; intros db Hdet Hdb; cbn [check_loop];
    [exact Hdb|].
  pose proof (prices_positive_step cfg detect datetime_now current_timestamp
                db q (Hdet q) Hdb) as Hq.
  destruct (check_step cfg detect datetime_now current_timestamp db q) as [db1 ev1].
  specialize (IH db1 Hdet Hq).
  destruct (check_loop cfg detect datetime_now current_timestamp rest db1)
    as [db2 ev2].
  exact IH.
Qed.

Lemma prices_positive_add py_float name_entry url_entry target_entry
  selector_entry now db :
  prices_positive db ->
  prices_positive (fst (add_product py_float name_entry url_entry target_entry
                          selector_entry now db)).
Proof.
  intros Hdb. unfold add_product.
  destruct (negb (PyStr.nonempty (PyStr.strip name_entry))
            || negb (PyStr.nonempty (PyStr.strip url_entry))); [exact Hdb|].
  destruct (if PyStr.nonempty (PyStr.strip target_entry) then _ else _)
    as [target|e]; [|exact Hdb].
  unfold insert_product.
  destruct (existsb _ (products db)); [exact Hdb|].
  destruct Hdb as [Hh Hp]. split; cbn [fst price_history products]; [exact Hh|].
  apply Forall_app. split; [exact Hp|].
  constructor; [|constructor]. cbn [p_current_price]. discriminate.
Qed.

Lemma prices_positive_delete selection confirm db :
  prices_positive db -> prices_positive (fst (delete_product selection confirm db)).
Proof.
  intros Hdb. unfold delete_product.
  destruct selection as [|product_name others]; [exact Hdb|].
  destruct confirm; [|exact Hdb].
  destruct (bind_name_param product_name) as [text|e]; [|exact Hdb].
  destruct Hdb as [Hh Hp]. split; cbn [fst deactivate_by_name price_history products];
    [exact Hh|].
  apply Forall_map. eapply Forall_impl; [|exact Hp]. intros q Hq c.
  destruct (String.eqb (p_name q) text); apply Hq.
Qed.

(** The invariant holds in every state the program reaches. *)
Lemma reachable_prices_positive py_float db :
  reachable py_float db -> prices_positive db.
Proof.
  induction 1 as [|db n u t s now _ IH|db sel c _ IH|db re W cfg dn ts _ IH
                  |db c _ IH|db c _ IH].
  - split; constructor.
  - now apply prices_positive_add.
  - now apply prices_positive_delete.
  - apply prices_positive_loop; [|exact IH].
    intros p np. rewrite stored_price_get_price. apply get_price_pos.
  - destruct c; [|exact IH]. destruct IH as [_ Hp]. split; [constructor|exact Hp].
  - destruct c; [|exact IH]. split; constructor.
Qed.

(** C9. In every state of the store the program reaches, each
    observation has a price above zero, and so has each current price
    that is set. A check appends an observation only when [get_price]
    returned a price, and then exactly one, with that price. *)
Theorem stored_observations_positive py_float (db : database) :
  reachable py_float db ->
  Forall (fun h => (0 < h_price h)%Q) (price_history db)
  /\ Forall (fun p => forall c, p_current_price p = Some c -> (0 < c)%Q)
       (products db)
  /\ forall re_findall W cfg datetime_now current_timestamp (p : product),
       price_history
         (fst (check_step cfg (get_price_detector re_findall W cfg)
                 datetime_now current_timestamp db p))
       = price_history db
         ++ match fst (get_price re_findall W cfg (p_url p) (p_selector p)) with
            | Some np =>
                [ {| h_id := price_history_seq db + 1; h_product_id := p_id p;
                     h_price := np;
                     h_timestamp := current_timestamp (p_id p) |} ]
            | None => []
            end.
Proof.
  intros Hr. destruct (reachable_prices_positive py_float db Hr) as [Hh Hp].
  split; [exact Hh|]. split; [exact Hp|].
  intros re_findall W cfg datetime_now current_timestamp p.
  rewrite check_step_db, stored_price_get_price.
  destruct (fst (get_price re_findall W cfg (p_url p) (p_selector p))) as [np|].
  - reflexivity.
  - now rewrite app_nil_r.
Qed.

Lemma stored_observations_positive_witness :
  map h_price (price_history Sample.db4) = [8.00%Q; 12.50%Q]
  /\ map p_current_price (products Sample.db4)
     = [Some 8.00%Q; Some 12.50%Q; None]
  /\ Forall (fun h => (0 < h_price h)%Q) (price_history Sample.db4).
Proof.
  split; [reflexivity|]. split; [reflexivity|].
  apply (stored_observations_positive PyStr.float_of_decimal Sample.db4).
  apply reach_check. apply reach_add. apply reach_add. apply reach_add.
  apply reach_init.
Defined.

(** ** The scheduler *)

Section SchedulerFacts.

Variable cfg : Settings.
Variable py_int : string -> option Z.
Variable flag : nat -> bool.
Variable cycle : nat -> database -> Exc (database * list event).

(** The wait never outlasts its [n] seconds. *)
Lemma wait_loop_bounds (n : nat) : forall t,
  (t <= wait_loop flag t n <= t + n)%nat.
Proof.
  induction n as [|n IH]; intros t; cbn [wait_loop]; [lia|].
  destruct (flag t); [|lia]. specialize (IH (S t)). lia.
Qed.

(** The wait is left at the first check that reads False. *)
Lemma wait_loop_leaves_at (n : nat) : forall t T,
  (t <= T <= t + n)%nat ->
  (forall u, (t <= u < T)%nat -> flag u = true) ->
  flag T = false ->
  wait_loop flag t n = T.
Proof.
  induction n as [|n IH]; intros t T Hrange Htrue Hfalse; cbn [wait_loop].
  - lia.
  - destruct (Nat.eq_dec t T) as [->|Hne].
    + now rewrite Hfalse.
    + rewrite (Htrue t) by lia. apply IH; [lia| |exact Hfalse].
      intros u Hu. apply Htrue. lia.
Qed.

(** Left undisturbed, the wait lasts its [n] seconds. *)
Lemma wait_loop_full (n : nat) : forall t,
  (forall u, (t <= u < t + n)%nat -> flag u = true) ->
  wait_loop flag t n = (t + n)%nat.
Proof.
  induction n as [|n IH]; intros t Htrue; cbn [wait_loop]; [lia|].
  rewrite (Htrue t) by lia. rewrite IH; [lia|].
  intros u Hu. apply Htrue. lia.
Qed.

End SchedulerFacts.

(** C7. The wait between two cycles reads the flag before each
    [time.sleep(1)], so two readings are one second apart. When a stop
    issued during the wait makes the flag read False at the check of
    second [T], the wait is left at that check, with no further sleep,
    and the loop ends there: at [T], not at the end of the interval. *)
Theorem tracking_loop_stop_mid_wait cfg py_int flag cycle (turns t0 T : nat)
  (db db1 : database) (evs : list event) (interval_minutes : Z) :
  flag t0 = true ->
  cycle t0 db = Return (db1, evs) ->
  py_int (interval_var cfg) = Some interval_minutes ->
  (t0 < T <= t0 + Z.to_nat (interval_minutes * 60))%nat ->
  (forall u, (t0 <= u < T)%nat -> flag u = true) ->
  flag T = false ->
  fst (stop_tracking true) = false
  /\ wait_loop flag t0 (Z.to_nat (interval_minutes * 60)) = T
  /\ tracking_loop cfg py_int flag cycle (S (S turns)) t0 db
     = {| ls_status := Exited; ls_time := T; ls_db := db1;
          ls_log := evs ++ [EvLoadProducts] |}.
Proof.
  intros Hstart Hcycle Hint Hrange Htrue Hfalse.
  assert (Hwait : wait_loop flag t0 (Z.to_nat (interval_minutes * 60)) = T).
  { apply wait_loop_leaves_at; [lia|exact Htrue|exact Hfalse]. }
  split; [reflexivity|]. split; [exact Hwait|].
  cbn [tracking_loop]. rewrite Hstart. unfold loop_body.
  rewrite Hcycle, Hint, Hwait, Hfalse. cbn [ls_status ls_time ls_db ls_log].
  now rewrite app_nil_r.
Qed.

Lemma tracking_loop_stop_mid_wait_witness :
  fst (stop_tracking true) = false
  /\ wait_loop Sample.stopped_at_90 0 3600 = 90%nat
  /\ tracking_loop Sample.cfg PyStr.int_of_decimal Sample.stopped_at_90
       (Sample.cycle Sample.cfg) 2 0 Sample.db3
     = {| ls_status := Exited; ls_time := 90; ls_db := Sample.db4;
          ls_log := snd (check_all_prices Sample.cfg
                           (get_price_detector Sample.findall Sample.world Sample.cfg)
                           Sample.datetime_now Sample.current_timestamp Sample.db3)
                    ++ [EvLoadProducts] |}.
Proof.
  apply (tracking_loop_stop_mid_wait Sample.cfg PyStr.int_of_decimal
           Sample.stopped_at_90 (Sample.cycle Sample.cfg) 0 0 90 Sample.db3
           Sample.db4 _ 60 eq_refl eq_refl eq_refl).
  - split; [apply Nat.ltb_lt; reflexivity|apply Nat.leb_le; reflexivity].
  - intros u [_ Hu]. apply Nat.ltb_lt. exact Hu.
  - reflexivity.
Defined.

Lemma loop_body_malformed_time cfg py_int flag cycle (t : nat) (db : database) :
  py_int (interval_var cfg) = None ->
  fst (fst (loop_body cfg py_int flag cycle t db)) = (t + 60)%nat.
Proof.
  intros Hint. unfold loop_body.
  destruct (cycle t db) as [[db1 evs]|e]; [rewrite Hint|]; reflexivity.
Qed.

(** C8, as the code has it. With a check interval that [int] rejects,
    [start_tracking] starts the thread and reports success, without
    reading the interval; in the loop every turn runs the cycle, then
    meets the [ValueError], logs it to the console, sleeps 60 seconds and
    goes on: as long as the flag reads True the loop never exits. *)
Theorem malformed_interval_absorbed_in_loop cfg py_int flag cycle :
  py_int (interval_var cfg) = None ->
  start_tracking false
  = (true, [EvThreadStart; EvStatus "Auto tracking started";
            EvShowInfo "Success" "Automatic price tracking started"])
  /\ (forall t db db1 evs,
        cycle t db = Return (db1, evs) ->
        loop_body cfg py_int flag cycle t db
        = ((t + 60)%nat, db1,
           evs ++ [EvLoadProducts;
                   EvPrint "Tracking error: "
                     (ValueError ("invalid literal for int() with base 10: "
                                  ++ interval_var cfg)%string);
                   EvSleep 60]))
  /\ ((forall u, flag u = true) ->
      forall turns t db,
        ls_status (tracking_loop cfg py_int flag cycle turns t db) = StillRunning
        /\ ls_time (tracking_loop cfg py_int flag cycle turns t db)
           = (t + 60 * turns)%nat).
Proof.
  intros Hint. split; [reflexivity|]. split.
  - intros t db db1 evs Hc. unfold loop_body. now rewrite Hc, Hint.
  - intros Hflag turns. induction turns as [|turns IH]; intros t db;
      cbn [tracking_loop].
    + cbn [ls_status ls_time]. split; [reflexivity|lia].
    + rewrite Hflag.
      pose proof (loop_body_malformed_time cfg py_int flag cycle t db Hint) as Ht.
      destruct (loop_body cfg py_int flag cycle t db) as [[t1 db1] evs].
      cbn [fst] in Ht. subst t1. cbn [ls_status ls_time].
      destruct (IH (t + 60)%nat db1) as [IH1 IH2]. split; [exact IH1|].
      rewrite IH2. lia.
Qed.

Lemma malformed_interval_absorbed_in_loop_witness :
  PyStr.int_of_decimal (interval_var Sample.cfg_abc) = None
  /\ ls_status (tracking_loop Sample.cfg_abc PyStr.int_of_decimal (fun _ => true)
                  (Sample.cycle Sample.cfg_abc) 3 0 Sample.db3) = StillRunning
  /\ ls_time (tracking_loop Sample.cfg_abc PyStr.int_of_decimal (fun _ => true)
                (Sample.cycle Sample.cfg_abc) 3 0 Sample.db3) = 180%nat.
Proof.
  split; [reflexivity|].
  exact (proj2 (proj2 (malformed_interval_absorbed_in_loop Sample.cfg_abc
                         PyStr.int_of_decimal (fun _ => true)
                         (Sample.cycle Sample.cfg_abc) eq_refl))
           (fun _ => eq_refl) 3%nat 0%nat Sample.db3).
Defined.

(** C8 as stated fails: with the interval ["abc"], which [int] rejects,
    starting the tracking shows no error and sets the flag, and after
    three turns the loop has shown no error dialog and is still running. *)
Lemma malformed_interval_not_surfaced :
  PyStr.int_of_decimal (interval_var Sample.cfg_abc) = None
  /\ fst (start_tracking false) = true
  /\ error_shown (snd (start_tracking false)) = false
  /\ ls_status (tracking_loop Sample.cfg_abc PyStr.int_of_decimal (fun _ => true)
                  (Sample.cycle Sample.cfg_abc) 3 0 Sample.db3) = StillRunning
  /\ error_shown
       (ls_log (tracking_loop Sample.cfg_abc PyStr.int_of_decimal (fun _ => true)
                  (Sample.cycle Sample.cfg_abc) 3 0 Sample.db3)) = false.
Proof. repeat split; vm_compute; reflexivity. Qed.

(** ** The keys of the products table *)

Lemma check_step_keys cfg detect datetime_now current_timestamp db p :
  let db' := fst (check_step cfg detect datetime_now current_timestamp db p) in
  map p_id (products db') = map p_id (products db)
  /\ map p_url (products db') = map p_url (products db)
  /\ products_seq db' = products_seq db.
Proof.
  cbv zeta. rewrite check_step_db.
  destruct (stored_price detect p) as [np|]; [|repeat split].
  cbn [insert_history update_price products products_seq].
  rewrite !map_map. repeat split; apply map_ext; intros q;
    destruct (p_id q =? p_id p); reflexivity.
Qed.

Lemma check_loop_keys cfg detect datetime_now current_timestamp fetched :
  forall db,
  let db' := fst (check_loop cfg detect datetime_now current_timestamp fetched db) in
  map p_id (products db') = map p_id (products db)
  /\ map p_url (products db') = map p_url (products db)
  /\ products_seq db' = products_seq db.
Proof.
  induction fetched as [|q rest IH]; intros db; cbn [check_loop];
    [repeat split|].
  pose proof (check_step_keys cfg detect datetime_now current_timestamp db q) as Hq.
  cbv zeta in Hq.
  destruct (check_step cfg detect datetime_now current_timestamp db q) as [db1 ev1].
  specialize (IH db1). cbv zeta in IH.
  destruct (check_loop cfg detect datetime_now current_timestamp rest db1)
    as [db2 ev2].
  cbn [fst] in *. destruct Hq as [H1 [H2 H3]], IH as [I1 [I2 I3]].
  rewrite I1, I2, I3. auto.
Qed.

Lemma keys_wf_same (db db' : database) :
  map p_id (products db') = map p_id (products db) ->
  map p_url (products db') = map p_url (products db) ->
  products_seq db' = products_seq db ->
  keys_wf db -> keys_wf db'.
Proof.
  intros Hid Hurl Hseq [H1 [H2 H3]]. unfold keys_wf. rewrite Hid, Hurl, Hseq.
  split; [exact H1|]. split; [|exact H3].
  apply Forall_forall. intros q Hq.
  assert (Hin : In (p_id q) (map p_id (products db))) by (rewrite <- Hid; now apply in_map).
  apply in_map_iff in Hin as [q0 [E Hq0]]. rewrite <- E.
  rewrite Forall_forall in H2. now apply H2.
Qed.

Lemma NoDup_snoc {A : Type} (l : list A) (a : A) :
  NoDup l -> ~ In a l -> NoDup (l ++ [a]).
Proof.
  induction l as [|x l IH]; cbn [app]; intros Hnd Hnot.
  - constructor; [intros []|constructor].
  - apply NoDup_cons_iff in Hnd as [Hx Hnd]. constructor.
    + rewrite in_app_iff. intros [H|[H|[]]]; [auto|].
      apply Hnot. left. auto.
    + apply IH; [exact Hnd|]. intros H. apply Hnot. now right.
Qed.

Lemma keys_wf_add py_float name_entry url_entry target_entry selector_entry
  now db :
  keys_wf db ->
  keys_wf (fst (add_product py_float name_entry url_entry target_entry
                  selector_entry now db)).
Proof.
  intros Hdb. unfold add_product.
  destruct (negb (PyStr.nonempty (PyStr.strip name_entry))
            || negb (PyStr.nonempty (PyStr.strip url_entry))); [exact Hdb|].
  destruct (if PyStr.nonempty (PyStr.strip target_entry) then _ else _)
    as [target|e]; [|exact Hdb].
  unfold insert_product.
  destruct (existsb (fun p => String.eqb (p_url p) (PyStr.strip url_entry))
              (products db)) eqn:E; [exact Hdb|].
  destruct Hdb as [H1 [H2 H3]]. unfold keys_wf.
  cbn [fst products products_seq]. rewrite !map_app. cbn [map p_id p_url].
  rewrite Forall_forall in H2.
  split; [|split].
  - apply NoDup_snoc; [exact H1|].
    intros Hin. apply in_map_iff in Hin as [q [Eq Hq]].
    specialize (H2 q Hq). lia.
  - apply Forall_app. split.
    + apply Forall_forall. intros q Hq. specialize (H2 q Hq). lia.
    + constructor; [cbn [p_id]; lia|constructor].
  - apply NoDup_snoc; [exact H3|].
    intros Hin. apply in_map_iff in Hin as [q [Eq Hq]].
    assert (Ht : existsb (fun p => String.eqb (p_url p) (PyStr.strip url_entry))
                   (products db) = true).
    { apply url_taken_iff. exists q. auto. }
    congruence.
Qed.

(** In every state the program reaches the ids are distinct and so are
    the URLs, over all rows. *)
Lemma reachable_keys_wf py_float db : reachable py_float db -> keys_wf db.
Proof.
  induction 1 as [|db n u t s now _ IH|db sel c _ IH|db re W cfg dn ts _ IH
                  |db c _ IH|db c _ IH].
  - repeat split; constructor.
  - now apply keys_wf_add.
  - unfold delete_product. destruct sel as [|product_name others]; [exact IH|].
    destruct c; [|exact IH].
    destruct (bind_name_param product_name) as [text|e]; [|exact IH]. cbn [fst].
    apply keys_wf_same with (db := db); [| |reflexivity|exact IH];
      cbn [deactivate_by_name products]; rewrite map_map; apply map_ext;
      intros q; destruct (String.eqb (p_name q) text); reflexivity.
  - pose proof (check_loop_keys cfg (get_price_detector re W cfg) dn ts
                  (active_products db) db) as [H1 [H2 H3]].
    now apply keys_wf_same with (db := db).
  - destruct c; [|exact IH]. exact IH.
  - destruct c; [|exact IH]. repeat split; constructor.
Qed.

(** * Further properties *)

(** ** The parser reads digits and periods only *)

Lemma digit_or_period_price_char (c : ascii) :
  price_char c && not_comma c = digit_or_period c.
Proof.
  destruct c as [[] [] [] [] [] [] [] []]; vm_compute; reflexivity.
Qed.

Lemma keep_chars_keep_chars (f g : ascii -> bool) (s : string) :
  PyStr.keep_chars f (PyStr.keep_chars g s)
  = PyStr.keep_chars (fun c => g c && f c) s.
Proof.
  induction s as [|c s IH]; cbn [PyStr.keep_chars]; [reflexivity|].
  destruct (g c); cbn [andb PyStr.keep_chars]; [|exact IH].
  destruct (f c); now rewrite IH.
Qed.

Lemma clean_price_text_eq (text : string) :
  clean_price_text text = PyStr.keep_chars digit_or_period text.
Proof.
  unfold clean_price_text.
  rewrite (keep_chars_strip price_char) by exact space_not_price_char.
  rewrite keep_chars_keep_chars. apply keep_chars_ext, digit_or_period_price_char.
Qed.

(** The parser is [float] applied to the digits and periods of the text. *)
Lemma parse_price_text_eq (text : string) :
  parse_price_text text
  = PyStr.float_of_decimal (PyStr.keep_chars digit_or_period text).
Proof.
  unfold parse_price_text. rewrite clean_price_text_eq.
  destruct text; reflexivity.
Qed.

(** X1. Two texts with the same digits and periods, in the same order,
    parse alike: signs, currency marks, letters, blanks and commas play
    no part, wherever they stand. *)
Theorem parse_price_text_digits_periods_only (t1 t2 : string) :
  PyStr.keep_chars digit_or_period t1 = PyStr.keep_chars digit_or_period t2 ->
  parse_price_text t1 = parse_price_text t2.
Proof. intros H. now rewrite !parse_price_text_eq, H. Qed.

Lemma parse_price_text_digits_periods_only_witness :
  parse_price_text "-1,234.50 EUR" = parse_price_text "USD 12,34.50"
  /\ parse_price_text "-1,234.50 EUR" = Some 1234.50%Q.
Proof.
  split; [|reflexivity].
  apply (parse_price_text_digits_periods_only "-1,234.50 EUR" "USD 12,34.50").
  reflexivity.
Defined.

Lemma count_chars_app (p : ascii -> bool) (s1 s2 : string) :
  count_chars p (s1 ++ s2)%string = (count_chars p s1 + count_chars p s2)%nat.
Proof.
  induction s1 as [|c s1 IH]; cbn [String.append count_chars]; [reflexivity|].
  rewrite IH. lia.
Qed.

Lemma count_chars_keep_chars (p keep : ascii -> bool) (s : string) :
  (forall c, p c = true -> keep c = true) ->
  count_chars p (PyStr.keep_chars keep s) = count_chars p s.
Proof.
  intros H. induction s as [|c s IH]; cbn [PyStr.keep_chars count_chars];
    [reflexivity|].
  destruct (keep c) eqn:Hk; cbn [count_chars]; [now rewrite IH|].
  destruct (p c) eqn:Hp; [|exact IH]. rewrite (H c Hp) in Hk. discriminate.
Qed.

Lemma count_digits_all (s : string) :
  PyStr.all_chars PyStr.is_digit s = true ->
  count_chars PyStr.is_digit s = String.length s
  /\ count_chars PyStr.is_period s = 0%nat.
Proof.
  induction s as [|c s IH]; cbn [PyStr.all_chars count_chars String.length];
    [auto|].
  intros H. apply andb_true_iff in H as [Hc Hs]. destruct (IH Hs) as [I1 I2].
  rewrite Hc, I1, I2. split; [reflexivity|].
  replace (PyStr.is_period c) with false; [reflexivity|].
  revert Hc. destruct c as [[] [] [] [] [] [] [] []]; vm_compute; congruence.
Qed.

Lemma no_period_all_digits (s : string) :
  PyStr.all_chars digit_or_period s = true ->
  count_chars PyStr.is_period s = 0%nat ->
  PyStr.all_chars PyStr.is_digit s = true.
Proof.
  induction s as [|c s IH]; cbn [PyStr.all_chars count_chars]; [reflexivity|].
  intros H Hc. apply andb_true_iff in H as [Hdp Hs].
  destruct (PyStr.is_period c) eqn:Hp; [discriminate|].
  unfold digit_or_period in Hdp. rewrite Hp, orb_false_r in Hdp.
  rewrite Hdp. cbn [andb]. apply IH; [exact Hs|exact Hc].
Qed.

Lemma nonempty_length (s : string) :
  PyStr.nonempty s = true <-> (1 <= String.length s)%nat.
Proof.
  destruct s; cbn [PyStr.nonempty String.length]; split; intros H;
    try discriminate; try lia; reflexivity.
Qed.

(** On a text of digits and periods, [float] succeeds exactly when there
    is a digit and at most one period. *)
Lemma float_of_decimal_some_iff (s : string) :
  PyStr.all_chars digit_or_period s = true ->
  PyStr.float_of_decimal s <> None
  <-> (1 <= count_chars PyStr.is_digit s)%nat
      /\ (count_chars PyStr.is_period s <= 1)%nat.
Proof.
  intros Hall. unfold PyStr.float_of_decimal.
  pose proof (span_digits_spec s) as Hspan.
  destruct (PyStr.span_digits s) as [ip rest]. destruct Hspan as [-> [Hip Hrest]].
  rewrite !count_chars_app. destruct (count_digits_all ip Hip) as [Hd Hp].
  rewrite Hd, Hp. destruct rest as [|c fp].
  - cbn [count_chars]. rewrite !Nat.add_0_r.
    destruct (PyStr.nonempty ip) eqn:Hn.
    + apply nonempty_length in Hn. split; [intros _; lia|discriminate].
    + split; [congruence|]. intros [H _].
      apply nonempty_length in H. congruence.
  - assert (Hc : PyStr.is_period c = true /\ PyStr.all_chars digit_or_period fp = true).
    { assert (H : PyStr.all_chars digit_or_period (String c fp) = true).
      { clear -Hall Hip. induction ip as [|x ip IH]; [exact Hall|].
        cbn [String.append PyStr.all_chars] in Hall, Hip.
        apply andb_true_iff in Hall as [_ Hall].
        apply andb_true_iff in Hip as [_ Hip]. now apply IH. }
      cbn [PyStr.all_chars] in H. apply andb_true_iff in H as [H1 H2].
      unfold digit_or_period in H1. rewrite Hrest in H1. auto. }
    destruct Hc as [Hc Hfp]. cbn [count_chars]. rewrite Hc, Hrest. cbn [andb].
    destruct (PyStr.all_chars PyStr.is_digit fp) eqn:Hf.
    + destruct (count_digits_all fp Hf) as [Fd Fp]. rewrite Fd, Fp.
      destruct (PyStr.nonempty ip || PyStr.nonempty fp) eqn:Hn; cbn [andb].
      * split; [intros _|discriminate]. split; [|lia].
        apply orb_true_iff in Hn as [Hn|Hn]; apply nonempty_length in Hn; lia.
      * split; [congruence|]. intros [H _].
        apply orb_false_iff in Hn as [H1 H2].
        destruct ip; [|discriminate]. destruct fp; [|discriminate].
        cbn [String.length] in H. lia.
    + cbn [andb]. split; [congruence|]. intros [_ H].
      assert (Hz : count_chars PyStr.is_period fp = 0%nat) by lia.
      rewrite (no_period_all_digits fp Hfp Hz) in Hf. discriminate.
Qed.

(** X2. The parser finds a number exactly when the text holds at least
    one digit and at most one period. *)
Theorem parse_price_text_succeeds_iff (text : string) :
  parse_price_text text <> None
  <-> (1 <= count_chars PyStr.is_digit text)%nat
      /\ (count_chars PyStr.is_period text <= 1)%nat.
Proof.
  rewrite parse_price_text_eq.
  rewrite float_of_decimal_some_iff by apply all_chars_kept.
  rewrite !count_chars_keep_chars; [reflexivity| |];
    intros c H; unfold digit_or_period; rewrite H; auto using orb_true_r.
Qed.

Example parse_price_text_range_of_prices :
  parse_price_text "$10 - $20" = Some 1020%Q
  /\ parse_price_text "1.234,56" = Some 1.23456%Q
  /\ parse_price_text "v1.2 $3.50" = None.
Proof. repeat split. Qed.

(** ** The static extractor *)

(** X3. Among the texts of the matching elements the first one that
    parses to a value other than zero wins: a price is returned exactly
    when the texts split into a run of texts that do not parse or parse
    to zero, then a text with that price. *)
Theorem first_price_first_match (texts : list string) (p : Q) :
  first_price texts = Some p
  <-> exists before t after,
        texts = before ++ t :: after
        /\ Forall (fun t' => truthy_opt (parse_price_text t') = false) before
        /\ parse_price_text t = Some p /\ truthy p = true.
Proof.
  induction texts as [|t0 rest IH]; cbn [first_price].
  - split; [discriminate|]. intros [[|b before] [t [after [H _]]]]; discriminate.
  - split.
    + destruct (parse_price_text t0) as [q|] eqn:Hq.
      * destruct (truthy q) eqn:Ht.
        -- intros [= <-]. exists [], t0, rest. repeat split; auto.
        -- intros H. apply IH in H as [before [t [after [-> [Hb Ht']]]]].
           exists (t0 :: before), t, after. repeat split; try tauto.
           constructor; [|exact Hb]. now rewrite Hq.
      * intros H. apply IH in H as [before [t [after [-> [Hb Ht']]]]].
        exists (t0 :: before), t, after. repeat split; try tauto.
        constructor; [|exact Hb]. now rewrite Hq.
    + intros [before [t [after [Heq [Hb [Hp Ht]]]]]].
      destruct before as [|b before]; cbn [app] in Heq; injection Heq as -> ->.
      * now rewrite Hp, Ht.
      * apply Forall_cons_iff in Hb as [Hb0 Hb].
        assert (Hrest : first_price (before ++ t :: after) = Some p).
        { apply IH. exists before, t, after. auto. }
        destruct (parse_price_text b) as [q|]; [|exact Hrest].
        cbn [truthy_opt] in Hb0. now rewrite Hb0.
Qed.

Example first_price_skips_free_and_text :
  first_price ["Sale!"; "$0.00"; "$8.00"; "$9.00"] = Some 8.00%Q.
Proof. reflexivity. Qed.

(** X4. A custom selector that [soup.select] rejects ends the whole
    detection: [get_price] logs the error and returns absent; the common
    selectors, the text scan and the rendered extractor are not tried. *)
Theorem get_price_malformed_selector re_findall W cfg url selector s soup e :
  selector_given selector = Some s ->
  requests_get W url (user_agent_var cfg) = Return soup ->
  soup_select soup s = Raise e ->
  get_price re_findall W cfg url selector
  = (None, [EvHttpGet url (user_agent_var cfg);
            EvPrint "Error getting price: " e]).
Proof.
  intros Hsel Hreq Hraise.
  pose proof (get_price_cases re_findall W cfg url selector) as H. cbv zeta in H.
  assert (Hs : static_extract re_findall W cfg url selector = Raise e).
  { unfold static_extract, extract_price_from_soup.
    rewrite Hreq. cbn [bind]. rewrite Hsel, Hraise. reflexivity. }
  now rewrite Hs in H.
Qed.

Lemma get_price_malformed_selector_witness :
  get_price Sample.findall Sample2.strict_world Sample.cfg
    "https://shop.example/static" (Some "div[")
  = (None, [EvHttpGet "https://shop.example/static" "Mozilla/5.0";
            EvPrint "Error getting price: "
              (SelectorError "Malformed attribute selector")])
  /\ fst (get_price Sample.findall Sample2.strict_world Sample.cfg
            "https://shop.example/static" None) = Some 8.00%Q.
Proof.
  split; [|reflexivity].
  apply (get_price_malformed_selector Sample.findall Sample2.strict_world
           Sample.cfg "https://shop.example/static" (Some "div[") "div["
           Sample2.strict_soup (SelectorError "Malformed attribute selector"));
    reflexivity.
Defined.

(** ** The rendered extractor *)

Lemma probe_price_ext (page1 page2 : string -> probe) (sel : string) :
  page1 sel = page2 sel -> probe_price page1 sel = probe_price page2 sel.
Proof. unfold probe_price. now intros ->. Qed.

Lemma probe_selectors_ext (page1 page2 : string -> probe) (sels : list string) :
  (forall sel, In sel sels -> page1 sel = page2 sel) ->
  probe_selectors page1 sels = probe_selectors page2 sels.
Proof.
  induction sels as [|sel rest IH]; intros H; cbn [probe_selectors];
    [reflexivity|].
  rewrite (probe_price_ext page1 page2 sel) by (apply H; now left).
  rewrite IH; [reflexivity|]. intros x Hx. apply H. now right.
Qed.

(** X5. The rendered extractor looks at the custom selector and at its
    seven selectors, nothing else: two renderings of a page that answer
    these alike give the same result and the same log. *)
Theorem get_price_with_playwright_selectors_only W1 W2 cfg url selector
  (page1 page2 : string -> probe) :
  playwright_goto W1 url (user_agent_var cfg) = Return page1 ->
  playwright_goto W2 url (user_agent_var cfg) = Return page2 ->
  (forall sel, In sel playwright_selectors \/ selector_given selector = Some sel ->
               page1 sel = page2 sel) ->
  get_price_with_playwright W1 cfg url selector
  = get_price_with_playwright W2 cfg url selector.
Proof.
  intros H1 H2 Hagree. unfold get_price_with_playwright. rewrite H1, H2.
  rewrite (probe_selectors_ext page1 page2 playwright_selectors)
    by (intros sel Hsel; apply Hagree; now left).
  destruct (selector_given selector) as [s|]; [|reflexivity].
  rewrite (probe_price_ext page1 page2 s) by (apply Hagree; now right).
  reflexivity.
Qed.

Lemma get_price_with_playwright_selectors_only_witness :
  get_price_with_playwright (Sample2.world_of Sample2.sale_page) Sample.cfg
    "https://shop.example/js" None
  = get_price_with_playwright (Sample2.world_of (fun _ => ProbeNone)) Sample.cfg
      "https://shop.example/js" None
  /\ fst (get_price_with_playwright (Sample2.world_of Sample2.sale_page)
            Sample.cfg "https://shop.example/js" None) = None.
Proof.
  split; [|reflexivity].
  apply (get_price_with_playwright_selectors_only
           (Sample2.world_of Sample2.sale_page)
           (Sample2.world_of (fun _ => ProbeNone)) Sample.cfg
           "https://shop.example/js" None Sample2.sale_page (fun _ => ProbeNone)
           eq_refl eq_refl).
  intros sel [Hin|Hsel]; [|discriminate].
  cbn [playwright_selectors In] in Hin.
  repeat (destruct Hin as [<-|Hin]; [reflexivity|]). destruct Hin.
Defined.

Lemma probe_price_without_raises (page : string -> probe) (sel : string) :
  probe_price (without_raises page) sel = probe_price page sel.
Proof. unfold probe_price, without_raises. destruct (page sel); reflexivity. Qed.

Lemma probe_selectors_without_raises (page : string -> probe) (sels : list string) :
  probe_selectors (without_raises page) sels = probe_selectors page sels.
Proof.
  induction sels as [|sel rest IH]; cbn [probe_selectors]; [reflexivity|].
  now rewrite probe_price_without_raises, IH.
Qed.

(** X6. On the rendered page an exception of [query_selector] or
    [inner_text] counts as no match, for the custom selector as for the
    others: the result and the log are those of the page on which every
    raising probe finds nothing, and the next selectors are still tried. *)
Theorem get_price_with_playwright_swallows_probe_errors W1 W2 cfg url selector
  (page : string -> probe) :
  playwright_goto W1 url (user_agent_var cfg) = Return page ->
  playwright_goto W2 url (user_agent_var cfg) = Return (without_raises page) ->
  get_price_with_playwright W1 cfg url selector
  = get_price_with_playwright W2 cfg url selector.
Proof.
  intros H1 H2. unfold get_price_with_playwright. rewrite H1, H2.
  rewrite probe_selectors_without_raises.
  destruct (selector_given selector) as [s|]; [|reflexivity].
  now rewrite probe_price_without_raises.
Qed.

Lemma get_price_with_playwright_swallows_probe_errors_witness :
  get_price_with_playwright (Sample2.world_of Sample2.raising_page) Sample.cfg
    "https://shop.example/js" (Some ".price")
  = get_price_with_playwright
      (Sample2.world_of (without_raises Sample2.raising_page)) Sample.cfg
      "https://shop.example/js" (Some ".price")
  /\ fst (get_price_with_playwright (Sample2.world_of Sample2.raising_page)
            Sample.cfg "https://shop.example/js" (Some ".price"))
     = Some 12.50%Q.
Proof.
  split; [|reflexivity].
  apply (get_price_with_playwright_swallows_probe_errors
           (Sample2.world_of Sample2.raising_page)
           (Sample2.world_of (without_raises Sample2.raising_page)) Sample.cfg
           "https://shop.example/js" (Some ".price") Sample2.raising_page);
    reflexivity.
Defined.

(** ** What a detection does *)

Lemma get_price_with_playwright_log_shape W cfg url selector :
  let '(r, log) := get_price_with_playwright W cfg url selector in
  log = [EvPlaywright url (user_agent_var cfg)]
  \/ (r = None
      /\ exists e, log = [EvPlaywright url (user_agent_var cfg);
                          EvPrint "Playwright error: " e]).
Proof.
  unfold get_price_with_playwright.
  destruct (playwright_goto W url (user_agent_var cfg)) as [page|e].
  - destruct (match selector_given selector with
              | Some s => probe_price page s | None => None end); now left.
  - right. eauto.
Qed.

Lemma get_price_log_shape re_findall W cfg url selector :
  let ua := user_agent_var cfg in
  let '(r, log) := get_price re_findall W cfg url selector in
  log = [EvHttpGet url ua]
  \/ log = [EvHttpGet url ua; EvPlaywright url ua]
  \/ (r = None
      /\ exists e, log = [EvHttpGet url ua; EvPrint "Error getting price: " e]
                   \/ log = [EvHttpGet url ua; EvPlaywright url ua;
                             EvPrint "Playwright error: " e]).
Proof.
  intros ua. pose proof (get_price_cases re_findall W cfg url selector) as H.
  cbv zeta in H. fold ua in H.
  pose proof (get_price_with_playwright_log_shape W cfg url selector) as Hp.
  fold ua in Hp.
  destruct (static_extract re_findall W cfg url selector) as [[q|]|e]; rewrite H.
  - now left.
  - destruct (get_price_with_playwright W cfg url selector) as [r log].
    cbn [fst snd]. destruct Hp as [->|[-> [e ->]]]; [right; now left|].
    right. right. split; [reflexivity|]. exists e. now right.
  - right. right. split; [reflexivity|]. exists e. now left.
Qed.

(** X7. One call of [get_price] sends exactly one HTTP request, first,
    opens at most one browser session, and shows nothing to the user; when
    it returns a price, the price is above zero and nothing was logged to
    the console. *)
Theorem get_price_effects re_findall W cfg url selector :
  let ua := user_agent_var cfg in
  let r := fst (get_price re_findall W cfg url selector) in
  let log := snd (get_price re_findall W cfg url selector) in
  (exists rest, log = EvHttpGet url ua :: rest
                /\ (forall u a, ~ In (EvHttpGet u a) rest)
                /\ (length (filter is_playwright rest) <= 1)%nat)
  /\ (forall ev, In ev log ->
        match ev with
        | EvHttpGet _ _ | EvPlaywright _ _ | EvPrint _ _ => True
        | _ => False
        end)
  /\ (forall p, r = Some p ->
        (0 < p)%Q /\ forall prefix e, ~ In (EvPrint prefix e) log).
Proof.
  intros ua r log.
  pose proof (get_price_log_shape re_findall W cfg url selector) as H.
  pose proof (get_price_pos re_findall W cfg url selector) as Hpos.
  cbv zeta in H. fold ua in H. unfold r, log.
  destruct (get_price re_findall W cfg url selector) as [r0 log0].
  cbn [fst snd] in *.
  destruct H as [->|[->|[-> [e [->| ->]]]]].
  - split; [exists []; repeat split; [intros u a []|cbn; lia]|]. split.
    + intros ev [<-|[]]. exact I.
    + intros p Hp. split; [now apply Hpos|]. intros prefix e [E|[]]. discriminate.
  - split; [eexists; repeat split; [intros u a [E|[]]; discriminate|cbn; lia]|].
    split.
    + intros ev [<-|[<-|[]]]; exact I.
    + intros p Hp. split; [now apply Hpos|].
      intros prefix e [E|[E|[]]]; discriminate.
  - split; [eexists; repeat split; [intros u a [E|[]]; discriminate|cbn; lia]|].
    split.
    + intros ev [<-|[<-|[]]]; exact I.
    + intros p Hp. discriminate.
  - split; [eexists; repeat split;
            [intros u a [E|[E|[]]]; discriminate|cbn; lia]|].
    split.
    + intros ev [<-|[<-|[<-|[]]]]; exact I.
    + intros p Hp. discriminate.
Qed.

Lemma get_price_effects_witness :
  fst (get_price Sample.findall Sample.world Sample.cfg
         "https://shop.example/js" None) = Some 12.50%Q
  /\ snd (get_price Sample.findall Sample.world Sample.cfg
            "https://shop.example/js" None)
     = [EvHttpGet "https://shop.example/js" "Mozilla/5.0";
        EvPlaywright "https://shop.example/js" "Mozilla/5.0"]
  /\ (0 < 12.50)%Q.
Proof.
  split; [reflexivity|]. split; [reflexivity|].
  exact (proj1 (proj2 (proj2 (get_price_effects Sample.findall Sample.world
                                Sample.cfg "https://shop.example/js" None))
                  12.50%Q eq_refl)).
Defined.

(** X8. Testing the detection of a URL never shows an error dialog once
    a URL is entered: a failed request, a rejected selector and a page
    without price all end in the warning that no price was detected; the
    success dialog appears exactly when [get_price] returns a price. *)
Theorem test_price_detection_reports format_price re_findall W cfg
  (url_entry selector_entry : string) :
  PyStr.nonempty (PyStr.strip url_entry) = true ->
  let log := test_price_detection format_price re_findall W cfg
               url_entry selector_entry in
  let r := fst (get_price re_findall W cfg (PyStr.strip url_entry)
                  (Some (PyStr.strip selector_entry))) in
  error_shown log = false
  /\ (In (EvShowWarning "Warning" "Could not detect price") log <-> r = None)
  /\ (forall p, r = Some p ->
        In (EvShowInfo "Success" ("Price detected: $" ++ format_price p)%string)
          log).
Proof.
  intros Hurl log r. unfold log, r, test_price_detection. rewrite Hurl. cbn [negb].
  pose proof (get_price_log_shape re_findall W cfg (PyStr.strip url_entry)
                (Some (PyStr.strip selector_entry))) as H.
  pose proof (get_price_pos re_findall W cfg (PyStr.strip url_entry)
                (Some (PyStr.strip selector_entry))) as Hpos.
  cbv zeta in H.
  destruct (get_price re_findall W cfg (PyStr.strip url_entry)
              (Some (PyStr.strip selector_entry))) as [r0 log0].
  cbn [fst snd] in *.
  assert (Hlog : error_shown log0 = false
                 /\ ~ In (EvShowWarning "Warning" "Could not detect price") log0).
  { destruct H as [->|[->|[_ [e [->| ->]]]]]; (split; [reflexivity|]);
      cbn [In]; intros Hin;
      repeat (destruct Hin as [Hin|Hin]; [discriminate|]); exact Hin. }
  destruct Hlog as [Herr Hwarn]. unfold error_shown in *.
  destruct r0 as [p|].
  - rewrite (pos_truthy p (Hpos p eq_refl)). split; [|split].
    + cbn [existsb is_show_error orb]. rewrite existsb_app, Herr. reflexivity.
    + split; [|discriminate]. intros [E|Hin]; [discriminate|].
      apply in_app_iff in Hin as [Hin|[E|[E|[]]]]; try discriminate.
      now apply Hwarn in Hin.
    + intros q [= <-]. right. apply in_or_app. right. now left.
  - split; [|split].
    + cbn [existsb is_show_error orb]. rewrite existsb_app, Herr. reflexivity.
    + split; [reflexivity|]. intros _. right. apply in_or_app. right. now left.
    + discriminate.
Qed.

Lemma test_price_detection_reports_witness :
  test_price_detection Sample2.format_price Sample.findall Sample.world
    Sample.cfg " https://shop.example/503 " ""
  = [EvStatus "Testing price detection...";
     EvHttpGet "https://shop.example/503" "Mozilla/5.0";
     EvPrint "Error getting price: " (RequestException "503 Server Error");
     EvShowWarning "Warning" "Could not detect price";
     EvStatus "Ready"]
  /\ error_shown
       (test_price_detection Sample2.format_price Sample.findall Sample.world
          Sample.cfg " https://shop.example/503 " "") = false
  /\ In (EvShowInfo "Success" "Price detected: $8.00")
       (test_price_detection Sample2.format_price Sample.findall Sample.world
          Sample.cfg "https://shop.example/static" "").
Proof.
  split; [reflexivity|]. split.
  - apply (test_price_detection_reports Sample2.format_price Sample.findall
             Sample.world Sample.cfg " https://shop.example/503 " "" eq_refl).
  - apply (proj2 (proj2 (test_price_detection_reports Sample2.format_price
                           Sample.findall Sample.world Sample.cfg
                           "https://shop.example/static" "" eq_refl))
             8.00%Q eq_refl).
Defined.

(** ** The form of [add_product] *)

Lemma lstrip_head (s : string) :
  match PyStr.lstrip s with
  | EmptyString => True
  | String c _ => PyStr.is_space c = false
  end.
Proof.
  induction s as [|c s IH]; cbn [PyStr.lstrip]; [exact I|].
  destruct (PyStr.is_space c) eqn:Hc; [exact IH|exact Hc].
Qed.

Lemma lstrip_fixed (s : string) :
  match s with
  | EmptyString => True
  | String c _ => PyStr.is_space c = false
  end -> PyStr.lstrip s = s.
Proof. destruct s as [|c s]; cbn [PyStr.lstrip]; [auto|]. now intros ->. Qed.

Lemma rstrip_head (s : string) :
  match s with
  | EmptyString => True
  | String c _ => PyStr.is_space c = false
  end ->
  match PyStr.rstrip s with
  | EmptyString => True
  | String c _ => PyStr.is_space c = false
  end.
Proof.
  destruct s as [|c s]; cbn [PyStr.rstrip]; [auto|]. intros Hc.
  destruct (PyStr.rstrip s); [rewrite Hc|]; exact Hc.
Qed.

Lemma rstrip_idempotent (s : string) :
  PyStr.rstrip (PyStr.rstrip s) = PyStr.rstrip s.
Proof.
  induction s as [|c s IH]; cbn [PyStr.rstrip]; [reflexivity|].
  destruct (PyStr.rstrip s) as [|c' r] eqn:Hr.
  - destruct (PyStr.is_space c) eqn:Hc; [reflexivity|].
    cbn [PyStr.rstrip]. now rewrite Hc.
  - change (PyStr.rstrip (String c (String c' r)))
      with (match PyStr.rstrip (String c' r) with
            | EmptyString => if PyStr.is_space c then EmptyString
                             else String c EmptyString
            | r0 => String c r0
            end).
    now rewrite IH.
Qed.

(** [strip] applied twice is [strip]. *)
Lemma strip_idempotent (s : string) :
  PyStr.strip (PyStr.strip s) = PyStr.strip s.
Proof.
  unfold PyStr.strip.
  rewrite (lstrip_fixed (PyStr.rstrip (PyStr.lstrip s)))
    by apply rstrip_head, lstrip_head.
  apply rstrip_idempotent.
Qed.

(** X9. Blanks around the four entries of the form do not matter:
    [add_product] does to the store, and shows, what it does for the
    trimmed entries. *)
Theorem add_product_ignores_surrounding_blanks py_float name_entry url_entry
  target_entry selector_entry now db :
  add_product py_float name_entry url_entry target_entry selector_entry now db
  = add_product py_float (PyStr.strip name_entry) (PyStr.strip url_entry)
      (PyStr.strip target_entry) (PyStr.strip selector_entry) now db.
Proof. unfold add_product. now rewrite !strip_idempotent. Qed.

Example add_product_blanks_same_url :
  snd (add_product PyStr.float_of_decimal "  Widget " "  https://shop.example/static  "
         "" "" "2024-05-03 09:00:00" Sample.db3)
  = [EvShowError "Error" "This URL is already being tracked"].
Proof. reflexivity. Qed.

(** X10. Whatever is typed, [add_product] either shows an error and
    leaves the store as it was, or shows no error and appends one row: an
    active row with an id above every id of the table, with no current
    price and no check yet; the other rows and the history stay. *)
Theorem add_product_outcomes py_float name_entry url_entry target_entry
  selector_entry now db :
  keys_wf db ->
  let r := add_product py_float name_entry url_entry target_entry
             selector_entry now db in
  (fst r = db /\ error_shown (snd r) = true)
  \/ (exists row,
        products (fst r) = products db ++ [row]
        /\ (forall p, In p (products db) -> p_id p < p_id row)
        /\ p_active row = 1
        /\ p_current_price row = None /\ p_last_checked row = None
        /\ price_history (fst r) = price_history db
        /\ error_shown (snd r) = false).
Proof.
  intros [_ [Hids _]] r. unfold r, add_product.
  destruct (negb (PyStr.nonempty (PyStr.strip name_entry))
            || negb (PyStr.nonempty (PyStr.strip url_entry))); [now left|].
  destruct (PyStr.nonempty (PyStr.strip target_entry)).
  - destruct (py_float (PyStr.strip target_entry)) as [t|]; [|now left].
    unfold insert_product. destruct (existsb _ (products db)); [now left|].
    right. eexists. cbn [fst snd products price_history p_id p_active
                         p_current_price p_last_checked].
    repeat split. intros p Hp. rewrite Forall_forall in Hids.
    specialize (Hids p Hp). cbn [p_id]. lia.
  - unfold insert_product. destruct (existsb _ (products db)); [now left|].
    right. eexists. cbn [fst snd products price_history p_id p_active
                         p_current_price p_last_checked].
    repeat split. intros p Hp. rewrite Forall_forall in Hids.
    specialize (Hids p Hp). cbn [p_id]. lia.
Qed.

Lemma add_product_outcomes_witness :
  let r := add_product PyStr.float_of_decimal "Gizmo" "https://shop.example/gizmo"
             "4.50" ".price" "2024-05-03 09:00:00" Sample2.db_deleted in
  map p_id (products (fst r)) = [1; 2; 3; 4]
  /\ map p_active (products (fst r)) = [0; 0; 1; 1]
  /\ ((fst r = Sample2.db_deleted /\ error_shown (snd r) = true)
      \/ (exists row,
            products (fst r) = products Sample2.db_deleted ++ [row]
            /\ (forall p, In p (products Sample2.db_deleted) -> p_id p < p_id row)
            /\ p_active row = 1
            /\ p_current_price row = None /\ p_last_checked row = None
            /\ price_history (fst r) = price_history Sample2.db_deleted
            /\ error_shown (snd r) = false)).
Proof.
  cbv zeta. split; [reflexivity|]. split; [reflexivity|].
  apply (add_product_outcomes PyStr.float_of_decimal "Gizmo"
           "https://shop.example/gizmo" "4.50" ".price" "2024-05-03 09:00:00"
           Sample2.db_deleted).
  apply (reachable_keys_wf PyStr.float_of_decimal).
  apply reach_delete. apply reach_add. apply reach_add. apply reach_add.
  apply reach_init.
Defined.

Lemma entries_wf_add py_float name_entry url_entry target_entry selector_entry
  now db :
  entries_wf db ->
  entries_wf (fst (add_product py_float name_entry url_entry target_entry
                     selector_entry now db)).
Proof.
  intros Hdb. unfold add_product.
  destruct (PyStr.nonempty (PyStr.strip name_entry)) eqn:Hn; [|exact Hdb].
  destruct (PyStr.nonempty (PyStr.strip url_entry)) eqn:Hu; [|exact Hdb].
  cbn [negb orb].
  destruct (if PyStr.nonempty (PyStr.strip target_entry) then _ else _)
    as [target|e]; [|exact Hdb].
  unfold insert_product. destruct (existsb _ (products db)); [exact Hdb|].
  unfold entries_wf. cbn [fst products]. apply Forall_app. split; [exact Hdb|].
  constructor; [|constructor]. cbn [p_name p_url].
  rewrite !strip_idempotent. auto.
Qed.

Lemma entries_wf_map (f : product -> product) (db db' : database) :
  products db' = map f (products db) ->
  (forall p, p_name (f p) = p_name p /\ p_url (f p) = p_url p) ->
  entries_wf db -> entries_wf db'.
Proof.
  intros Hmap Hf Hdb. unfold entries_wf in *. rewrite Hmap. apply Forall_map.
  eapply Forall_impl; [|exact Hdb]. intros p Hp. cbv beta in *.
  destruct (Hf p) as [-> ->]. exact Hp.
Qed.

Lemma check_loop_names cfg detect datetime_now current_timestamp fetched :
  forall db,
  Forall2 same_identity (products db)
    (products (fst (check_loop cfg detect datetime_now current_timestamp fetched db))).
Proof.
  assert (Hrefl : forall l, Forall2 same_identity l l).
  { induction l; constructor; [repeat split|assumption]. }
  assert (Htrans : forall l1 l2, Forall2 same_identity l1 l2 ->
            forall l3, Forall2 same_identity l2 l3 -> Forall2 same_identity l1 l3).
  { induction 1 as [|a b l1 l2 Hab _ IH]; intros l3 H3; inversion H3; subst;
      constructor; [|now apply IH].
    unfold same_identity in *. intuition congruence. }
  induction fetched as [|q rest IH]; intros db; cbn [check_loop]; [apply Hrefl|].
  pose proof (check_step_db cfg detect datetime_now current_timestamp db q) as Hq.
  destruct (check_step cfg detect datetime_now current_timestamp db q) as [db1 ev1].
  specialize (IH db1).
  destruct (check_loop cfg detect datetime_now current_timestamp rest db1)
    as [db2 ev2].
  cbn [fst] in *. apply Htrans with (l2 := products db1); [|exact IH].
  subst db1. destruct (stored_price detect q) as [np|]; [|apply Hrefl].
  cbn [insert_history update_price products].
  induction (products db) as [|a l IHl]; cbn [map]; constructor; [|exact IHl].
  destruct (p_id a =? p_id q); repeat split.
Qed.

Lemma entries_wf_identity (l l' : list product) :
  Forall2 same_identity l l' ->
  Forall (fun p => PyStr.nonempty (p_name p) = true
                   /\ PyStr.nonempty (p_url p) = true
                   /\ PyStr.strip (p_name p) = p_name p
                   /\ PyStr.strip (p_url p) = p_url p) l ->
  Forall (fun p => PyStr.nonempty (p_name p) = true
                   /\ PyStr.nonempty (p_url p) = true
                   /\ PyStr.strip (p_name p) = p_name p
                   /\ PyStr.strip (p_url p) = p_url p) l'.
Proof.
  induction 1 as [|a b l l' Hab _ IH]; intros H; [constructor|].
  apply Forall_cons_iff in H as [Ha H]. constructor; [|now apply IH].
  destruct Hab as [_ [Hn [Hu _]]]. rewrite Hn, Hu. exact Ha.
Qed.

(** X11. In every state the program reaches, each row of the table has
    a name and a URL that are not empty and carry no blanks around. *)
Theorem reachable_entries_wf py_float db :
  reachable py_float db -> entries_wf db.
Proof.
  induction 1 as [|db n u t s now _ IH|db sel c _ IH|db re W cfg dn ts _ IH
                  |db c _ IH|db c _ IH].
  - constructor.
  - now apply entries_wf_add.
  - unfold delete_product. destruct sel as [|product_name others]; [exact IH|].
    destruct c; [|exact IH].
    destruct (bind_name_param product_name) as [text|e]; [|exact IH]. cbn [fst].
    eapply entries_wf_map; [reflexivity| |exact IH].
    intros p. cbv beta. destruct (String.eqb (p_name p) text); auto.
  - unfold entries_wf. eapply entries_wf_identity; [|exact IH].
    apply check_loop_names.
  - destruct c; exact IH.
  - destruct c; [constructor|exact IH].
Qed.

Lemma reachable_entries_wf_witness :
  entries_wf Sample.db4
  /\ map p_url (products Sample.db4)
     = ["https://shop.example/static"; "https://shop.example/js";
        "https://shop.example/503"].
Proof.
  split; [|reflexivity].
  apply (reachable_entries_wf PyStr.float_of_decimal Sample.db4).
  apply reach_check. apply reach_add. apply reach_add. apply reach_add.
  apply reach_init.
Defined.

(** ** Deleted products *)

(** X12. Deleting the same selection twice is deleting it once: the
    second delete changes nothing in the store. *)
Theorem delete_product_idempotent (selection : list tk_value) (db : database) :
  fst (delete_product selection true (fst (delete_product selection true db)))
  = fst (delete_product selection true db).
Proof.
  unfold delete_product. destruct selection as [|value others];
    [reflexivity|].
  destruct (bind_name_param value) as [product_name|e]; [|reflexivity].
  cbn [fst]. unfold deactivate_by_name.
  cbn [products products_seq price_history price_history_seq].
  f_equal. rewrite map_map. apply map_ext. intros p.
  destruct (String.eqb (p_name p) product_name) eqn:E.
  - cbn [deactivated p_name]. rewrite E. reflexivity.
  - now rewrite E.
Qed.

Lemma NoDup_map_inj {A B : Type} (f : A -> B) (l : list A) (a b : A) :
  NoDup (map f l) -> In a l -> In b l -> f a = f b -> a = b.
Proof.
  induction l as [|x l IH]; intros Hnd Ha Hb Hf; [destruct Ha|].
  cbn [map] in Hnd. apply NoDup_cons_iff in Hnd as [Hx Hnd].
  destruct Ha as [->|Ha], Hb as [->|Hb]; [reflexivity| | |now apply IH].
  - exfalso. apply Hx. rewrite Hf. now apply in_map.
  - exfalso. apply Hx. rewrite <- Hf. now apply in_map.
Qed.

(** X13. A cycle passes over the rows that are not active: such a row
    is as before, current price and last check included, and no
    observation is added for it, whatever the detector would return. *)
Theorem check_all_prices_skips_inactive cfg detect datetime_now
  current_timestamp (db : database) (p : product) :
  NoDup (map p_id (products db)) ->
  In p (products db) ->
  p_active p <> 1 ->
  let run := check_all_prices cfg detect datetime_now current_timestamp db in
  product_by_id (fst run) (p_id p) = Some p
  /\ observations_of (fst run) (p_id p) = observations_of db (p_id p)
  /\ ~ In p (active_products db).
Proof.
  intros Hnd Hin Hact run.
  assert (Hnot : ~ In p (active_products db)).
  { unfold active_products. intros H. apply filter_In in H as [_ H].
    apply Z.eqb_eq in H. contradiction. }
  assert (Hid : ~ In (p_id p) (map p_id (active_products db))).
  { intros H. apply in_map_iff in H as [q [Hq Hqin]].
    assert (q = p).
    { apply (NoDup_map_inj p_id (products db)); auto.
      unfold active_products in Hqin. now apply filter_In in Hqin as [Hqin _]. }
    subst q. contradiction. }
  destruct (check_loop_other_ids cfg detect datetime_now current_timestamp
              (active_products db) db (p_id p) Hid) as [H1 H2].
  unfold run, check_all_prices. rewrite H1, H2.
  split; [now apply product_by_id_in|]. split; [reflexivity|exact Hnot].
Qed.

Lemma check_all_prices_skips_inactive_witness :
  let run := check_all_prices Sample.cfg
               (get_price_detector Sample.findall Sample.world Sample.cfg)
               Sample.datetime_now Sample.current_timestamp Sample2.db_deleted in
  map p_current_price (products (fst run)) = [None; None; None]
  /\ map h_product_id (price_history (fst run)) = []
  /\ option_map p_active (product_by_id (fst run) 1) = Some 0
  /\ observations_of (fst run) 1 = [].
Proof.
  cbv zeta. split; [reflexivity|]. split; [reflexivity|].
  assert (Hnd : NoDup (map p_id (products Sample2.db_deleted))).
  { change (NoDup [1; 2; 3]). repeat constructor; cbn [In]; intuition discriminate. }
  destruct (nth_error (products Sample2.db_deleted) 0) as [p|] eqn:Hp;
    [|discriminate].
  assert (Hin : In p (products Sample2.db_deleted)) by (eapply nth_error_In; eassumption).
  vm_compute in Hp. injection Hp as <-.
  destruct (check_all_prices_skips_inactive Sample.cfg
              (get_price_detector Sample.findall Sample.world Sample.cfg)
              Sample.datetime_now Sample.current_timestamp Sample2.db_deleted
              _ Hnd Hin ltac:(discriminate)) as [H1 [H2 _]].
  cbn [p_id] in H1, H2. split; [now rewrite H1|exact H2].
Defined.

Lemma rows_persist_refl (db : database) : rows_persist db db.
Proof. intros i p H. exists p. repeat split; auto. Qed.

Lemma rows_persist_trans (db1 db2 db3 : database) :
  rows_persist db1 db2 -> rows_persist db2 db3 -> rows_persist db1 db3.
Proof.
  intros H12 H23 i p Hp.
  destruct (H12 i p Hp) as [p2 [Hp2 [I2 [N2 [U2 A2]]]]].
  destruct (H23 i p2 Hp2) as [p3 [Hp3 [I3 [N3 [U3 A3]]]]].
  exists p3. split; [exact Hp3|]. repeat split; try congruence.
  destruct A3 as [A3|A3]; [|now right]. rewrite A3. exact A2.
Qed.

Lemma rows_persist_map (f : product -> product) (db db' : database) :
  products db' = map f (products db) ->
  (forall p, p_id (f p) = p_id p /\ p_name (f p) = p_name p
             /\ p_url (f p) = p_url p
             /\ (p_active (f p) = p_active p \/ p_active (f p) = 0)) ->
  rows_persist db db'.
Proof.
  intros Hmap Hf i p Hp. exists (f p). rewrite Hmap.
  split; [now apply nth_error_map_some|]. apply Hf.
Qed.

Lemma rows_persist_identity (db db' : database) :
  Forall2 same_identity (products db) (products db') -> rows_persist db db'.
Proof.
  intros H i. revert H. generalize (products db) (products db').
  induction i as [|i IH]; intros l l' H p Hp; destruct H as [|a b l l' Hab H];
    try discriminate; cbn [nth_error] in *.
  - injection Hp as <-. exists b. split; [reflexivity|].
    destruct Hab as [H1 [H2 [H3 [_ [_ [_ H7]]]]]]. auto.
  - exact (IH l l' H p Hp).
Qed.

Lemma store_step_rows_persist py_float db db' :
  store_step py_float db db' -> rows_persist db db'.
Proof.
  intros [db0 n u t s now|db0 sel c|db0 cfg detect dn ts|db0 c].
  - unfold add_product.
    destruct (negb (PyStr.nonempty (PyStr.strip n))
              || negb (PyStr.nonempty (PyStr.strip u))); [apply rows_persist_refl|].
    destruct (if PyStr.nonempty (PyStr.strip t) then _ else _) as [target|e];
      [|apply rows_persist_refl].
    unfold insert_product. destruct (existsb _ (products db0));
      [apply rows_persist_refl|].
    intros i p Hp. exists p. cbn [fst products]. split; [|repeat split; auto].
    rewrite nth_error_app1; [exact Hp|]. apply nth_error_Some. congruence.
  - unfold delete_product. destruct sel as [|product_name others];
      [apply rows_persist_refl|].
    destruct c; [|apply rows_persist_refl].
    destruct (bind_name_param product_name) as [text|e];
      [|apply rows_persist_refl].
    cbn [fst].
    eapply rows_persist_map; [reflexivity|]. intros p. cbv beta.
    destruct (String.eqb (p_name p) text); cbn [deactivated p_id p_name
      p_url p_active]; auto.
  - apply rows_persist_identity. apply check_loop_names.
  - unfold clear_history. destruct c; [|apply rows_persist_refl].
    intros i p Hp. exists p. repeat split; auto.
Qed.

Lemma store_run_rows_persist py_float db db' :
  store_run py_float db db' -> rows_persist db db'.
Proof.
  induction 1 as [db|db db1 db2 _ IH Hstep]; [apply rows_persist_refl|].
  eapply rows_persist_trans; [exact IH|].
  eapply store_step_rows_persist; eassumption.
Qed.

(** X14. A delete is for good: through any number of adds, deletes,
    cycles and history clears, a row that is not active stays in the
    table, not active, under its id and URL, so every later insert of that
    URL is refused. *)
Theorem deleted_product_stays_deleted py_float (db db' : database) (p : product) :
  store_run py_float db db' ->
  In p (products db) ->
  p_active p = 0 ->
  (exists p', In p' (products db') /\ p_id p' = p_id p /\ p_url p' = p_url p
              /\ p_active p' = 0)
  /\ forall name target selector now,
       insert_product db' name (p_url p) target selector now
       = Raise (IntegrityError "UNIQUE constraint failed: products.url").
Proof.
  intros Hrun Hin Hact.
  apply In_nth_error in Hin as [i Hi].
  destruct (store_run_rows_persist py_float db db' Hrun i p Hi)
    as [p' [Hp' [Hid [_ [Hurl Ha]]]]].
  assert (Hin' : In p' (products db')) by (eapply nth_error_In; eassumption).
  split.
  - exists p'. repeat split; auto. destruct Ha as [Ha|Ha]; congruence.
  - intros name target selector now. unfold insert_product.
    replace (existsb (fun q => String.eqb (p_url q) (p_url p)) (products db'))
      with true; [reflexivity|].
    symmetry. apply url_taken_iff. exists p'. auto.
Qed.

Lemma deleted_product_stays_deleted_witness :
  let db' := fst (check_all_prices Sample.cfg
                    (get_price_detector Sample.findall Sample.world Sample.cfg)
                    Sample.datetime_now Sample.current_timestamp
                    (fst (clear_history true Sample2.db_deleted))) in
  snd (add_product PyStr.float_of_decimal "Widget again"
         "https://shop.example/static" "" "" "2024-05-04 09:00:00" db')
  = [EvShowError "Error" "This URL is already being tracked"]
  /\ insert_product db' "Widget again" "https://shop.example/static" None ""
       "2024-05-04 09:00:00"
     = Raise (IntegrityError "UNIQUE constraint failed: products.url").
Proof.
  cbv zeta. split; [reflexivity|].
  destruct (nth_error (products Sample2.db_deleted) 0) as [p|] eqn:Hp;
    [|discriminate].
  assert (Hin : In p (products Sample2.db_deleted)) by (eapply nth_error_In; eassumption).
  vm_compute in Hp. injection Hp as <-.
  refine (proj2 (deleted_product_stays_deleted PyStr.float_of_decimal
                   Sample2.db_deleted _ _ _ Hin eq_refl)
            "Widget again" None "" "2024-05-04 09:00:00").
  eapply run_step; [eapply run_step; [apply run_done|]|].
  - apply (step_clear PyStr.float_of_decimal Sample2.db_deleted true).
  - apply step_check.
Defined.

(** ** What a cycle writes *)

(** X15. A cycle writes two columns only: row by row, in the same
    order, the table after the cycle has the ids, names, URLs, targets,
    creation times, selectors and active flags it had; and a row whose
    current price changed carries a last-checked timestamp. *)
Theorem check_all_prices_frame cfg detect datetime_now current_timestamp
  (db : database) :
  let db' := fst (check_all_prices cfg detect datetime_now current_timestamp db) in
  Forall2 same_identity (products db) (products db')
  /\ products_seq db' = products_seq db
  /\ Forall2 (fun p p' => p_current_price p' = p_current_price p
                          /\ p_last_checked p' = p_last_checked p
                          \/ exists np now, p_current_price p' = Some np
                                            /\ p_last_checked p' = Some now)
       (products db) (products db').
Proof.
  cbv zeta. unfold check_all_prices. split; [apply check_loop_names|].
  split; [apply check_loop_keys|].
  generalize (active_products db) as fetched. intros fetched. revert db.
  assert (Hrefl : forall l : list product,
            Forall2 (fun p p' => p_current_price p' = p_current_price p
                                 /\ p_last_checked p' = p_last_checked p
                                 \/ exists np now, p_current_price p' = Some np
                                                   /\ p_last_checked p' = Some now)
              l l).
  { induction l; constructor; auto. }
  induction fetched as [|q rest IH]; intros db; cbn [check_loop]; [apply Hrefl|].
  pose proof (check_step_db cfg detect datetime_now current_timestamp db q) as Hq.
  destruct (check_step cfg detect datetime_now current_timestamp db q) as [db1 ev1].
  specialize (IH db1).
  destruct (check_loop cfg detect datetime_now current_timestamp rest db1)
    as [db2 ev2].
  cbn [fst] in *. subst db1.
  destruct (stored_price detect q) as [np|]; [|exact IH].
  cbn [insert_history update_price products] in IH.
  revert IH. generalize (products db2) as l2. generalize (products db) as l.
  induction l as [|a l IHl]; intros l2 H; cbn [map] in H; inversion H; subst;
    constructor; [|now apply IHl].
  destruct (p_id a =? p_id q); [|assumption].
  match goal with Hx : _ \/ _ |- _ => destruct Hx as [[H1 H2]|Hx] end.
  - right. cbn [with_price p_current_price p_last_checked] in H1, H2. eauto.
  - now right.
Qed.

Lemma check_loop_history cfg detect datetime_now current_timestamp fetched :
  forall db,
  let db' := fst (check_loop cfg detect datetime_now current_timestamp fetched db) in
  price_history db'
  = price_history db
    ++ new_observations detect current_timestamp (price_history_seq db) fetched
  /\ price_history_seq db'
     = price_history_seq db
       + Z.of_nat (length (new_observations detect current_timestamp
                             (price_history_seq db) fetched)).
Proof.
  induction fetched as [|q rest IH]; intros db; cbn [check_loop new_observations].
  - cbn [fst length]. rewrite app_nil_r. split; [reflexivity|lia].
  - pose proof (check_step_db cfg detect datetime_now current_timestamp db q) as Hq.
    destruct (check_step cfg detect datetime_now current_timestamp db q)
      as [db1 ev1].
    specialize (IH db1). cbv zeta in IH.
    destruct (check_loop cfg detect datetime_now current_timestamp rest db1)
      as [db2 ev2].
    cbv zeta. cbn [fst] in *. destruct IH as [IH1 IH2]. subst db1.
    destruct (stored_price detect q) as [np|].
    + cbn [insert_history update_price price_history price_history_seq] in IH1, IH2.
      rewrite IH1, IH2, <- app_assoc. cbn [app length]. split; [reflexivity|lia].
    + auto.
Qed.

Lemma new_observations_ids detect current_timestamp fetched : forall seq,
  Forall (fun h => seq < h_id h
                   <= seq + Z.of_nat (length (new_observations detect
                                                current_timestamp seq fetched)))
    (new_observations detect current_timestamp seq fetched)
  /\ NoDup (map h_id (new_observations detect current_timestamp seq fetched)).
Proof.
  induction fetched as [|q rest IH]; intros seq; cbn [new_observations].
  - split; constructor.
  - destruct (stored_price detect q) as [np|]; [|apply IH].
    destruct (IH (seq + 1)) as [I1 I2]. cbn [length map h_id]. split.
    + constructor; [cbn [h_id]; lia|].
      eapply Forall_impl; [|exact I1]. intros h Hh. cbv beta in *. lia.
    + constructor; [|exact I2]. intros Hin.
      apply in_map_iff in Hin as [h [Hh Hin]].
      rewrite Forall_forall in I1. specialize (I1 h Hin). cbv beta in I1. lia.
Qed.

Lemma new_observations_rows detect current_timestamp fetched : forall seq,
  map (fun h => (h_product_id h, h_price h, h_timestamp h))
    (new_observations detect current_timestamp seq fetched)
  = flat_map (fun p => match stored_price detect p with
                       | Some np => [(p_id p, np, current_timestamp (p_id p))]
                       | None => []
                       end) fetched.
Proof.
  induction fetched as [|q rest IH]; intros seq;
    cbn [new_observations flat_map map]; [reflexivity|].
  destruct (stored_price detect q) as [np|]; cbn [map app]; now rewrite IH.
Qed.

(** X16. The history only grows in a cycle: the observations it held
    stay, in order, and the cycle appends one observation for each active
    product whose check stored a price, in the order of the table, with
    that price, under fresh ids; products without a stored price add
    nothing, and an unchanged price is recorded again. *)
Theorem check_all_prices_appends cfg detect datetime_now current_timestamp
  (db : database) :
  let db' := fst (check_all_prices cfg detect datetime_now current_timestamp db) in
  exists new,
    price_history db' = price_history db ++ new
    /\ map (fun h => (h_product_id h, h_price h, h_timestamp h)) new
       = flat_map (fun p => match stored_price detect p with
                            | Some np => [(p_id p, np, current_timestamp (p_id p))]
                            | None => []
                            end) (active_products db)
    /\ Forall (fun h => price_history_seq db < h_id h <= price_history_seq db') new
    /\ price_history_seq db' = price_history_seq db + Z.of_nat (length new).
Proof.
  cbv zeta. unfold check_all_prices.
  destruct (check_loop_history cfg detect datetime_now current_timestamp
              (active_products db) db) as [H1 H2].
  exists (new_observations detect current_timestamp (price_history_seq db)
            (active_products db)).
  split; [exact H1|]. split; [apply new_observations_rows|]. split; [|exact H2].
  rewrite H2. apply new_observations_ids.
Qed.

Example check_all_prices_twice_records_twice :
  let cycle := check_all_prices Sample.cfg
                 (get_price_detector Sample.findall Sample.world Sample.cfg)
                 Sample.datetime_now Sample.current_timestamp in
  map (fun h => (h_id h, h_product_id h, h_price h))
    (price_history (fst (cycle (fst (cycle Sample.db3)))))
  = [(1, 1, 8.00%Q); (2, 2, 12.50%Q); (3, 1, 8.00%Q); (4, 2, 12.50%Q)].
Proof. reflexivity. Qed.

(** ** The history table *)

Lemma new_observations_products detect current_timestamp fetched : forall seq,
  Forall (fun h => In (h_product_id h) (map p_id fetched))
    (new_observations detect current_timestamp seq fetched).
Proof.
  induction fetched as [|q rest IH]; intros seq; cbn [new_observations map];
    [constructor|].
  destruct (stored_price detect q) as [np|].
  - constructor; [now left|].
    eapply Forall_impl; [|apply IH]. intros h Hh. now right.
  - eapply Forall_impl; [|apply IH]. intros h Hh. now right.
Qed.

Lemma history_wf_products (db db' : database) :
  price_history db' = price_history db ->
  price_history_seq db' = price_history_seq db ->
  (forall id, In id (map p_id (products db)) -> In id (map p_id (products db'))) ->
  history_wf db -> history_wf db'.
Proof.
  intros Hh Hs Hids [H1 [H2 [H3 H4]]]. unfold history_wf. rewrite Hh, Hs.
  repeat split; auto. eapply Forall_impl; [|exact H4]. intros h. apply Hids.
Qed.

Lemma history_wf_check cfg detect datetime_now current_timestamp db :
  history_wf db ->
  history_wf (fst (check_all_prices cfg detect datetime_now current_timestamp db)).
Proof.
  intros [H1 [H2 [H3 H4]]]. unfold check_all_prices.
  destruct (check_loop_history cfg detect datetime_now current_timestamp
              (active_products db) db) as [Hh Hs].
  destruct (check_loop_keys cfg detect datetime_now current_timestamp
              (active_products db) db) as [Hids _].
  destruct (new_observations_ids detect current_timestamp (active_products db)
              (price_history_seq db)) as [N1 N2].
  pose proof (new_observations_products detect current_timestamp
                (active_products db) (price_history_seq db)) as N3.
  unfold history_wf. rewrite Hh, Hs, Hids. rewrite Forall_forall in H2, N1.
  repeat split.
  - rewrite map_app. apply NoDup_app; [exact H1|exact N2|].
    intros id Ha Hb. apply in_map_iff in Ha as [h [<- Ha]].
    apply in_map_iff in Hb as [h' [E Hb]].
    specialize (H2 h Ha). specialize (N1 h' Hb). cbv beta in N1. lia.
  - apply Forall_app. split; apply Forall_forall; intros h Hh'.
    + specialize (H2 h Hh'). lia.
    + specialize (N1 h Hh'). cbv beta in N1. lia.
  - lia.
  - apply Forall_app. split; [exact H4|].
    eapply Forall_impl; [|exact N3]. intros h Hin.
    apply in_map_iff in Hin as [q [<- Hq]]. apply in_map.
    unfold active_products in Hq. now apply filter_In in Hq as [Hq _].
Qed.

Lemma reachable_history_wf py_float db :
  reachable py_float db -> history_wf db.
Proof.
  induction 1 as [|db n u t s now _ IH|db sel c _ IH|db re W cfg dn ts _ IH
                  |db c _ IH|db c _ IH].
  - repeat split; try constructor. cbn. lia.
  - unfold add_product.
    destruct (negb (PyStr.nonempty (PyStr.strip n))
              || negb (PyStr.nonempty (PyStr.strip u))); [exact IH|].
    destruct (if PyStr.nonempty (PyStr.strip t) then _ else _) as [target|e];
      [|exact IH].
    unfold insert_product.
    destruct (existsb (fun p => String.eqb (p_url p) (PyStr.strip u)) (products db));
      [exact IH|].
    cbn [fst].
    apply history_wf_products with (db := db); [reflexivity|reflexivity| |exact IH].
    intros id Hid. cbn [fst products]. rewrite map_app. apply in_or_app. now left.
  - unfold delete_product. destruct sel as [|product_name others]; [exact IH|].
    destruct c; [|exact IH].
    destruct (bind_name_param product_name) as [text|e]; [|exact IH]. cbn [fst].
    apply history_wf_products with (db := db); [reflexivity|reflexivity| |exact IH].
    intros id Hid. cbn [deactivate_by_name products]. rewrite map_map.
    erewrite map_ext; [exact Hid|]. intros q. cbv beta.
    destruct (String.eqb (p_name q) text); reflexivity.
  - now apply history_wf_check.
  - destruct c; [|exact IH]. destruct IH as [_ [_ [H3 _]]].
    repeat split; try constructor. exact H3.
  - destruct c; [|exact IH]. repeat split; try constructor. cbn. lia.
Qed.

(** X17. Observation ids are never handed out twice. In every state the
    program reaches the ids of the history are distinct; and clearing the
    history keeps the counter, so the observations of a later cycle get
    ids above every id the cleared history held. *)
Theorem observation_ids_never_reused py_float (db : database) cfg detect
  datetime_now current_timestamp :
  reachable py_float db ->
  NoDup (map h_id (price_history db))
  /\ forall h h0,
       In h (price_history
               (fst (check_all_prices cfg detect datetime_now current_timestamp
                       (fst (clear_history true db))))) ->
       In h0 (price_history db) ->
       h_id h0 < h_id h.
Proof.
  intros Hr. destruct (reachable_history_wf py_float db Hr) as [H1 [H2 _]].
  split; [exact H1|]. intros h h0 Hh Hh0.
  rewrite Forall_forall in H2. specialize (H2 h0 Hh0).
  pose proof (check_all_prices_appends_aux := check_loop_history cfg detect
                datetime_now current_timestamp
                (active_products (fst (clear_history true db)))
                (fst (clear_history true db))).
  destruct check_all_prices_appends_aux as [Hhist _].
  unfold check_all_prices in Hh. rewrite Hhist in Hh.
  cbn [clear_history fst price_history price_history_seq app] in Hh.
  destruct (new_observations_ids detect current_timestamp
              (active_products
                 {| products := products db; products_seq := products_seq db;
                    price_history := []; price_history_seq := price_history_seq db |})
              (price_history_seq db)) as [N1 _].
  rewrite Forall_forall in N1. specialize (N1 h Hh). cbv beta in N1. lia.
Qed.

Lemma observation_ids_never_reused_witness :
  let db' := fst (check_all_prices Sample.cfg
                    (get_price_detector Sample.findall Sample.world Sample.cfg)
                    Sample.datetime_now Sample.current_timestamp
                    (fst (clear_history true Sample.db4))) in
  map h_id (price_history Sample.db4) = [1; 2]
  /\ map h_id (price_history db') = [3; 4]
  /\ NoDup (map h_id (price_history Sample.db4)).
Proof.
  cbv zeta. split; [reflexivity|]. split; [reflexivity|].
  apply (observation_ids_never_reused PyStr.float_of_decimal Sample.db4
           Sample.cfg (get_price_detector Sample.findall Sample.world Sample.cfg)
           Sample.datetime_now Sample.current_timestamp).
  apply reach_check. apply reach_add. apply reach_add. apply reach_add.
  apply reach_init.
Defined.

(** X18. No observation is orphaned: in every state the program reaches,
    each observation belongs to a row of the products table, deleted
    products included, since a delete keeps the row and its history. *)
Theorem observations_have_products py_float (db : database) :
  reachable py_float db ->
  forall h, In h (price_history db) ->
    exists p, product_by_id db (h_product_id h) = Some p
              /\ p_id p = h_product_id h.
Proof.
  intros Hr h Hh. destruct (reachable_history_wf py_float db Hr) as [_ [_ [_ H4]]].
  rewrite Forall_forall in H4. specialize (H4 h Hh).
  apply in_map_iff in H4 as [q [Hq Hin]]. unfold product_by_id.
  destruct (find (fun p => p_id p =? h_product_id h) (products db)) as [p|] eqn:Hf.
  - exists p. split; [reflexivity|]. apply find_some in Hf as [_ Hf].
    now apply Z.eqb_eq in Hf.
  - exfalso. pose proof (find_none _ _ Hf q Hin) as Hn. cbv beta in Hn.
    apply Z.eqb_neq in Hn. contradiction.
Qed.

Lemma observations_have_products_witness :
  let db := fst (delete_product [Sample.pick "Widget"] true Sample.db4) in
  map h_product_id (price_history db) = [1; 2]
  /\ map p_active (products db) = [0; 0; 1]
  /\ forall h, In h (price_history db) ->
       exists p, product_by_id db (h_product_id h) = Some p
                 /\ p_id p = h_product_id h.
Proof.
  cbv zeta. split; [reflexivity|]. split; [reflexivity|].
  apply (observations_have_products PyStr.float_of_decimal).
  apply reach_delete. apply reach_check. apply reach_add. apply reach_add.
  apply reach_add. apply reach_init.
Defined.

(** ** From one cycle to the next *)

Lemma stored_price_some detect (p : product) (np : Q) :
  stored_price detect p = Some np ->
  fst (detect (p_url p) (p_selector p)) = Return (Some np) /\ truthy np = true.
Proof.
  unfold stored_price.
  destruct (fst (detect (p_url p) (p_selector p))) as [[q|]|e]; try discriminate.
  destruct (truthy q) eqn:Ht; [|discriminate]. now intros [= <-].
Qed.

(** X19. The price a cycle stores is the old price of the next cycle:
    the row is fetched again with that price, the price-drop test of the
    next check passes exactly when the new price is below it and the
    setting is on, and then the alert is in the log of the next cycle. A
    price that stays the same raises no price-drop alert. *)
Theorem next_cycle_compares_with_stored_price cfg1 detect1 datetime_now1
  current_timestamp1 cfg detect (db : database) (p : product) (np1 : Q) :
  NoDup (map p_id (products db)) ->
  In p (active_products db) ->
  stored_price detect1 p = Some np1 ->
  let db' := fst (check_all_prices cfg1 detect1 datetime_now1 current_timestamp1 db) in
  let p' := with_price np1 (datetime_now1 (p_id p)) p in
  In p' (active_products db')
  /\ (forall np2,
        price_drop_fires cfg (p_current_price p') np2 = true
        <-> (np2 < np1)%Q /\ notify_price_drop cfg = true)
  /\ (forall np2 datetime_now current_timestamp,
        stored_price detect p' = Some np2 ->
        (np2 < np1)%Q -> notify_price_drop cfg = true ->
        In (EvNotify (PriceDrop (p_name p) np2))
          (snd (check_all_prices cfg detect datetime_now current_timestamp db'))).
Proof.
  intros Hnd Hin Hs1 db' p'.
  destruct (stored_price_some detect1 p np1 Hs1) as [_ Ht1].
  assert (Hp : In p (products db) /\ p_active p = 1).
  { unfold active_products in Hin. apply filter_In in Hin as [H1 H2].
    apply Z.eqb_eq in H2. auto. }
  destruct Hp as [Hp Hact].
  assert (Hin' : In p' (active_products db')).
  { pose proof (check_loop_handled cfg1 detect1 datetime_now1 current_timestamp1
                  (active_products db) db p (NoDup_map_filter p_id _ _ Hnd) Hin)
      as H. cbv zeta in H. rewrite Hs1 in H. destruct H as [H _].
    rewrite (product_by_id_in db p Hnd Hp) in H. cbn [option_map] in H.
    unfold product_by_id in H. apply find_some in H as [H _].
    unfold active_products. apply filter_In. split; [exact H|].
    unfold p'. cbn [with_price p_active]. now apply Z.eqb_eq. }
  assert (Hdrop : forall np2,
            price_drop_fires cfg (p_current_price p') np2 = true
            <-> (np2 < np1)%Q /\ notify_price_drop cfg = true).
  { intros np2. unfold p'. cbn [with_price p_current_price price_drop_fires].
    rewrite Ht1. cbn [andb]. rewrite andb_true_iff, Qlt_bool_iff. tauto. }
  split; [exact Hin'|]. split; [exact Hdrop|].
  intros np2 dn ts Hs2 Hlt Hflag.
  unfold check_all_prices. rewrite check_loop_log. apply in_flat_map.
  exists p'. split; [exact Hin'|].
  destruct (stored_price_some detect p' np2 Hs2) as [Hd Ht2].
  unfold step_log. rewrite Hd, Ht2. apply in_or_app. right.
  change (p_name p) with (p_name p'). apply notifications_drop.
  split; [|auto]. apply Hdrop. auto.
Qed.

Lemma next_cycle_compares_with_stored_price_witness :
  let detect := get_price_detector Sample.findall Sample.world Sample.cfg in
  let db' := fst (check_all_prices Sample.cfg detect Sample.datetime_now
                    Sample.current_timestamp Sample.db_ab) in
  In (with_price 8.00%Q "2024-05-02T08:00:00" Sample.row_b) (active_products db')
  /\ price_drop_fires Sample.cfg (Some 8.00%Q) 8.00%Q = false
  /\ price_drop_fires Sample.cfg (Some 8.00%Q) 7.99%Q = true.
Proof.
  cbv zeta. split; [|split; reflexivity].
  assert (Hnd : NoDup (map p_id (products Sample.db_ab))).
  { change (NoDup [1; 2]). repeat constructor; cbn [In]; intuition discriminate. }
  exact (proj1 (next_cycle_compares_with_stored_price Sample.cfg
                  (get_price_detector Sample.findall Sample.world Sample.cfg)
                  Sample.datetime_now Sample.current_timestamp Sample.cfg
                  (get_price_detector Sample.findall Sample.world Sample.cfg)
                  Sample.db_ab Sample.row_b 8.00%Q Hnd
                  (or_intror (or_introl eq_refl)) eq_refl)).
Defined.

(** ** More on the scheduler *)

Lemma to_nat_minutes (m : Z) : Z.to_nat (m * 60) = (60 * Z.to_nat m)%nat.
Proof. destruct m; cbn; lia. Qed.

(** X20. With an interval of [m] minutes that [int] accepts and no stop
    in between, one turn of the loop runs the cycle and then waits
    [60 * m] seconds; an interval of zero or below is accepted too, and
    then the next cycle follows at once. *)
Theorem loop_body_waits_interval cfg py_int flag cycle (t : nat)
  (db db1 : database) (evs : list event) (m : Z) :
  cycle t db = Return (db1, evs) ->
  py_int (interval_var cfg) = Some m ->
  (forall u, (t <= u < t + 60 * Z.to_nat m)%nat -> flag u = true) ->
  loop_body cfg py_int flag cycle t db
  = ((t + 60 * Z.to_nat m)%nat, db1, evs ++ [EvLoadProducts])
  /\ (m <= 0 -> fst (fst (loop_body cfg py_int flag cycle t db)) = t).
Proof.
  intros Hc Hint Hflag. unfold loop_body. rewrite Hc, Hint, to_nat_minutes.
  rewrite wait_loop_full by exact Hflag. split; [reflexivity|].
  intros Hm. cbn [fst]. replace (Z.to_nat m) with 0%nat by lia. lia.
Qed.

Lemma loop_body_waits_interval_witness :
  fst (fst (loop_body Sample.cfg PyStr.int_of_decimal (fun _ => true)
              (Sample.cycle Sample.cfg) 0 Sample.db3)) = 3600%nat
  /\ fst (fst (loop_body Sample2.cfg_zero PyStr.int_of_decimal (fun _ => true)
                 (Sample.cycle Sample2.cfg_zero) 7 Sample.db3)) = 7%nat.
Proof.
  split.
  - rewrite (proj1 (loop_body_waits_interval Sample.cfg PyStr.int_of_decimal
                      (fun _ => true) (Sample.cycle Sample.cfg) 0 Sample.db3
                      _ _ 60 eq_refl eq_refl (fun _ _ => eq_refl))).
    reflexivity.
  - apply (proj2 (loop_body_waits_interval Sample2.cfg_zero PyStr.int_of_decimal
                    (fun _ => true) (Sample.cycle Sample2.cfg_zero) 7 Sample.db3
                    _ _ 0 eq_refl eq_refl (fun _ _ => eq_refl))).
    discriminate.
Defined.

(** X21. The sleep after an error is not interruptible. When a turn ends
    in the 60-second recovery sleep (the interval is rejected by [int], or
    the cycle raised), a stop issued during that sleep is seen only when
    it is over: the loop ends 60 seconds after the turn began. *)
Theorem tracking_loop_recovery_sleep_not_polled cfg py_int flag cycle
  (turns t : nat) (db : database) :
  (py_int (interval_var cfg) = None \/ exists e, cycle t db = Raise e) ->
  flag t = true ->
  flag (t + 60)%nat = false ->
  let s := tracking_loop cfg py_int flag cycle (S (S turns)) t db in
  ls_status s = Exited /\ ls_time s = (t + 60)%nat.
Proof.
  intros Herr Hstart Hstop. cbn [tracking_loop]. rewrite Hstart.
  assert (Ht : fst (fst (loop_body cfg py_int flag cycle t db)) = (t + 60)%nat).
  { destruct Herr as [Hint|[e He]].
    - now apply loop_body_malformed_time.
    - unfold loop_body. now rewrite He. }
  destruct (loop_body cfg py_int flag cycle t db) as [[t1 db1] evs].
  cbn [fst] in Ht. subst t1. rewrite Hstop. cbn [ls_status ls_time]. auto.
Qed.

Lemma tracking_loop_recovery_sleep_not_polled_witness :
  let s := tracking_loop Sample.cfg_abc PyStr.int_of_decimal Sample2.stopped_at_30
             (Sample.cycle Sample.cfg_abc) 2 0 Sample.db3 in
  Sample2.stopped_at_30 30 = false
  /\ ls_status s = Exited /\ ls_time s = 60%nat.
Proof.
  cbv zeta. split; [reflexivity|].
  apply (tracking_loop_recovery_sleep_not_polled Sample.cfg_abc
           PyStr.int_of_decimal Sample2.stopped_at_30
           (Sample.cycle Sample.cfg_abc) 0 0 Sample.db3);
    [left; reflexivity|reflexivity|reflexivity].
Defined.

(** X22. The loop ends only on the flag: as long as every reading of the
    flag is True it goes on, whatever the interval and whatever the cycles
    do; and the thread's clock never runs backwards. *)
Theorem tracking_loop_runs_while_active cfg py_int flag cycle :
  (forall turns t db,
     (t <= ls_time (tracking_loop cfg py_int flag cycle turns t db))%nat)
  /\ ((forall u, flag u = true) ->
      forall turns t db,
        ls_status (tracking_loop cfg py_int flag cycle turns t db) = StillRunning).
Proof.
  assert (Hbody : forall t db,
            (t <= fst (fst (loop_body cfg py_int flag cycle t db)))%nat).
  { intros t db. unfold loop_body.
    destruct (cycle t db) as [[db1 evs]|e]; cbn [fst]; [|lia].
    destruct (py_int (interval_var cfg)) as [m|]; cbn [fst]; [|lia].
    apply wait_loop_bounds. }
  split.
  - induction turns as [|turns IH]; intros t db; cbn [tracking_loop];
      [cbn [ls_time]; lia|].
    destruct (flag t); [|cbn [ls_time]; lia].
    specialize (Hbody t db).
    destruct (loop_body cfg py_int flag cycle t db) as [[t1 db1] evs].
    cbn [fst ls_time] in *. specialize (IH t1 db1). lia.
  - intros Hflag. induction turns as [|turns IH]; intros t db;
      cbn [tracking_loop]; [reflexivity|].
    rewrite Hflag.
    destruct (loop_body cfg py_int flag cycle t db) as [[t1 db1] evs].
    cbn [ls_status]. apply IH.
Qed.

Lemma tracking_loop_runs_while_active_witness :
  ls_status (tracking_loop Sample.cfg PyStr.int_of_decimal (fun _ => true)
               (Sample.cycle Sample.cfg) 2 0 Sample.db3) = StillRunning.
Proof.
  apply (proj2 (tracking_loop_runs_while_active Sample.cfg PyStr.int_of_decimal
                  (fun _ => true) (Sample.cycle Sample.cfg)) (fun _ => eq_refl)).
Defined.

(** ** Views after a delete and after a cycle *)

Lemma active_products_deactivate (db : database) (product_name : string) :
  active_products (deactivate_by_name db product_name)
  = filter (fun p => negb (String.eqb (p_name p) product_name))
      (active_products db).
Proof.
  unfold active_products, deactivate_by_name. cbn [products].
  induction (products db) as [|p l IH]; cbn [map filter]; [reflexivity|].
  destruct (String.eqb (p_name p) product_name) eqn:E.
  - cbn [deactivated p_active]. change (0 =? 1) with false. cbv iota.
    rewrite IH. destruct (p_active p =? 1); [|reflexivity].
    cbn [filter]. now rewrite E.
  - rewrite IH. destruct (p_active p =? 1); [|reflexivity].
    cbn [filter]. now rewrite E.
Qed.

(** X23. After a confirmed delete the tree view shows the rows it showed
    before, in the same order, less those whose name is the text the
    UPDATE compared with: the selected name as ttk handed it back, an
    integer in decimal. A row of the view never has the status Inactive. *)
Theorem load_products_after_delete format_price format_time
  (value : tk_value) (others : list tk_value) (text : string) (db : database) :
  bind_name_param value = Return text ->
  load_products format_price format_time
    (fst (delete_product (value :: others) true db))
  = filter (fun r => negb (String.eqb (tr_name r) text))
      (load_products format_price format_time db)
  /\ forall r, In r (load_products format_price format_time db) ->
       tr_status r = "Active" \/ tr_status r = "Target Reached!".
Proof.
  intros Hbind. split.
  - cbn [delete_product]. rewrite Hbind. cbn [fst]. unfold load_products.
    rewrite active_products_deactivate.
    induction (active_products db) as [|p l IH]; cbn [map filter]; [reflexivity|].
    cbn [product_row tr_name].
    destruct (String.eqb (p_name p) text); cbn [negb map];
      now rewrite IH.
  - intros r Hr. unfold load_products in Hr. apply in_map_iff in Hr as [p [<- Hp]].
    unfold active_products in Hp. apply filter_In in Hp as [_ Hact].
    apply Z.eqb_eq in Hact. cbn [product_row tr_status]. unfold product_status.
    rewrite Hact. change (1 =? 0) with false. cbv iota.
    destruct (p_current_price p) as [c|]; [|now left].
    destruct (p_target_price p) as [t|]; [|now left].
    destruct (truthy c && truthy t && Qle_bool c t); [now right|now left].
Qed.

Example load_products_sample :
  map (fun r => (tr_name r, tr_current r, tr_target r, tr_last_checked r, tr_status r))
    (load_products Sample2.format_price Sample2.format_time Sample.db4)
  = [("Widget", "$8.00", "$9.00", "2024-05-02 08:00", "Target Reached!");
     ("Widget", "$12.50", "N/A", "2024-05-02 08:00", "Active");
     ("Gadget", "N/A", "N/A", "Never", "Active")].
Proof. reflexivity. Qed.

Lemma load_products_after_delete_witness :
  map tr_name (load_products Sample2.format_price Sample2.format_time
                 (fst (delete_product [Sample.pick "Widget"] true Sample.db4)))
  = ["Gadget"]
  /\ map tr_name (load_products Sample2.format_price Sample2.format_time
                    (fst (delete_product [Sample.pick "007"] true Sample.db_007)))
     = ["007"]
  /\ load_products Sample2.format_price Sample2.format_time
       (fst (delete_product [Sample.pick "007"] true Sample.db_007))
     = filter (fun r => negb (String.eqb (tr_name r) "7"))
         (load_products Sample2.format_price Sample2.format_time Sample.db_007).
Proof.
  split; [reflexivity|]. split; [reflexivity|].
  exact (proj1 (load_products_after_delete Sample2.format_price
                  Sample2.format_time (Sample.pick "007") [] "7" Sample.db_007
                  eq_refl)).
Defined.

Lemma export_rows_deactivate (h : observation) (product_name : string)
  (l : list product) :
  map (fun p => (h, p_name p))
    (filter (fun p => (p_id p =? h_product_id h) && (p_active p =? 1))
       (map (fun p => if String.eqb (p_name p) product_name then deactivated p
                      else p) l))
  = filter (fun hn => negb (String.eqb (snd hn) product_name))
      (map (fun p => (h, p_name p))
         (filter (fun p => (p_id p =? h_product_id h) && (p_active p =? 1)) l)).
Proof.
  induction l as [|p l IH]; cbn [map filter]; [reflexivity|].
  destruct (String.eqb (p_name p) product_name) eqn:E.
  - cbn [deactivated p_id p_active]. change (0 =? 1) with false.
    rewrite andb_false_r. cbv iota. rewrite IH.
    destruct ((p_id p =? h_product_id h) && (p_active p =? 1)); [|reflexivity].
    cbn [map filter snd]. now rewrite E.
  - destruct ((p_id p =? h_product_id h) && (p_active p =? 1)).
    + cbn [map filter snd]. now rewrite E, IH.
    + exact IH.
Qed.

(** X24. A confirmed delete takes out of the export the observations
    and the products of the name the UPDATE compared with (the selected
    name as ttk handed it back, an integer in decimal) and leaves them in
    the store: the export is the one before less the entries of that name,
    and the history table is as it was. *)
Theorem export_after_delete (value : tk_value) (others : list tk_value)
  (text : string) (db : database) :
  bind_name_param value = Return text ->
  let db' := fst (delete_product (value :: others) true db) in
  export_history db'
  = filter (fun hn => negb (String.eqb (snd hn) text)) (export_history db)
  /\ export_products db'
     = filter (fun p => negb (String.eqb (p_name p) text))
         (export_products db)
  /\ price_history db' = price_history db.
Proof.
  intros Hbind. cbn [delete_product]. rewrite Hbind. cbn [fst].
  split; [|split; [apply active_products_deactivate|reflexivity]].
  unfold export_history. cbn [deactivate_by_name price_history products].
  induction (price_history db) as [|h hs IH]; cbn [flat_map filter]; [reflexivity|].
  rewrite IH, export_rows_deactivate.
  generalize (map (fun p => (h, p_name p))
                (filter (fun p => (p_id p =? h_product_id h) && (p_active p =? 1))
                   (products db))) as rows.
  generalize (flat_map
                (fun h0 => map (fun p => (h0, p_name p))
                   (filter (fun p => (p_id p =? h_product_id h0) && (p_active p =? 1))
                      (products db))) hs) as tail.
  intros tail rows. induction rows as [|r rows IHr]; cbn [app filter]; [reflexivity|].
  destruct (negb (String.eqb (snd r) text)); cbn [app]; now rewrite IHr.
Qed.

Lemma export_after_delete_witness :
  map (fun hn => (h_price (fst hn), snd hn)) (export_history Sample.db4)
  = [(8.00%Q, "Widget"); (12.50%Q, "Widget")]
  /\ export_history (fst (delete_product [Sample.pick "Widget"] true Sample.db4))
     = filter (fun hn => negb (String.eqb (snd hn) "Widget"))
         (export_history Sample.db4)
  /\ map p_name (export_products
                   (fst (delete_product [Sample.pick "007"] true Sample.db_007)))
     = ["007"].
Proof.
  split; [reflexivity|]. split; [|reflexivity].
  exact (proj1 (export_after_delete (Sample.pick "Widget") [] "Widget" Sample.db4
                  eq_refl)).
Defined.

Example export_sample :
  map (fun hn => (h_price (fst hn), snd hn)) (export_history Sample.db4)
  = [(8.00%Q, "Widget"); (12.50%Q, "Widget")]
  /\ export_history (fst (delete_product [Sample.pick "Widget"] true Sample.db4)) = []
  /\ map h_price (price_history (fst (delete_product [Sample.pick "Widget"] true Sample.db4)))
     = [8.00%Q; 12.50%Q].
Proof. repeat split. Qed.

Lemma stored_row_refetched cfg detect datetime_now current_timestamp
  (db : database) (p : product) (np : Q) :
  NoDup (map p_id (products db)) ->
  In p (active_products db) ->
  stored_price detect p = Some np ->
  In (with_price np (datetime_now (p_id p)) p)
    (active_products
       (fst (check_all_prices cfg detect datetime_now current_timestamp db))).
Proof.
  intros Hnd Hin Hs.
  assert (Hp : In p (products db) /\ p_active p = 1).
  { unfold active_products in Hin. apply filter_In in Hin as [H1 H2].
    apply Z.eqb_eq in H2. auto. }
  destruct Hp as [Hp Hact].
  pose proof (check_loop_handled cfg detect datetime_now current_timestamp
                (active_products db) db p (NoDup_map_filter p_id _ _ Hnd) Hin)
    as H. cbv zeta in H. rewrite Hs in H. destruct H as [H _].
  rewrite (product_by_id_in db p Hnd Hp) in H. cbn [option_map] in H.
  unfold product_by_id in H. apply find_some in H as [H _].
  unfold active_products. apply filter_In. split; [exact H|].
  cbn [with_price p_active]. now apply Z.eqb_eq.
Qed.

(** X25. After a cycle stored a price for a product, the tree view has
    the row of that product with the new price in the current-price
    column; its status is Target Reached! exactly when the product has a
    target other than zero and the new price is at most the target,
    whether or not the target notification is switched on. *)
Theorem load_products_after_check format_price format_time cfg detect
  datetime_now current_timestamp (db : database) (p : product) (np : Q) :
  NoDup (map p_id (products db)) ->
  In p (active_products db) ->
  stored_price detect p = Some np ->
  let db' := fst (check_all_prices cfg detect datetime_now current_timestamp db) in
  let row := product_row format_price format_time
               (with_price np (datetime_now (p_id p)) p) in
  In row (load_products format_price format_time db')
  /\ tr_name row = p_name p
  /\ tr_current row = ("$" ++ format_price np)%string
  /\ (tr_status row = "Target Reached!"
      <-> exists t, p_target_price p = Some t /\ ~ (t == 0)%Q /\ (np <= t)%Q).
Proof.
  intros Hnd Hin Hs db' row.
  destruct (stored_price_some detect p np Hs) as [_ Ht].
  assert (Hact : p_active p = 1).
  { unfold active_products in Hin. apply filter_In in Hin as [_ H].
    now apply Z.eqb_eq in H. }
  split; [|split; [reflexivity|split]].
  - unfold load_products. apply in_map.
    now apply stored_row_refetched.
  - unfold row. cbn [product_row with_price tr_current p_current_price].
    now rewrite Ht.
  - unfold row. cbn [product_row tr_status]. unfold product_status.
    cbn [with_price p_active p_current_price p_target_price].
    rewrite Hact, Ht. change (1 =? 0) with false. cbv iota. cbn [andb].
    destruct (p_target_price p) as [t|].
    + destruct (truthy t) eqn:Htt; cbn [andb].
      * destruct (Qle_bool np t) eqn:Hle.
        -- split; [intros _|reflexivity]. exists t. split; [reflexivity|].
           split; [|now apply Qle_bool_iff].
           unfold truthy in Htt. apply negb_true_iff in Htt.
           now apply Qeq_bool_neq.
        -- split; [discriminate|]. intros [t' [[= <-] [_ H]]].
           apply Qle_bool_iff in H. congruence.
      * split; [discriminate|]. intros [t' [[= <-] [H _]]].
        unfold truthy in Htt. apply negb_false_iff in Htt.
        apply Qeq_bool_eq in Htt. contradiction.
    + split; [discriminate|]. intros [t' [H _]]. discriminate.
Qed.

Lemma load_products_after_check_witness :
  let row := product_row Sample2.format_price Sample2.format_time
               (with_price 8.00%Q "2024-05-02T08:00:00" Sample.row_b) in
  In row (load_products Sample2.format_price Sample2.format_time
            (fst (check_all_prices Sample.cfg
                    (get_price_detector Sample.findall Sample.world Sample.cfg)
                    Sample.datetime_now Sample.current_timestamp Sample.db_ab)))
  /\ tr_current row = "$8.00" /\ tr_status row = "Active".
Proof.
  cbv zeta. split; [|split; reflexivity].
  assert (Hnd : NoDup (map p_id (products Sample.db_ab))).
  { change (NoDup [1; 2]). repeat constructor; cbn [In]; intuition discriminate. }
  exact (proj1 (load_products_after_check Sample2.format_price
                  Sample2.format_time Sample.cfg
                  (get_price_detector Sample.findall Sample.world Sample.cfg)
                  Sample.datetime_now Sample.current_timestamp Sample.db_ab
                  Sample.row_b 8.00%Q Hnd (or_intror (or_introl eq_refl)) eq_refl)).
Defined.

(** ** Keys of the products table *)

(** X26. In every state the program reaches no two rows of the products
    table share an id, and no two share a URL, active or not: a URL names
    at most one row. *)
Theorem reachable_rows_unique py_float (db : database) :
  reachable py_float db ->
  NoDup (map p_id (products db))
  /\ NoDup (map p_url (products db))
  /\ forall p q, In p (products db) -> In q (products db) ->
       p_url p = p_url q \/ p_id p = p_id q -> p = q.
Proof.
  intros Hr. destruct (reachable_keys_wf py_float db Hr) as [H1 [_ H3]].
  split; [exact H1|]. split; [exact H3|].
  intros p q Hp Hq [E|E].
  - now apply (NoDup_map_inj p_url (products db)).
  - now apply (NoDup_map_inj p_id (products db)).
Qed.

Lemma reachable_rows_unique_witness :
  map p_id (products Sample2.db_deleted) = [1; 2; 3]
  /\ NoDup (map p_url (products Sample2.db_deleted)).
Proof.
  split; [reflexivity|].
  apply (reachable_rows_unique PyStr.float_of_decimal Sample2.db_deleted).
  apply reach_delete. apply reach_add. apply reach_add. apply reach_add.
  apply reach_init.
Defined.
